(** * A cross-origin isolated static file server: [src/server.py]

    The program is a fourteen line script.  It subclasses the standard
    library's [http.server.SimpleHTTPRequestHandler], overrides one method,
    [end_headers], to send two more headers, and runs the subclass under
    [socketserver.TCPServer] on port 9999.

    The script has no behaviour apart from the inherited methods it runs,
    so the development embeds both:
    - from the repository, [src/server.py]: [PORT] (line 4),
      [CrossOriginIsolatedHandler.end_headers] (lines 6-10) and the
      script body (lines 12-15, [Server.main]);
    - from the CPython 3.11 standard library, the methods the script
      inherits and calls: [Lib/http/server.py] (cited as
      [http/server.py] with its line numbers), [Lib/socketserver.py],
      [Lib/posixpath.py], [Lib/shutil.py].
    Every definition names the Python function it embeds.

    Conventions.
    - A Python [str] is a [string]: the text this server handles is decoded
      from ISO-8859-1 or is a literal, so its code points are below 256 and
      [encode('latin-1')] maps them one to one to octets.
    - [bytes] are [list byte].
    - An attribute that may be missing ([hasattr]) is an [option].
    - Methods are computations in a state and exception monad over the
      handler object; [self.end_headers()] and [getattr(self, ...)] are
      late bound, so the inherited methods take them as parameters of
      their section.
    - Library services whose results the handler only passes along
      (clock, [repr], [int], MIME table, header parser, percent decoding,
      ...) are the fields of a [Platform] record; the file system is a
      [FileSystem] record of the four calls the handler makes; the
      operating system (ports, output streams, command line, environment)
      is a [World] record.  Writes to the connection do not fail.
    - The server loop never ends, so the script is run on the finite list
      of events that have happened so far. *)

From Stdlib Require Import ZArith Lia List Strings.Ascii Strings.String Strings.Byte DecimalString.
From stdpp Require Import base option list strings gmap.

Local Open Scope Z_scope.

(** ** Python strings and bytes *)

Module Py.

Definition bytes := list byte.

Definition CR : ascii := ascii_of_nat 13.
Definition LF : ascii := ascii_of_nat 10.
Definition CRLF : string := String CR (String LF EmptyString).

(** [s.encode('latin-1', 'strict')] on text below code point 256. *)
Definition encode_latin1 (s : string) : bytes := list_byte_of_string s.

(** [str(b, 'iso-8859-1')]. *)
Definition decode_latin1 (b : bytes) : string := string_of_list_byte b.

(** [b"".join(chunks)]. *)
Definition join_bytes (chunks : list bytes) : bytes := concat chunks.

(** [str(n)] and ["%d" % n] for an integer. *)
Definition str_of_int (n : Z) : string := NilZero.string_of_int (Z.to_int n).

(** [c.lower()] on the Latin-1 range: A-Z and the letters U+00C0..U+00DE
    other than the multiplication sign U+00D7 move up by 32. *)
Definition lower_ascii (c : ascii) : ascii :=
  let n := nat_of_ascii c in
  if ((65 <=? n)%nat && (n <=? 90)%nat)
     || ((192 <=? n)%nat && (n <=? 222)%nat && negb (n =? 215)%nat)
  then ascii_of_nat (n + 32) else c.

Fixpoint lower (s : string) : string :=
  match s with
  | EmptyString => EmptyString
  | String c s' => String (lower_ascii c) (lower s')
  end.

Definition eqb_str (a b : string) : bool := String.eqb a b.

(** [a >= b] on [str]: code point order. *)
Definition str_ge (a b : string) : bool := negb (String.ltb a b).

Definition DQ : string := String (ascii_of_nat 34) EmptyString.

(** [bool(s)]: a string is true when it is not empty. *)
Definition truthy (s : string) : bool :=
  match s with
  | EmptyString => false
  | String _ _ => true
  end.

(** [c in s] for a character. *)
Fixpoint contains (c : ascii) (s : string) : bool :=
  match s with
  | EmptyString => false
  | String x s' => Ascii.eqb x c || contains c s'
  end.

(** [s.split(sep)] for a one character separator: the pieces between the
    separators, empty ones kept. *)
Fixpoint split_char (sep : ascii) (s : string) : list string :=
  match s with
  | EmptyString => [EmptyString]
  | String c s' =>
      if Ascii.eqb c sep then EmptyString :: split_char sep s'
      else match split_char sep s' with
           | w :: ws => String c w :: ws
           | [] => [String c EmptyString]
           end
  end.

(** [s.split(sep, 1)[0]]: the text before the first separator. *)
Fixpoint before_first (sep : ascii) (s : string) : string :=
  match s with
  | EmptyString => EmptyString
  | String c s' => if Ascii.eqb c sep then EmptyString
                   else String c (before_first sep s')
  end.

(** [s.split(sep, 1)[1]]: the text after the first separator;
    [IndexError] ([None]) when there is none. *)
Fixpoint after_first (sep : ascii) (s : string) : option string :=
  match s with
  | EmptyString => None
  | String c s' => if Ascii.eqb c sep then Some s' else after_first sep s'
  end.

(** [sep.join(parts)]. *)
Fixpoint join_str (sep : string) (parts : list string) : string :=
  match parts with
  | [] => EmptyString
  | [w] => w
  | w :: ws => w +:+ sep +:+ join_str sep ws
  end.

(** White space as [str.split()] and [str.rstrip()] see it below
    code point 256. *)
Definition is_space (c : ascii) : bool :=
  let n := nat_of_ascii c in
  ((9 <=? n)%nat && (n <=? 13)%nat) || ((28 <=? n)%nat && (n <=? 32)%nat)
  || (n =? 133)%nat || (n =? 160)%nat.

Fixpoint split_ws_go (s : string) : option string * list string :=
  match s with
  | EmptyString => (None, [])
  | String c s' =>
      let '(cur, ws) := split_ws_go s' in
      if is_space c
      then (None, match cur with Some w => w :: ws | None => ws end)
      else (Some (String c (default EmptyString cur)), ws)
  end.

(** [s.split()]: the maximal runs of characters that are not white space. *)
Definition split_ws (s : string) : list string :=
  let '(cur, ws) := split_ws_go s in
  match cur with Some w => w :: ws | None => ws end.

(** [s.rstrip(chars)], the set of characters given as a predicate. *)
Fixpoint rstrip (strip : ascii -> bool) (s : string) : string :=
  match s with
  | EmptyString => EmptyString
  | String c s' =>
      match rstrip strip s' with
      | EmptyString => if strip c then EmptyString else String c EmptyString
      | r => String c r
      end
  end.

(** [s.lstrip(chars)]. *)
Fixpoint lstrip (strip : ascii -> bool) (s : string) : string :=
  match s with
  | EmptyString => EmptyString
  | String c s' => if strip c then lstrip strip s' else s
  end.

Definition is_char (c x : ascii) : bool := Ascii.eqb x c.
Definition is_crlf (x : ascii) : bool := Ascii.eqb x CR || Ascii.eqb x LF.

Definition startswith (pre s : string) : bool := String.prefix pre s.

(** [s.endswith(c)] for a character. *)
Fixpoint endswith_char (c : ascii) (s : string) : bool :=
  match s with
  | EmptyString => false
  | String x EmptyString => Ascii.eqb x c
  | String _ s' => endswith_char c s'
  end.

Definition slash : ascii := ascii_of_nat 47.

(** [rfile.readline(limit)]: the bytes up to and including the first
    line feed, at most [limit] of them; the rest stays in the stream. *)
Fixpoint readline (limit : Z) (b : bytes) : bytes * bytes :=
  match b with
  | [] => ([], [])
  | x :: b' =>
      if limit <=? 0 then ([], b)
      else if Byte.eqb x (byte_of_ascii LF) then ([x], b')
      else let '(l, r) := readline (limit - 1) b' in (x :: l, r)
  end.

End Py.
Export Py.

(** ** [posixpath] *)

Module posixpath.

(** [posixpath.join(a, b)], posixpath.py [join] with one component. *)
Definition join (a b : string) : string :=
  if startswith "/" b then b
  else if negb (truthy a) || endswith_char slash a then a +:+ b
  else a +:+ "/" +:+ b.

(** [p[:p.rfind('/') + 1]]: the text up to and including the last slash. *)
Fixpoint head_through_last_slash (p : string) : string :=
  match p with
  | EmptyString => EmptyString
  | String c p' =>
      if contains slash p then String c (head_through_last_slash p')
      else EmptyString
  end.

Fixpoint all_slashes (s : string) : bool :=
  match s with
  | EmptyString => true
  | String c s' => Ascii.eqb c slash && all_slashes s'
  end.

(** [posixpath.dirname(p)]. *)
Definition dirname (p : string) : string :=
  let head := head_through_last_slash p in
  if truthy head && negb (all_slashes head) then rstrip (is_char slash) head
  else head.

Definition is_nil {A} (l : list A) : bool :=
  match l with [] => true | _ => false end.

(** One turn of the loop over [comps] in [normpath]. *)
Definition normpath_step (initial_slashes : nat) (new_comps : list string)
    (comp : string) : list string :=
  if eqb_str comp EmptyString || eqb_str comp "." then new_comps
  else if negb (eqb_str comp "..")
          || ((initial_slashes =? 0)%nat && is_nil new_comps)
          || (negb (is_nil new_comps)
              && eqb_str (List.last new_comps EmptyString) "..")
       then new_comps ++ [comp]
       else if negb (is_nil new_comps) then removelast new_comps
       else new_comps.

Fixpoint slashes (n : nat) : string :=
  match n with
  | O => EmptyString
  | S n' => String slash (slashes n')
  end.

(** [posixpath.normpath(path)], the Python body in posixpath.py. *)
Definition normpath (path : string) : string :=
  if eqb_str path EmptyString then "."
  else
    let initial_slashes : nat :=
      if startswith "/" path
      then (if startswith "//" path && negb (startswith "///" path)
            then 2%nat else 1%nat)
      else 0%nat in
    let comps := split_char slash path in
    let new_comps := fold_left (normpath_step initial_slashes) comps [] in
    let path := join_str "/" new_comps in
    let path := slashes initial_slashes +:+ path in
    if truthy path then path else ".".

End posixpath.

(** ** The services the handler calls *)

(** [tzinfo] of the [datetime] that [email.utils.parsedate_to_datetime]
    returns: none, the [timezone.utc] singleton, or another zone. *)
Inductive tzinfo := TzNone | TzUTC | TzOther.

(** What [http.client.parse_headers(self.rfile)] does with the stream:
    the parsed fields and the bytes left unread, or one of its two
    exceptions with its [str(err)]. *)
Inductive header_parse :=
| ParsedHeaders (fields : list (string * string)) (rest : bytes)
| LineTooLong (err : string)
| TooManyHeaders (err : string).

(** Library functions whose results the handler passes along. *)
Record Platform := mkPlatform {
  (** [int(s)]; [None] is [ValueError]. *)
  py_int : string -> option Z;
  (** ["%r" % s]. *)
  py_repr : string -> string;
  (** [self.version_string()]. *)
  version_string : string;
  (** [self.date_time_string(timestamp)]; [None] reads the clock. *)
  date_time_string : option Z -> string;
  (** The line [log_message] writes for a message: client address,
      time, the message with control characters escaped. *)
  log_line : string -> string;
  (** [(self.error_message_format % {...}).encode('UTF-8', 'replace')]
      for a code, message and explanation. *)
  error_body : Z -> string -> string -> bytes;
  parse_headers : bytes -> header_parse;
  (** [urllib.parse.unquote] on a string that holds a percent sign. *)
  unquote_escapes : string -> string;
  (** [urllib.parse.urlsplit(p).path]. *)
  urlsplit_path : string -> string;
  (** [urlunsplit] of the parts of [p] with a slash added to the path. *)
  redirect_url : string -> string;
  (** [self.guess_type(path)]. *)
  guess_type : string -> string;
  (** [email.utils.parsedate_to_datetime]; [None] is one of the
      exceptions [send_head] ignores; the integer is the time in whole
      seconds, the fields read as UTC. *)
  parsedate_to_datetime : string -> option (tzinfo * Z);
  (** [sys.getfilesystemencoding()]. *)
  getfilesystemencoding : string;
  (** The encoded page [list_directory] builds for a directory path,
      the request path and the names [os.listdir] returned. *)
  listing_page : string -> string -> list string -> bytes
}.

(** The file system calls of [send_head] and [list_directory].
    [open_rb] gives the content and the modification time (whole
    seconds) of the file, [None] for [OSError]. *)
Record FileSystem := mkFileSystem {
  isdir : string -> bool;
  isfile : string -> bool;
  open_rb : string -> option (bytes * Z);
  listdir : string -> option (list string)
}.

(** A file object: a file opened by path, or an [io.BytesIO]. *)
Inductive fileobj :=
| DiskFile (name : string) (content : bytes) (st_mtime : Z)
| BytesIO (content : bytes).

Definition file_content (f : fileobj) : bytes :=
  match f with
  | DiskFile _ c _ => c
  | BytesIO c => c
  end.

(** ** The request handler object *)

(** The instance attributes the embedded methods read or write.
    [wfile] is the list of [write] calls made on the unbuffered socket
    writer ([wbufsize = 0]), oldest first; [log] is what [log_message]
    wrote to [sys.stderr]. *)
Record Handler := mkHandler {
  request_version : string;
  _headers_buffer : option (list bytes);
  wfile : list bytes;
  close_connection : bool;
  command : option string;
  path : string;
  requestline : string;
  raw_requestline : bytes;
  headers : list (string * string);
  rfile : bytes;
  directory : string;
  log : list string
}.

Definition set_request_version (v : string) (h : Handler) : Handler :=
  mkHandler v (_headers_buffer h) (wfile h) (close_connection h) (command h)
    (path h) (requestline h) (raw_requestline h) (headers h) (rfile h)
    (directory h) (log h).
Definition set_headers_buffer (b : option (list bytes)) (h : Handler) : Handler :=
  mkHandler (request_version h) b (wfile h) (close_connection h) (command h)
    (path h) (requestline h) (raw_requestline h) (headers h) (rfile h)
    (directory h) (log h).
Definition set_wfile (w : list bytes) (h : Handler) : Handler :=
  mkHandler (request_version h) (_headers_buffer h) w (close_connection h)
    (command h) (path h) (requestline h) (raw_requestline h) (headers h)
    (rfile h) (directory h) (log h).
Definition set_close_connection (c : bool) (h : Handler) : Handler :=
  mkHandler (request_version h) (_headers_buffer h) (wfile h) c (command h)
    (path h) (requestline h) (raw_requestline h) (headers h) (rfile h)
    (directory h) (log h).
Definition set_command (c : option string) (h : Handler) : Handler :=
  mkHandler (request_version h) (_headers_buffer h) (wfile h)
    (close_connection h) c (path h) (requestline h) (raw_requestline h)
    (headers h) (rfile h) (directory h) (log h).
Definition set_path (p : string) (h : Handler) : Handler :=
  mkHandler (request_version h) (_headers_buffer h) (wfile h)
    (close_connection h) (command h) p (requestline h) (raw_requestline h)
    (headers h) (rfile h) (directory h) (log h).
Definition set_requestline (r : string) (h : Handler) : Handler :=
  mkHandler (request_version h) (_headers_buffer h) (wfile h)
    (close_connection h) (command h) (path h) r (raw_requestline h)
    (headers h) (rfile h) (directory h) (log h).
Definition set_raw_requestline (r : bytes) (h : Handler) : Handler :=
  mkHandler (request_version h) (_headers_buffer h) (wfile h)
    (close_connection h) (command h) (path h) (requestline h) r
    (headers h) (rfile h) (directory h) (log h).
Definition set_headers (hs : list (string * string)) (h : Handler) : Handler :=
  mkHandler (request_version h) (_headers_buffer h) (wfile h)
    (close_connection h) (command h) (path h) (requestline h)
    (raw_requestline h) hs (rfile h) (directory h) (log h).
Definition set_rfile (r : bytes) (h : Handler) : Handler :=
  mkHandler (request_version h) (_headers_buffer h) (wfile h)
    (close_connection h) (command h) (path h) (requestline h)
    (raw_requestline h) (headers h) r (directory h) (log h).
Definition set_log (l : list string) (h : Handler) : Handler :=
  mkHandler (request_version h) (_headers_buffer h) (wfile h)
    (close_connection h) (command h) (path h) (requestline h)
    (raw_requestline h) (headers h) (rfile h) (directory h) l.

(** ** Exceptions and the method monad *)

(** The Python exceptions that occur; [OutOfFuel] is not one of them:
    it marks a bounded loop of the embedding that ran out of turns. *)
Inductive exn :=
| AttributeError (attr : string)
| TypeError (msg : string)
| OSError (errno : string)
| KeyboardInterrupt
| OutOfFuel.

(** [isinstance(e, Exception)]: what [except Exception] catches.
    [KeyboardInterrupt] derives from [BaseException] only. *)
Definition is_Exception (e : exn) : bool :=
  match e with
  | KeyboardInterrupt => false
  | _ => true
  end.

Inductive result (A : Type) :=
| Ok (a : A)
| Raise (e : exn).
Arguments Ok {A} a.
Arguments Raise {A} e.

(** A computation on a state of type [S]: it returns or raises, and
    leaves the state reached (a raise keeps the assignments made
    before it). *)
Definition St (S A : Type) : Type := S -> result A * S.

Definition ret {S A} (a : A) : St S A := fun s => (Ok a, s).
Definition raise {S A} (e : exn) : St S A := fun s => (Raise e, s).
Definition bind {S A B} (m : St S A) (k : A -> St S B) : St S B :=
  fun s => match m s with
           | (Ok a, s') => k a s'
           | (Raise e, s') => (Raise e, s')
           end.
Definition self {S} : St S S := fun s => (Ok s, s).
Definition assign {S} (f : S -> S) : St S unit := fun s => (Ok tt, f s).
Definition when_ {S} (b : bool) (m : St S unit) : St S unit :=
  if b then m else ret tt.

#[global] Instance St_ret {S} : MRet (St S) := @ret S.
#[global] Instance St_bind {S} : MBind (St S) := fun A B k m => bind m k.

(** A method body runs on the handler object [self]. *)
Definition M (A : Type) : Type := St Handler A.
#[global] Instance M_ret : MRet M := @ret Handler.
#[global] Instance M_bind : MBind M := fun A B k m => bind m k.

(** The state a method call leaves and the value it yields. *)
Definition exec {S A} (m : St S A) (s : S) : S := snd (m s).
Definition eval {S A} (m : St S A) (s : S) : result A := fst (m s).

(** ** [http.server.BaseHTTPRequestHandler] *)

Module BaseHTTPRequestHandler.

(** Class attributes. *)
Definition default_request_version : string := "HTTP/0.9".
Definition protocol_version : string := "HTTP/1.0".

(** [responses]: the phrase and the description of each [HTTPStatus]. *)
Definition responses (code : Z) : option (string * string) :=
  match code with
  | 100 => Some ("Continue", "Request received, please continue")
  | 101 => Some ("Switching Protocols", "Switching to new protocol; obey Upgrade header")
  | 102 => Some ("Processing", EmptyString)
  | 103 => Some ("Early Hints", EmptyString)
  | 200 => Some ("OK", "Request fulfilled, document follows")
  | 201 => Some ("Created", "Document created, URL follows")
  | 202 => Some ("Accepted", "Request accepted, processing continues off-line")
  | 203 => Some ("Non-Authoritative Information", "Request fulfilled from cache")
  | 204 => Some ("No Content", "Request fulfilled, nothing follows")
  | 205 => Some ("Reset Content", "Clear input form for further input")
  | 206 => Some ("Partial Content", "Partial content follows")
  | 207 => Some ("Multi-Status", EmptyString)
  | 208 => Some ("Already Reported", EmptyString)
  | 226 => Some ("IM Used", EmptyString)
  | 300 => Some ("Multiple Choices", "Object has several resources -- see URI list")
  | 301 => Some ("Moved Permanently", "Object moved permanently -- see URI list")
  | 302 => Some ("Found", "Object moved temporarily -- see URI list")
  | 303 => Some ("See Other", "Object moved -- see Method and URL list")
  | 304 => Some ("Not Modified", "Document has not changed since given time")
  | 305 => Some ("Use Proxy", "You must use proxy specified in Location to access this resource")
  | 307 => Some ("Temporary Redirect", "Object moved temporarily -- see URI list")
  | 308 => Some ("Permanent Redirect", "Object moved permanently -- see URI list")
  | 400 => Some ("Bad Request", "Bad request syntax or unsupported method")
  | 401 => Some ("Unauthorized", "No permission -- see authorization schemes")
  | 402 => Some ("Payment Required", "No payment -- see charging schemes")
  | 403 => Some ("Forbidden", "Request forbidden -- authorization will not help")
  | 404 => Some ("Not Found", "Nothing matches the given URI")
  | 405 => Some ("Method Not Allowed", "Specified method is invalid for this resource")
  | 406 => Some ("Not Acceptable", "URI not available in preferred format")
  | 407 => Some ("Proxy Authentication Required", "You must authenticate with this proxy before proceeding")
  | 408 => Some ("Request Timeout", "Request timed out; try again later")
  | 409 => Some ("Conflict", "Request conflict")
  | 410 => Some ("Gone", "URI no longer exists and has been permanently removed")
  | 411 => Some ("Length Required", "Client must specify Content-Length")
  | 412 => Some ("Precondition Failed", "Precondition in headers is false")
  | 413 => Some ("Request Entity Too Large", "Entity is too large")
  | 414 => Some ("Request-URI Too Long", "URI is too long")
  | 415 => Some ("Unsupported Media Type", "Entity body in unsupported format")
  | 416 => Some ("Requested Range Not Satisfiable", "Cannot satisfy request range")
  | 417 => Some ("Expectation Failed", "Expect condition could not be satisfied")
  | 418 => Some ("I'm a Teapot", "Server refuses to brew coffee because it is a teapot.")
  | 421 => Some ("Misdirected Request", "Server is not able to produce a response")
  | 422 => Some ("Unprocessable Entity", EmptyString)
  | 423 => Some ("Locked", EmptyString)
  | 424 => Some ("Failed Dependency", EmptyString)
  | 425 => Some ("Too Early", EmptyString)
  | 426 => Some ("Upgrade Required", EmptyString)
  | 428 => Some ("Precondition Required", "The origin server requires the request to be conditional")
  | 429 => Some ("Too Many Requests", ("The user has sent too many requests in a given amount of time (" +:+ DQ +:+ "rate limiting" +:+ DQ +:+ ")"))
  | 431 => Some ("Request Header Fields Too Large", "The server is unwilling to process the request because its header fields are too large")
  | 451 => Some ("Unavailable For Legal Reasons", "The server is denying access to the resource as a consequence of a legal demand")
  | 500 => Some ("Internal Server Error", "Server got itself in trouble")
  | 501 => Some ("Not Implemented", "Server does not support this operation")
  | 502 => Some ("Bad Gateway", "Invalid responses from another server/proxy")
  | 503 => Some ("Service Unavailable", "The server cannot process the request due to a high load")
  | 504 => Some ("Gateway Timeout", "The gateway server did not receive a timely response")
  | 505 => Some ("HTTP Version Not Supported", "Cannot fulfill request")
  | 506 => Some ("Variant Also Negotiates", EmptyString)
  | 507 => Some ("Insufficient Storage", EmptyString)
  | 508 => Some ("Loop Detected", EmptyString)
  | 510 => Some ("Not Extended", EmptyString)
  | 511 => Some ("Network Authentication Required", "The client needs to authenticate to gain network access")
  | _ => None
  end.

(** [self.wfile.write(data)]. *)
Definition wfile_write (data : bytes) : M unit :=
  assign (fun h => set_wfile (wfile h ++ [data]) h).

(** [self._headers_buffer.append(line)] after the [hasattr] test that
    creates the buffer, as [send_response_only] and [send_header] do. *)
Definition buffer_append (line : bytes) : M unit :=
  assign (fun h =>
    let buf := match _headers_buffer h with
               | None => []
               | Some b => b
               end in
    set_headers_buffer (Some (buf ++ [line])) h).

(** [send_response_only(self, code, message=None)],
    http/server.py 502-514. *)
Definition send_response_only (code : Z) (message : option string) : M unit :=
  h ← self;
  when_ (negb (eqb_str (request_version h) "HTTP/0.9"))
    (let message :=
       match message with
       | Some m => m
       | None => match responses code with
                 | Some (phrase, _) => phrase
                 | None => EmptyString
                 end
       end in
     buffer_append
       (encode_latin1 (protocol_version +:+ " " +:+ str_of_int code +:+ " "
                       +:+ message +:+ CRLF))).

(** [send_header(self, keyword, value)], http/server.py 516-528. *)
Definition send_header (keyword value : string) : M unit :=
  h ← self;
  when_ (negb (eqb_str (request_version h) "HTTP/0.9"))
    (buffer_append (encode_latin1 (keyword +:+ ": " +:+ value +:+ CRLF)));;
  when_ (eqb_str (lower keyword) "connection")
    (if eqb_str (lower value) "close" then assign (set_close_connection true)
     else if eqb_str (lower value) "keep-alive"
          then assign (set_close_connection false)
          else ret tt).

(** [flush_headers(self)], http/server.py 536-539. *)
Definition flush_headers : M unit :=
  h ← self;
  match _headers_buffer h with
  | Some buf =>
      wfile_write (join_bytes buf);;
      assign (set_headers_buffer (Some []))
  | None => ret tt
  end.

(** [end_headers(self)], http/server.py 530-534.  Appending to a buffer that
    was never created raises [AttributeError]. *)
Definition end_headers : M unit :=
  h ← self;
  when_ (negb (eqb_str (request_version h) "HTTP/0.9"))
    (match _headers_buffer h with
     | None => raise (AttributeError "_headers_buffer")
     | Some buf =>
         assign (set_headers_buffer (Some (buf ++ [encode_latin1 CRLF])));;
         flush_headers
     end).

(** [self.headers.get(name)], [name in self.headers]: field names match
    without regard to case, the first match wins. *)
Fixpoint headers_get (name : string) (hs : list (string * string))
    : option string :=
  match hs with
  | [] => None
  | (k, v) :: hs' =>
      if eqb_str (lower k) (lower name) then Some v else headers_get name hs'
  end.

Definition headers_mem (name : string) (hs : list (string * string)) : bool :=
  match headers_get name hs with Some _ => true | None => false end.

(** [(a, b) >= (c, d)] on pairs of integers. *)
Definition version_ge (v w : Z * Z) : bool :=
  (fst w <? fst v) || ((fst v =? fst w) && (snd w <=? snd v)).

Section Methods.

Context (P : Platform).

(** The methods looked up on [self] at run time: [self.end_headers()]
    and [getattr(self, 'do_' + self.command)], [None] when [hasattr]
    is false. *)
Variable self_end_headers : M unit.
Variable self_getattr : string -> option (M unit).

(** [log_message(self, format, *args)] with the message formatted,
    http/server.py 571-595. *)
Definition log_message (message : string) : M unit :=
  assign (fun h => set_log (log h ++ [log_line P message]) h).

(** [log_request(self, code)], http/server.py 541-550. *)
Definition log_request (code : Z) : M unit :=
  h ← self;
  log_message (DQ +:+ requestline h +:+ DQ +:+ " " +:+ str_of_int code
               +:+ " -").

(** [log_error(self, format, *args)], http/server.py 552-564. *)
Definition log_error (message : string) : M unit := log_message message.

(** [send_response(self, code, message=None)], http/server.py 489-500. *)
Definition send_response (code : Z) (message : option string) : M unit :=
  log_request code;;
  send_response_only code message;;
  send_header "Server" (version_string P);;
  send_header "Date" (date_time_string P None).

(** [send_error(self, code, message=None, explain=None)],
    http/server.py 436-487. *)
Definition send_error (code : Z) (message explain : option string) : M unit :=
  let '(shortmsg, longmsg) :=
    match responses code with
    | Some r => r
    | None => ("???", "???")
    end in
  let message := default shortmsg message in
  let explain := default longmsg explain in
  log_error ("code " +:+ str_of_int code +:+ ", message " +:+ message);;
  send_response code (Some message);;
  send_header "Connection" "close";;
  body ← (if (200 <=? code)
             && negb ((code =? 204) || (code =? 205) || (code =? 304))
          then
            let body := error_body P code message explain in
            send_header "Content-Type" "text/html;charset=utf-8";;
            send_header "Content-Length"
              (str_of_int (Z.of_nat (length body)));;
            ret (Some body)
          else ret None);
  self_end_headers;;
  h ← self;
  match body with
  | Some b =>
      when_ (negb (bool_decide (command h = Some "HEAD"))
             && negb (posixpath.is_nil b))
        (wfile_write b)
  | None => ret tt
  end.

(** [handle_expect_100(self)], http/server.py 373-389. *)
Definition handle_expect_100 : M bool :=
  send_response_only 100 None;;
  self_end_headers;;
  ret true.

(** The [try] block of [parse_request] that reads the version number,
    http/server.py 290-303: the text after the slash and the two integers, or
    [None] for [ValueError] and [IndexError]. *)
Definition parse_version (version : string) : option (string * (Z * Z)) :=
  if negb (startswith "HTTP/" version) then None
  else match after_first slash version with
       | None => None
       | Some base_version_number =>
           match split_char (ascii_of_nat 46) base_version_number with
           | [major; minor] =>
               match py_int P major, py_int P minor with
               | Some a, Some b => Some (base_version_number, (a, b))
               | _, _ => None
               end
           | _ => None
           end
       end.

(** [parse_request], from the header parse on, http/server.py 331-371. *)
Definition parse_request_headers (command path : string) : M bool :=
  assign (set_command (Some command));;
  assign (set_path path);;
  when_ (startswith "//" path)
    (assign (set_path ("/" +:+ lstrip (is_char slash) path)));;
  h ← self;
  match parse_headers P (rfile h) with
  | LineTooLong err =>
      send_error 431 (Some "Line too long") (Some err);;
      ret false
  | TooManyHeaders err =>
      send_error 431 (Some "Too many headers") (Some err);;
      ret false
  | ParsedHeaders fields rest =>
      assign (set_headers fields);;
      assign (set_rfile rest);;
      let conntype := default EmptyString (headers_get "Connection" fields) in
      (if eqb_str (lower conntype) "close"
       then assign (set_close_connection true)
       else when_ (eqb_str (lower conntype) "keep-alive"
                   && str_ge protocol_version "HTTP/1.1")
              (assign (set_close_connection false)));;
      let expect := default EmptyString (headers_get "Expect" fields) in
      h ← self;
      if eqb_str (lower expect) "100-continue"
         && str_ge protocol_version "HTTP/1.1"
         && str_ge (request_version h) "HTTP/1.1"
      then
        ok ← handle_expect_100;
        if negb ok then ret false else ret true
      else ret true
  end.

(** [parse_request], from the test on the number of words on,
    http/server.py 318-331. *)
Definition parse_request_words (requestline : string) (words : list string)
    : M bool :=
  let n := Z.of_nat (length words) in
  if negb ((2 <=? n) && (n <=? 3))
  then
    send_error 400
      (Some ("Bad request syntax (" +:+ py_repr P requestline +:+ ")")) None;;
    ret false
  else
    match words with
    | command :: path :: _ =>
        if n =? 2 then
          assign (set_close_connection true);;
          if negb (eqb_str command "GET") then
            send_error 400
              (Some ("Bad HTTP/0.9 request type (" +:+ py_repr P command
                     +:+ ")")) None;;
            ret false
          else parse_request_headers command path
        else parse_request_headers command path
    | _ => ret false
    end.

(** [parse_request(self)], http/server.py 267-371. *)
Definition parse_request : M bool :=
  assign (set_command None);;
  assign (set_request_version default_request_version);;
  assign (set_close_connection true);;
  h ← self;
  let requestline := rstrip is_crlf (decode_latin1 (raw_requestline h)) in
  assign (set_requestline requestline);;
  let words := split_ws requestline in
  if posixpath.is_nil words then ret false
  else if 3 <=? Z.of_nat (length words) then
    let version := List.last words EmptyString in
    match parse_version version with
    | None =>
        send_error 400
          (Some ("Bad request version (" +:+ py_repr P version +:+ ")")) None;;
        ret false
    | Some (base_version_number, version_number) =>
        when_ (version_ge version_number (1, 1)
               && str_ge protocol_version "HTTP/1.1")
          (assign (set_close_connection false));;
        if version_ge version_number (2, 0) then
          send_error 505
            (Some ("Invalid HTTP version (" +:+ base_version_number +:+ ")"))
            None;;
          ret false
        else
          assign (set_request_version version);;
          parse_request_words requestline words
    end
  else parse_request_words requestline words.

(** [handle_one_request(self)], http/server.py 391-426.  The socket has no
    timeout, so the [TimeoutError] clause has nothing to catch. *)
Definition handle_one_request : M unit :=
  h ← self;
  let '(line, rest) := readline 65537 (rfile h) in
  assign (set_rfile rest);;
  assign (set_raw_requestline line);;
  if 65536 <? Z.of_nat (length line) then
    assign (set_requestline EmptyString);;
    assign (set_request_version EmptyString);;
    assign (set_command (Some EmptyString));;
    send_error 414 None None
  else if posixpath.is_nil line then
    assign (set_close_connection true)
  else
    ok ← parse_request;
    if negb ok then ret tt
    else
      h ← self;
      match command h with
      | None => raise (TypeError "can only concatenate str")
      | Some c =>
          match self_getattr ("do_" +:+ c) with
          | None =>
              send_error 501
                (Some ("Unsupported method (" +:+ py_repr P c +:+ ")")) None
          | Some method => method
          end
      end.

(** [while not self.close_connection: self.handle_one_request()], the
    number of turns bounded by [fuel]; running out raises. *)
Fixpoint handle_loop (fuel : nat) : M unit :=
  h ← self;
  if close_connection h then ret tt
  else match fuel with
       | O => raise OutOfFuel
       | S fuel' => handle_one_request;; handle_loop fuel'
       end.

(** [handle(self)], http/server.py 428-434.  A turn of the loop that reads
    nothing closes the connection, so the bytes left to read bound the
    number of turns. *)
Definition handle : M unit :=
  assign (set_close_connection true);;
  handle_one_request;;
  h ← self;
  handle_loop (S (length (rfile h))).

End Methods.

End BaseHTTPRequestHandler.

(** ** [http.server.SimpleHTTPRequestHandler] *)

Module SimpleHTTPRequestHandler.

Import BaseHTTPRequestHandler.

(** [shutil.COPY_BUFSIZE] on POSIX. *)
Definition COPY_BUFSIZE : Z := 64 * 1024.

(** The loop of [shutil.copyfileobj]: the blocks [fsrc.read(length)]
    returns until it returns none.  Every block takes at least one byte,
    so [fuel] as large as the source is enough. *)
Fixpoint copy_blocks (fuel : nat) (src : bytes) : list bytes :=
  match fuel with
  | O => []
  | S fuel' =>
      match firstn (Z.to_nat COPY_BUFSIZE) src with
      | [] => []
      | buf => buf :: copy_blocks fuel' (skipn (Z.to_nat COPY_BUFSIZE) src)
      end
  end.

Fixpoint write_all (blocks : list bytes) : M unit :=
  match blocks with
  | [] => ret tt
  | b :: bs => wfile_write b;; write_all bs
  end.

(** [copyfile(self, source, self.wfile)], http/server.py 859-873. *)
Definition copyfile (source : fileobj) : M unit :=
  let src := file_content source in
  write_all (copy_blocks (length src) src).

(** [urllib.parse.unquote(path, ...)]: a string without a percent sign
    comes back as it is. *)
Definition unquote (P : Platform) (s : string) : string :=
  if negb (contains (ascii_of_nat 37) s) then s else unquote_escapes P s.

(** One turn of the loop over [words] in [translate_path]. *)
Definition translate_step (path word : string) : string :=
  if truthy (posixpath.dirname word)
     || eqb_str word "." || eqb_str word ".."
  then path
  else posixpath.join path word.

(** [translate_path(self, path)], http/server.py 829-857, with
    [self.directory] as an argument. *)
Definition translate_path (P : Platform) (directory path : string) : string :=
  let path := before_first (ascii_of_nat 63) path in
  let path := before_first (ascii_of_nat 35) path in
  let trailing_slash := endswith_char slash (rstrip is_space path) in
  let path := unquote P path in
  let path := posixpath.normpath path in
  let words := split_char slash path in
  let words := List.filter truthy words in
  let path := fold_left translate_step words directory in
  if trailing_slash then path +:+ "/" else path.

Section Methods.

Context (P : Platform) (fs : FileSystem).
Variable self_end_headers : M unit.

Abbreviation send_response := (send_response P).
Abbreviation send_error := (send_error P self_end_headers).

(** The test of [send_head] that answers 304, http/server.py 734-755: the
    request has [If-Modified-Since] and no [If-None-Match], the date
    parses, is in UTC or has no zone, and the file is not newer. *)
Definition not_modified (hs : list (string * string)) (st_mtime : Z) : bool :=
  if headers_mem "If-Modified-Since" hs && negb (headers_mem "If-None-Match" hs)
  then
    match parsedate_to_datetime P
            (default EmptyString (headers_get "If-Modified-Since" hs)) with
    | None => false
    | Some (tz, ims) =>
        match tz with
        | TzOther => false
        | TzNone | TzUTC => st_mtime <=? ims
        end
    end
  else false.

(** [list_directory(self, path)], http/server.py 772-827. *)
Definition list_directory (path' : string) : M (option fileobj) :=
  match listdir fs path' with
  | None =>
      send_error 404 (Some "No permission to list directory") None;;
      ret None
  | Some names =>
      h ← self;
      let enc := getfilesystemencoding P in
      let encoded := listing_page P path' (path h) names in
      send_response 200 None;;
      send_header "Content-type" ("text/html; charset=" +:+ enc);;
      send_header "Content-Length" (str_of_int (Z.of_nat (length encoded)));;
      self_end_headers;;
      ret (Some (BytesIO encoded))
  end.

(** [send_head], from [ctype = self.guess_type(path)] on,
    http/server.py 716-770. *)
Definition send_head_file (path' : string) : M (option fileobj) :=
  let ctype := guess_type P path' in
  if endswith_char slash path' then
    send_error 404 (Some "File not found") None;;
    ret None
  else
    match open_rb fs path' with
    | None =>
        send_error 404 (Some "File not found") None;;
        ret None
    | Some (content, st_mtime) =>
        let f := DiskFile path' content st_mtime in
        h ← self;
        if not_modified (headers h) st_mtime then
          send_response 304 None;;
          self_end_headers;;
          ret None
        else
          send_response 200 None;;
          send_header "Content-type" ctype;;
          send_header "Content-Length"
            (str_of_int (Z.of_nat (length content)));;
          send_header "Last-Modified" (date_time_string P (Some st_mtime));;
          self_end_headers;;
          ret (Some f)
    end.

(** [send_head(self)], http/server.py 684-770. *)
Definition send_head : M (option fileobj) :=
  h ← self;
  let path' := translate_path P (directory h) (path h) in
  if isdir fs path' then
    if negb (endswith_char slash (urlsplit_path P (path h))) then
      send_response 301 None;;
      send_header "Location" (redirect_url P (path h));;
      send_header "Content-Length" "0";;
      self_end_headers;;
      ret None
    else
      let index := posixpath.join path' "index.html" in
      if isfile fs index then send_head_file index
      else
        let index := posixpath.join path' "index.htm" in
        if isfile fs index then send_head_file index
        else list_directory path'
  else send_head_file path'.

(** [do_GET(self)], http/server.py 669-676. *)
Definition do_GET : M unit :=
  f ← send_head;
  match f with
  | Some f => copyfile f
  | None => ret tt
  end.

(** [do_HEAD(self)], http/server.py 678-682. *)
Definition do_HEAD : M unit :=
  f ← send_head;
  ret tt.

(** [getattr(self, mname)] for the names [handle_one_request] asks
    for: the class has the two methods [do_GET] and [do_HEAD]. *)
Definition getattr (mname : string) : option (M unit) :=
  if eqb_str mname "do_GET" then Some do_GET
  else if eqb_str mname "do_HEAD" then Some do_HEAD
  else None.

Definition handle_one_request : M unit :=
  BaseHTTPRequestHandler.handle_one_request P self_end_headers getattr.

Definition handle : M unit :=
  BaseHTTPRequestHandler.handle P self_end_headers getattr.

End Methods.

End SimpleHTTPRequestHandler.

(** ** [src/server.py]: the handler class *)

Module CrossOriginIsolatedHandler.

(** [CrossOriginIsolatedHandler.end_headers], src/server.py 7-10. *)
Definition end_headers : M unit :=
  BaseHTTPRequestHandler.send_header "Cross-Origin-Opener-Policy" "same-origin";;
  BaseHTTPRequestHandler.send_header "Cross-Origin-Embedder-Policy" "require-corp";;
  BaseHTTPRequestHandler.end_headers.

(** The inherited methods, with [self.end_headers] bound to the
    override (src/server.py 6). *)
Definition send_error (P : Platform) :=
  BaseHTTPRequestHandler.send_error P end_headers.
Definition send_head (P : Platform) (fs : FileSystem) :=
  SimpleHTTPRequestHandler.send_head P fs end_headers.
Definition do_GET (P : Platform) (fs : FileSystem) :=
  SimpleHTTPRequestHandler.do_GET P fs end_headers.
Definition do_HEAD (P : Platform) (fs : FileSystem) :=
  SimpleHTTPRequestHandler.do_HEAD P fs end_headers.
Definition handle_one_request (P : Platform) (fs : FileSystem) :=
  SimpleHTTPRequestHandler.handle_one_request P fs end_headers.
Definition handle (P : Platform) (fs : FileSystem) :=
  SimpleHTTPRequestHandler.handle P fs end_headers.

End CrossOriginIsolatedHandler.

(** ** The process and its environment *)

(** What the interpreter writes to [sys.stderr]: a line of text or the
    traceback of an exception. *)
Inductive err_output :=
| ErrLine (s : string)
| Traceback (e : exn).

(** The part of the operating system the script touches: the TCP ports
    taken by a bound socket of any process, the ports this process is
    allowed to bind, the two output streams, the command line, the
    environment variables, the working directory, the file system, and
    what has been written to each accepted connection, oldest first. *)
Record World := mkWorld {
  bound : gset Z;
  may_bind : Z -> bool;
  stdout : list string;
  stderr : list err_output;
  argv : list string;
  environ : list (string * string);
  cwd : string;
  files : FileSystem;
  sent : list (list bytes)
}.

Definition set_bound (b : gset Z) (w : World) : World :=
  mkWorld b (may_bind w) (stdout w) (stderr w) (argv w) (environ w) (cwd w)
    (files w) (sent w).
Definition set_stdout (o : list string) (w : World) : World :=
  mkWorld (bound w) (may_bind w) o (stderr w) (argv w) (environ w) (cwd w)
    (files w) (sent w).
Definition set_stderr (e : list err_output) (w : World) : World :=
  mkWorld (bound w) (may_bind w) (stdout w) e (argv w) (environ w) (cwd w)
    (files w) (sent w).
Definition set_sent (c : list (list bytes)) (w : World) : World :=
  mkWorld (bound w) (may_bind w) (stdout w) (stderr w) (argv w) (environ w)
    (cwd w) (files w) c.

(** [print(line)]. *)
Definition print (line : string) : St World unit :=
  assign (fun w => set_stdout (stdout w ++ [line]) w).

(** [print(line, file=sys.stderr)]. *)
Definition eprint (line : string) : St World unit :=
  assign (fun w => set_stderr (stderr w ++ [ErrLine line]) w).

(** [sock.bind((host, port))] on an unbound TCP socket: [EACCES] when
    the process may not use the port, [EADDRINUSE] when a socket is
    bound to it already; otherwise the port is taken. *)
Definition socket_bind (port : Z) : St World unit :=
  w ← self;
  if negb (may_bind w port) then raise (OSError "EACCES")
  else if bool_decide (port ∈ bound w) then raise (OSError "EADDRINUSE")
  else assign (fun w => set_bound ({[port]} ∪ bound w) w).

(** What happens while the server waits in [selector.select]: nothing
    until the poll interval ends, a client that connects and sends
    bytes, a connection that fails in [accept], or a signal that raises
    [KeyboardInterrupt]. *)
Inductive event :=
| Timeout
| Connection (request : bytes)
| AcceptError
| Interrupt.

(** ** [socketserver] *)

Module socketserver.

(** The server object: [server_address], the port its socket is bound
    to ([None] before [bind] and after [close]), and
    [__shutdown_request]. *)
Record TCPServer := mkTCPServer {
  server_address : string * Z;
  socket_port : option Z;
  shutdown_request_flag : bool
}.

(** [TCPServer.server_close(self)]: [self.socket.close()] gives the
    port back. *)
Definition server_close (srv : TCPServer) : St World unit :=
  match socket_port srv with
  | Some port => assign (fun w => set_bound (bound w ∖ {[port]}) w)
  | None => ret tt
  end.

(** [TCPServer.server_bind(self)], socketserver.py: neither reuse
    option is set, so it is [bind] and [getsockname]. *)
Definition server_bind (srv : TCPServer) : St World TCPServer :=
  socket_bind (snd (server_address srv));;
  ret (mkTCPServer ("0.0.0.0", snd (server_address srv))
         (Some (snd (server_address srv))) (shutdown_request_flag srv)).

(** [TCPServer.__init__(self, server_address, RequestHandlerClass)]:
    a failure of [server_bind] closes the socket and is raised again. *)
Definition TCPServer_init (server_address : string * Z) : St World TCPServer :=
  let srv := mkTCPServer server_address None false in
  fun w =>
    match server_bind srv w with
    | (Ok srv', w') => (Ok srv', w')
    | (Raise e, w') => (server_close srv;; raise e) w'
    end.

(** [BaseServer.handle_error(self, request, client_address)]. *)
Definition handle_error (e : exn) : St World unit :=
  eprint "----------------------------------------";;
  eprint "Exception occurred during processing of request from";;
  assign (fun w => set_stderr (stderr w ++ [Traceback e]) w);;
  eprint "----------------------------------------".

Section Serve.

(** The request handler class, as a method body run on a new handler
    object: [RequestHandlerClass(request, client_address, self)] calls
    [setup], [handle] and [finish]. *)
Variable RequestHandlerClass : FileSystem -> M unit.

(** The handler object [SimpleHTTPRequestHandler.__init__] and [setup]
    make for a connection: [directory] is [os.getcwd()], [rfile] holds
    what the client sent, nothing is written yet.  [request_version] is
    assigned before it is read. *)
Definition new_handler (w : World) (request : bytes) : Handler :=
  mkHandler EmptyString None [] true None EmptyString EmptyString [] []
    request (cwd w) [].

(** [BaseServer.finish_request(self, request, client_address)]: runs
    the handler; what it wrote to [wfile] went to the client, what it
    logged went to [sys.stderr]. *)
Definition finish_request (request : bytes) : St World unit :=
  fun w =>
    let '(r, h) := RequestHandlerClass (files w) (new_handler w request) in
    let w' := set_sent (sent w ++ [wfile h])
                (set_stderr (stderr w ++ map ErrLine (log h)) w) in
    (r, w').

(** [BaseServer._handle_request_noblock(self)] once [accept] has
    returned a connection: [verify_request] is true,
    [process_request] runs [finish_request] and [shutdown_request];
    [except Exception] reports and goes on, any other exception is
    raised again. *)
Definition handle_accepted (request : bytes) : St World unit :=
  fun w =>
    match finish_request request w with
    | (Ok tt, w') => (Ok tt, w')
    | (Raise e, w') =>
        if is_Exception e then handle_error e w'
        else (Raise e, w')
    end.

(** One turn of the loop of [BaseServer.serve_forever]: [select], then
    [_handle_request_noblock] if the socket is ready, then
    [service_actions]. *)
Definition serve_turn (ev : event) : St World unit :=
  match ev with
  | Timeout => ret tt
  | Connection request => handle_accepted request
  | AcceptError => ret tt
  | Interrupt => raise KeyboardInterrupt
  end.

(** Where [serve_forever] is after the events so far: still in the
    loop, waiting in [select], or returned. *)
Inductive serving :=
| Waiting
| Returned.

(** [BaseServer.serve_forever(self)] on the events that have happened:
    [while not self.__shutdown_request] takes a turn for each. *)
Fixpoint serve_forever (srv : TCPServer) (events : list event)
    : St World serving :=
  if shutdown_request_flag srv then ret Returned
  else match events with
       | [] => ret Waiting
       | ev :: rest => serve_turn ev;; serve_forever srv rest
       end.

End Serve.

End socketserver.

(** ** [src/server.py]: the script *)

Module Server.

Import socketserver.

(** [PORT = 9999], src/server.py 4. *)
Definition PORT : Z := 9999.

(** How the process stands after the events so far: running (blocked in
    [serve_forever]), ended with an exit status, or ended by the
    [KeyboardInterrupt] of a signal. *)
Inductive outcome :=
| Running (httpd : TCPServer)
| Exited (status : Z)
| Interrupted.

(** An exception nobody catches: the interpreter prints the traceback
    on [sys.stderr]; the exit status is 1, or the process ends by the
    signal for [KeyboardInterrupt]. *)
Definition uncaught (e : exn) (w : World) : outcome * World :=
  let w' := set_stderr (stderr w ++ [Traceback e]) w in
  match e with
  | KeyboardInterrupt => (Interrupted, w')
  | _ => (Exited 1, w')
  end.

(** The script, src/server.py 12-15, on the events that happen while it
    runs.  [with ... as httpd] calls [server_close] when the block is
    left, by a return or by an exception. *)
Definition main (P : Platform) (events : list event) (w : World)
    : outcome * World :=
  match TCPServer_init (EmptyString, PORT) w with
  | (Raise e, w0) => uncaught e w0
  | (Ok httpd, w0) =>
      match (print ("Serving at http://localhost:" +:+ str_of_int PORT);;
             print "Cross-Origin Isolation headers are enabled.";;
             serve_forever (CrossOriginIsolatedHandler.handle P) httpd events)
              w0 with
      | (Ok Waiting, w1) => (Running httpd, w1)
      | (Ok Returned, w1) => (Exited 0, exec (server_close httpd) w1)
      | (Raise e, w1) => uncaught e (exec (server_close httpd) w1)
      end
  end.

End Server.

(** ** A concrete environment *)

(** One platform, file system and world to run the embedding on: the
    serving root [/srv] holds [index.html] with the body [<h1>hi</h1>];
    requests carry no header fields. *)
Module Sample.

Fixpoint digits_value (acc : Z) (s : string) : option Z :=
  match s with
  | EmptyString => Some acc
  | String c s' =>
      let n := Z.of_nat (nat_of_ascii c) in
      if (48 <=? n) && (n <=? 57) then digits_value (10 * acc + (n - 48)) s'
      else None
  end.

(** [int(s)] on a string of decimal digits. *)
Definition int_of_digits (s : string) : option Z :=
  if truthy s then digits_value 0 s else None.

Definition platform (fields : list (string * string)) : Platform := {|
  py_int := int_of_digits;
  py_repr := fun s => "'" +:+ s +:+ "'";
  version_string := "SimpleHTTP/0.6 Python/3.11.2";
  date_time_string := fun _ => "Thu, 01 Jan 1970 00:00:00 GMT";
  log_line := fun m => "127.0.0.1 - - [01/Jan/1970 00:00:00] " +:+ m;
  error_body := fun code message _ =>
    encode_latin1 ("<p>Error code: " +:+ str_of_int code +:+ "</p><p>Message: "
                   +:+ message +:+ ".</p>");
  parse_headers := fun b => ParsedHeaders fields [];
  unquote_escapes := fun s => s;
  urlsplit_path := fun s => before_first (ascii_of_nat 63) s;
  redirect_url := fun s => s +:+ "/";
  guess_type := fun _ => "text/html";
  parsedate_to_datetime := fun _ => Some (TzUTC, 0);
  getfilesystemencoding := "utf-8";
  listing_page := fun _ _ _ => encode_latin1 "<ul></ul>"
|}.

Definition index_body : bytes := encode_latin1 "<h1>hi</h1>".

Definition root_files : FileSystem := {|
  isdir := fun p => bool_decide (p = "/srv") || bool_decide (p = "/srv/");
  isfile := fun p => bool_decide (p = "/srv/index.html");
  open_rb := fun p =>
    if bool_decide (p = "/srv/index.html") then Some (index_body, 0)
    else None;
  listdir := fun p => None
|}.

(** A world in which no port is taken and every port may be bound. *)
Definition world : World := {|
  bound := ∅;
  may_bind := fun _ => true;
  stdout := [];
  stderr := [];
  argv := ["server.py"];
  environ := [];
  cwd := "/srv";
  files := root_files;
  sent := []
|}.

(** A request: the request line, then the blank line that ends the
    header fields. *)
Definition request (line : string) : bytes :=
  encode_latin1 (line +:+ CRLF +:+ CRLF).

End Sample.

(** * The vocabulary of the properties *)

Import BaseHTTPRequestHandler.
Import socketserver.

(** [wp m Q s]: from [s], [m] returns (it does not raise) a value and a
    state that satisfy [Q]. *)
Definition wp {S A} (m : St S A) (Q : A -> S -> Prop) (s : S) : Prop :=
  exists a s', m s = (Ok a, s') /\ Q a s'.

(** The two isolation headers as they go over the wire, and the blank
    line that ends a header block. *)
Definition coop_line : bytes :=
  encode_latin1 ("Cross-Origin-Opener-Policy: same-origin" +:+ CRLF).
Definition coep_line : bytes :=
  encode_latin1 ("Cross-Origin-Embedder-Policy: require-corp" +:+ CRLF).
Definition blank_line : bytes := encode_latin1 CRLF.

(** The test [self.request_version != 'HTTP/0.9'] fails. *)
Definition is09 (h : Handler) : bool := eqb_str (request_version h) "HTTP/0.9".

(** The lines in the header buffer, none when the buffer is missing. *)
Definition buffered (h : Handler) : list bytes := default [] (_headers_buffer h).

(** The line [send_header] puts in the buffer. *)
Definition header_line (keyword value : string) : bytes :=
  encode_latin1 (keyword +:+ ": " +:+ value +:+ CRLF).

(** What [send_header] does to [close_connection]. *)
Definition connection_effect (keyword value : string) (c : bool) : bool :=
  if eqb_str (lower keyword) "connection"
  then if eqb_str (lower value) "close" then true
       else if eqb_str (lower value) "keep-alive" then false else c
  else c.

(** The state [send_header keyword value] leaves. *)
Definition after_send_header (keyword value : string) (h : Handler) : Handler :=
  let h1 := if is09 h then h
            else set_headers_buffer
                   (Some (buffered h ++ [header_line keyword value])) h in
  set_close_connection
    (connection_effect keyword value (close_connection h)) h1.

(** The state the overridden [end_headers] leaves. *)
Definition after_end_headers (h : Handler) : Handler :=
  if is09 h then h
  else set_headers_buffer (Some [])
         (set_wfile
            (wfile h ++
             [join_bytes (buffered h ++ [coop_line; coep_line; blank_line])])
            h).

(** The line [send_response_only] puts in the buffer. *)
Definition status_line (code : Z) (message : option string) : bytes :=
  encode_latin1
    (protocol_version +:+ " " +:+ str_of_int code +:+ " "
     +:+ match message with
         | Some m => m
         | None => match responses code with
                   | Some (phrase, _) => phrase
                   | None => EmptyString
                   end
         end +:+ CRLF).

(** The state [send_response_only code message] leaves. *)
Definition after_send_response_only (code : Z) (message : option string)
    (h : Handler) : Handler :=
  if is09 h then h
  else set_headers_buffer (Some (buffered h ++ [status_line code message])) h.

(** The state [log_message] leaves, and the message of [log_request]. *)
Definition after_log (P : Platform) (message : string) (h : Handler) : Handler :=
  set_log (log h ++ [log_line P message]) h.

Definition request_log (code : Z) (h : Handler) : string :=
  DQ +:+ requestline h +:+ DQ +:+ " " +:+ str_of_int code +:+ " -".

(** The state [send_response code message] leaves. *)
Definition after_send_response (P : Platform) (code : Z)
    (message : option string) (h : Handler) : Handler :=
  after_send_header "Date" (date_time_string P None)
    (after_send_header "Server" (version_string P)
       (after_send_response_only code message
          (after_log P (request_log code h) h))).

(** The state [send_error code message explain] leaves when
    [self.end_headers] is the override. *)
Definition after_send_error (P : Platform) (code : Z)
    (message explain : option string) (h : Handler) : Handler :=
  let r := default ("???", "???") (responses code) in
  let message := default (fst r) message in
  let explain := default (snd r) explain in
  let h1 := after_send_header "Connection" "close"
              (after_send_response P code (Some message)
                 (after_log P ("code " +:+ str_of_int code +:+ ", message "
                               +:+ message) h)) in
  if (200 <=? code) && negb ((code =? 204) || (code =? 205) || (code =? 304))
  then
    let body := error_body P code message explain in
    let h2 := after_end_headers
                (after_send_header "Content-Length"
                   (str_of_int (Z.of_nat (length body)))
                   (after_send_header "Content-Type" "text/html;charset=utf-8"
                      h1)) in
    if negb (bool_decide (command h2 = Some "HEAD")) && negb (posixpath.is_nil body)
    then set_wfile (wfile h2 ++ [body]) h2
    else h2
  else after_end_headers h1.

(** A header block that ends with the two isolation headers and the
    blank line. *)
Definition isolated_block (block : bytes) : Prop :=
  exists lines, block = join_bytes (lines ++ [coop_line; coep_line; blank_line]).

(** [started h]: the first thing written to the connection is such a
    block. *)
Definition started (h : Handler) : Prop :=
  exists block rest, wfile h = block :: rest /\ isolated_block block.

(** [quiet h h']: nothing was written, the request version is the same
    and a connection that was to be closed still is. *)
Definition quiet (h h' : Handler) : Prop :=
  wfile h' = wfile h /\ request_version h' = request_version h
  /\ command h' = command h
  /\ (close_connection h = true -> close_connection h' = true).

(** The states of a handler that is to close its connection: [idle],
    nothing is written yet; [finished], the header block is out, or the
    request is an HTTP/0.9 one, which has none. *)
Definition idle (h : Handler) : Prop :=
  close_connection h = true /\ wfile h = [].

Definition finished (h : Handler) : Prop :=
  close_connection h = true /\ (is09 h = true \/ started h).

Definition inv (h : Handler) : Prop := idle h \/ finished h.

(** What [send_head] hands back when it has opened a file: the file
    object of that path, and the path does not end in a slash. *)
Definition opened_at (fs : FileSystem) (p : string) (r : option fileobj)
    : Prop :=
  forall name content st_mtime,
    r = Some (DiskFile name content st_mtime) ->
    name = p /\ open_rb fs p = Some (content, st_mtime)
    /\ endswith_char slash p = false.

(** The paths [send_head] may open for a request. *)
Definition candidates (P : Platform) (h : Handler) : list string :=
  let p := SimpleHTTPRequestHandler.translate_path P (directory h) (path h) in
  [p; posixpath.join p "index.html"; posixpath.join p "index.htm"].

(** What [parse_request] leaves: on success nothing is written yet and
    the command is set; on failure the response, if any, is complete. *)
Definition parsed (ok : bool) (h' : Handler) : Prop :=
  if ok then idle h' /\ is_Some (command h') else inv h'.




(** The header block of the answer 200 to a request for a file. *)
Definition ok_block (P : Platform) (p : string) (content : bytes)
    (st_mtime : Z) : bytes :=
  join_bytes
    [status_line 200 None;
     header_line "Server" (version_string P);
     header_line "Date" (date_time_string P None);
     header_line "Content-type" (guess_type P p);
     header_line "Content-Length" (str_of_int (Z.of_nat (length content)));
     header_line "Last-Modified" (date_time_string P (Some st_mtime));
     coop_line; coep_line; blank_line].

(** The header block and the page of the answer 404 [File not found]. *)
Definition not_found_page (P : Platform) : bytes :=
  error_body P 404 "File not found" "Nothing matches the given URI".

Definition not_found_block (P : Platform) : bytes :=
  join_bytes
    [status_line 404 (Some "File not found");
     header_line "Server" (version_string P);
     header_line "Date" (date_time_string P None);
     header_line "Connection" "close";
     header_line "Content-Type" "text/html;charset=utf-8";
     header_line "Content-Length"
       (str_of_int (Z.of_nat (length (not_found_page P))));
     coop_line; coep_line; blank_line].

(** [steady w w']: the process left everything as it was apart from
    what it wrote to [sys.stderr] and to its connections. *)
Definition steady (w w' : World) : Prop :=
  bound w' = bound w /\ may_bind w' = may_bind w /\ stdout w' = stdout w
  /\ argv w' = argv w /\ environ w' = environ w /\ cwd w' = cwd w
  /\ files w' = files w.

(** The port can be bound: the process may use it and no socket holds
    it. *)
Definition port_free (w : World) (port : Z) : Prop :=
  may_bind w port = true /\ port ∉ bound w.

(** The error [bind] reports when the port cannot be bound. *)
Definition bind_errno (w : World) (port : Z) : string :=
  if may_bind w port then "EADDRINUSE" else "EACCES".

(** The two lines of src/server.py 13-14. *)
Definition startup_lines : list string :=
  ["Serving at http://localhost:9999";
   "Cross-Origin Isolation headers are enabled."].

(** The world right after a successful start: the port is taken and the
    two lines are on [sys.stdout]. *)
Definition started_world (w : World) : World :=
  set_stdout (stdout w ++ startup_lines)
    (set_bound ({[Server.PORT]} ∪ bound w) w).

(** The server object a successful start makes. *)
Definition httpd0 : TCPServer :=
  mkTCPServer ("0.0.0.0", Server.PORT) (Some Server.PORT) false.



(** The two calls [end_headers] makes before it hands over to the
    inherited method, src/server.py 8-9. *)
Definition injection : M unit :=
  send_header "Cross-Origin-Opener-Policy" "same-origin";;
  send_header "Cross-Origin-Embedder-Policy" "require-corp".

(** The state they leave. *)
Definition after_injection (h : Handler) : Handler :=
  after_send_header "Cross-Origin-Embedder-Policy" "require-corp"
    (after_send_header "Cross-Origin-Opener-Policy" "same-origin" h).

(** What C10 says of one call on the handler state [h]: the two lines
    go into the buffer, after the lines that are there, in this order. *)
Definition appends_isolation_pair (h : Handler) : Prop :=
  _headers_buffer (exec injection h)
  = Some (buffered h ++ [coop_line; coep_line]).

(** The state [parse_request] leaves for the request line
    [GET /index.html], which names no version. *)
Definition http09_state : Handler :=
  exec (parse_request (Sample.platform []) CrossOriginIsolatedHandler.end_headers)
    (set_raw_requestline (encode_latin1 ("GET /index.html" +:+ CRLF))
       (new_handler Sample.world [])).

(** The handler object after it has handled the connection on which the
    client sent [request]. *)
Definition handled (P : Platform) (w : World) (request : bytes) : Handler :=
  exec (CrossOriginIsolatedHandler.handle P (files w)) (new_handler w request).

(** What C5 says of the bytes written for a request that names a file
    with the given content: a header block with status 200 and both
    isolation headers, then the content. *)
Definition serves_file (out : list bytes) (content : bytes) : Prop :=
  exists lines blocks,
    out = join_bytes (status_line 200 None
                      :: lines ++ [coop_line; coep_line; blank_line])
          :: blocks
    /\ concat blocks = content.

(** The state in which [handle_one_request] calls [do_GET] for the
    request line [line], in the sample environment. *)
Definition parsed_state (line : string) : Handler :=
  exec (parse_request (Sample.platform []) CrossOriginIsolatedHandler.end_headers)
    (set_raw_requestline (encode_latin1 (line +:+ CRLF))
       (new_handler Sample.world (encode_latin1 CRLF))).

(** ** The responses of the server, kind by kind *)

(** [self.end_headers] as a handler class binds it: the override of
    src/server.py 7-10, or the method [SimpleHTTPRequestHandler]
    inherits. *)
Definition end_headers_of (isolated : bool) : M unit :=
  if isolated then CrossOriginIsolatedHandler.end_headers
  else BaseHTTPRequestHandler.end_headers.

(** [SimpleHTTPRequestHandler.handle] as the script would run it had
    it passed the library class to [TCPServer]: the inherited methods
    with the inherited [end_headers]. *)
Definition inherited_handle (P : Platform) (fs : FileSystem) : M unit :=
  SimpleHTTPRequestHandler.handle P fs BaseHTTPRequestHandler.end_headers.

(** The lines the override adds to a header block. *)
Definition isolation_lines (isolated : bool) : list bytes :=
  if isolated then [coop_line; coep_line] else [].

(** The state either [end_headers] leaves. *)
Definition after_end_headers_of (isolated : bool) (h : Handler) : Handler :=
  if is09 h then h
  else set_headers_buffer (Some [])
         (set_wfile
            (wfile h ++
             [join_bytes (buffered h ++ isolation_lines isolated
                          ++ [blank_line])])
            h).

(** The inherited [end_headers] needs the buffer that [send_response]
    creates, unless the request is an HTTP/0.9 one. *)
Definition ready (h : Handler) : Prop :=
  is09 h = false -> is_Some (_headers_buffer h).

(** [send_error] sends a page for these codes. *)
Definition has_page (code : Z) : bool :=
  (200 <=? code) && negb ((code =? 204) || (code =? 205) || (code =? 304)).

(** The state [send_error] leaves under either [end_headers]. *)
Definition after_send_error_of (isolated : bool) (P : Platform) (code : Z)
    (message explain : option string) (h : Handler) : Handler :=
  let r := default ("???", "???") (responses code) in
  let message := default (fst r) message in
  let explain := default (snd r) explain in
  let h1 := after_send_header "Connection" "close"
              (after_send_response P code (Some message)
                 (after_log P ("code " +:+ str_of_int code +:+ ", message "
                               +:+ message) h)) in
  if has_page code
  then
    let body := error_body P code message explain in
    let h2 := after_end_headers_of isolated
                (after_send_header "Content-Length"
                   (str_of_int (Z.of_nat (length body)))
                   (after_send_header "Content-Type" "text/html;charset=utf-8"
                      h1)) in
    if negb (bool_decide (command h2 = Some "HEAD")) && negb (posixpath.is_nil body)
    then set_wfile (wfile h2 ++ [body]) h2
    else h2
  else after_end_headers_of isolated h1.

(** The four kinds of response the handler sends: the page of
    [send_error]; a file or a directory listing; the redirection of a
    directory named without its slash; and not modified. *)
Inductive reply :=
| ErrorPage (code : Z) (message : string) (page : bytes)
| Content (ctype : string) (content : bytes) (modified : option Z)
| Moved (location : string)
| NotModified.

Definition reply_code (r : reply) : Z :=
  match r with
  | ErrorPage code _ _ => code
  | Content _ _ _ => 200
  | Moved _ => 301
  | NotModified => 304
  end.

Definition reply_message (r : reply) : option string :=
  match r with
  | ErrorPage _ message _ => Some message
  | _ => None
  end.

(** The header fields of each kind after [Server] and [Date], in the
    order the delegate sends them. *)
Definition reply_fields (P : Platform) (r : reply) : list (string * string) :=
  match r with
  | ErrorPage _ _ page =>
      [("Connection", "close");
       ("Content-Type", "text/html;charset=utf-8");
       ("Content-Length", str_of_int (Z.of_nat (length page)))]
  | Content ctype content modified =>
      [("Content-type", ctype);
       ("Content-Length", str_of_int (Z.of_nat (length content)))]
      ++ match modified with
         | Some t => [("Last-Modified", date_time_string P (Some t))]
         | None => []
         end
  | Moved location => [("Location", location); ("Content-Length", "0")]
  | NotModified => []
  end.

(** What follows the header block, for the request method [cmd]. *)
Definition reply_body (cmd : option string) (r : reply) : list bytes :=
  match r with
  | ErrorPage _ _ page =>
      if negb (bool_decide (cmd = Some "HEAD")) && negb (posixpath.is_nil page)
      then [page] else []
  | Content _ content _ =>
      if bool_decide (cmd = Some "HEAD") then []
      else SimpleHTTPRequestHandler.copy_blocks (length content) content
  | _ => []
  end.

Definition field_line (kv : string * string) : bytes := header_line kv.1 kv.2.


(** All the header fields of a response. *)
Definition response_fields (P : Platform) (r : reply) : list (string * string) :=
  ("Server", version_string P) :: ("Date", date_time_string P None)
  :: reply_fields P r.

(** The lines of the delegate: the status line and its fields. *)
Definition response_lines (P : Platform) (r : reply) : list bytes :=
  status_line (reply_code r) (reply_message r)
  :: map field_line (response_fields P r).

(** The header block, with the lines of the override or without. *)
Definition header_block (P : Platform) (isolated : bool) (r : reply) : bytes :=
  join_bytes (response_lines P r ++ isolation_lines isolated ++ [blank_line]).

(** The writes of a whole response. *)
Definition wire (P : Platform) (isolated : bool) (cmd : option string)
    (r : reply) : list bytes :=
  header_block P isolated r :: reply_body cmd r.

(** The request methods the handler class serves. *)
Definition served (cmd : option string) : Prop :=
  cmd = Some "GET" \/ cmd = Some "HEAD".

(** Which kind of response goes with which request method. *)
Definition valid (r : reply) (cmd : option string) : Prop :=
  match r with
  | ErrorPage code _ _ =>
      (code = 400 /\ cmd = None) \/ (code = 404 /\ served cmd)
      \/ (code = 414 /\ cmd = Some EmptyString) \/ (code = 431 /\ is_Some cmd)
      \/ (code = 501 /\ is_Some cmd /\ ~ served cmd)
  | _ => served cmd
  end.

(** Two handler objects that agree on every attribute but [wfile]. *)
Definition same_but_wfile (h1 h2 : Handler) : Prop :=
  request_version h1 = request_version h2
  /\ _headers_buffer h1 = _headers_buffer h2
  /\ close_connection h1 = close_connection h2
  /\ command h1 = command h2
  /\ path h1 = path h2
  /\ requestline h1 = requestline h2
  /\ raw_requestline h1 = raw_requestline h2
  /\ headers h1 = headers h2
  /\ rfile h1 = rfile h2
  /\ directory h1 = directory h2
  /\ log h1 = log h2.

(** A handler that has sent nothing, buffered nothing and logged
    nothing. *)
Definition clean (h : Handler) : Prop :=
  close_connection h = true /\ wfile h = [] /\ buffered h = []
  /\ log h = [].

(** The line [log_request] writes for a status code. *)
Definition access_line (P : Platform) (requestline : string) (code : Z)
    : string :=
  log_line P (DQ +:+ requestline +:+ DQ +:+ " " +:+ str_of_int code +:+ " -").

(** What a response leaves in the log: the line of [log_request], after
    the line of [log_error] when the response is an error. *)
Definition reply_log (P : Platform) (r : reply) (requestline : string)
    : list string :=
  match r with
  | ErrorPage code message _ =>
      [log_line P ("code " +:+ str_of_int code +:+ ", message " +:+ message);
       access_line P requestline code]
  | _ => [access_line P requestline (reply_code r)]
  end.

(** The header block as the connection sees it: none for HTTP/0.9. *)
Definition head_blocks (P : Platform) (isolated : bool) (r : reply)
    (h : Handler) : list bytes :=
  if is09 h then [] else [header_block P isolated r].

(** [emitted P r body hp hc]: the inherited handler [hp] and the
    isolated one [hc] have both sent the response [r] and then [body],
    each with its own header block, and agree on everything else. *)
Definition emitted (P : Platform) (r : reply) (body : list bytes)
    (hp hc : Handler) : Prop :=
  same_but_wfile hp hc /\ close_connection hc = true /\ buffered hc = []
  /\ wfile hp = head_blocks P false r hc ++ body
  /\ wfile hc = head_blocks P true r hc ++ body
  /\ log hc = reply_log P r (requestline hc).

(** Both have answered the request. *)
Definition answered (P : Platform) (hp hc : Handler) : Prop :=
  exists r, emitted P r (reply_body (command hc) r) hp hc
            /\ (is09 hc = false -> valid r (command hc)).

(** Neither has written anything: the client sent no request line. *)
Definition silent (hp hc : Handler) : Prop :=
  hp = hc /\ clean hc /\ command hc = None.

Definition outcome (P : Platform) (hp hc : Handler) : Prop :=
  silent hp hc \/ answered P hp hc.

(** What [send_head] returns and what it has sent. *)
Definition head_result (r : reply) (f : option fileobj) (body : list bytes)
    (cmd : option string) : Prop :=
  match f with
  | Some fo => body = [] /\ exists ctype modified,
                              r = Content ctype (file_content fo) modified
  | None => body = reply_body cmd r
            /\ match r with
               | ErrorPage code _ _ => code = 404
               | Content _ _ _ => False
               | _ => True
               end
  end.

(** [rwp m1 m2 Q s1 s2]: [m1] from [s1] and [m2] from [s2] both return,
    the same value, in states that satisfy [Q]. *)
Definition rwp {S A} (m1 m2 : St S A) (Q : A -> S -> S -> Prop) (s1 s2 : S)
    : Prop :=
  exists a s1' s2', m1 s1 = (Ok a, s1') /\ m2 s2 = (Ok a, s2') /\ Q a s1' s2'.

(** What [parse_request] leaves in both handlers. *)
Definition parsed2 (P : Platform) (ok : bool) (hp hc : Handler) : Prop :=
  if ok then hp = hc /\ clean hc /\ is_Some (command hc)
  else outcome P hp hc.


(** What [send_head] leaves in both handlers, started in the state [h]. *)
Definition head_post (P : Platform) (h : Handler) (f : option fileobj)
    (hp hc : Handler) : Prop :=
  command hc = command h /\ is09 hc = is09 h
  /\ exists r body, emitted P r body hp hc
                    /\ head_result r f body (command h).


(** The state in which [handle_one_request] calls [send_error] for a
    request line that is too long, http/server.py 400-406. *)
Definition too_long_state (w : World) (request : bytes) : Handler :=
  let '(line, rest) := readline 65537 request in
  set_command (Some EmptyString)
    (set_request_version EmptyString
       (set_requestline EmptyString
          (set_raw_requestline line
             (set_rfile rest
                (set_close_connection true (new_handler w request)))))).



(** A larger tree to run the embedding on: below the root [/srv] of
    the sample world, the directory [docs] holds both index files, [old]
    holds [index.htm] only, [img] has no index and [locked] cannot be
    listed. *)
Module Site.

Definition directories : list string :=
  ["/srv"; "/srv/docs"; "/srv/old"; "/srv/img"; "/srv/locked"].

Definition regular_files : list (string * bytes) :=
  [("/srv/index.html", Sample.index_body);
   ("/srv/docs/index.html", encode_latin1 "<h1>docs</h1>");
   ("/srv/docs/index.htm", encode_latin1 "<h1>old docs</h1>");
   ("/srv/old/index.htm", encode_latin1 "<h1>old</h1>");
   ("/srv/img/a.png", encode_latin1 "PNG")].

Fixpoint find_file (p : string) (l : list (string * bytes)) : option bytes :=
  match l with
  | [] => None
  | (name, content) :: l' =>
      if eqb_str p name then Some content else find_file p l'
  end.

(** A directory is one with or without a slash after its name. *)
Definition is_directory (p : string) : bool :=
  existsb (fun d => eqb_str p d || eqb_str p (d +:+ "/")) directories.

Definition files : FileSystem := {|
  isdir := is_directory;
  isfile := fun p => match find_file p regular_files with
                     | Some _ => true
                     | None => false
                     end;
  open_rb := fun p => match find_file p regular_files with
                      | Some content => Some (content, 0)
                      | None => None
                      end;
  listdir := fun p => if eqb_str p "/srv/img/" then Some ["a.png"] else None
|}.

End Site.


(** Two handler objects that agree on what the methods that answer a
    request for a file read and write. *)
Definition alike (h1 h2 : Handler) : Prop :=
  request_version h1 = request_version h2
  /\ _headers_buffer h1 = _headers_buffer h2
  /\ wfile h1 = wfile h2
  /\ close_connection h1 = close_connection h2
  /\ command h1 = command h2
  /\ headers h1 = headers h2.


(** The words of the request line that [handle_one_request] reads from
    the bytes of a connection, http/server.py 280-285 and 400. *)
Definition request_words (request : bytes) : list string :=
  split_ws (rstrip is_crlf (decode_latin1 (fst (readline 65537 request)))).

(** The error [parse_request] finds in the version of a request line of
    three words or more, http/server.py 287-316: the code and the
    message of the [send_error] call, [None] when the version is
    accepted. *)
Definition version_error (P : Platform) (version : string)
    : option (Z * string) :=
  match parse_version P version with
  | None => Some (400, "Bad request version (" +:+ py_repr P version +:+ ")")
  | Some (base_version_number, version_number) =>
      if version_ge version_number (2, 0)
      then Some (505, "Invalid HTTP version (" +:+ base_version_number +:+ ")")
      else None
  end.

(** A page sent on its own, as [wfile.write] is called for it. *)
Definition bare_page (page : bytes) : list bytes :=
  if posixpath.is_nil page then [] else [page].

(** * Properties *)

(** ** Reasoning about method bodies *)

Section WpRules.
Context {S : Type}.

Lemma wp_ret {A} (a : A) (Q : A -> S -> Prop) s : Q a s -> wp (ret a) Q s.
Proof. intros HQ. exists a, s. split; [reflexivity | exact HQ]. Qed.

Lemma wp_bind {A B} (m : St S A) (k : A -> St S B) Q s :
  wp m (fun a s' => wp (k a) Q s') s -> wp (bind m k) Q s.
Proof.
  intros (a & s' & Hm & b & s'' & Hk & HQ).
  exists b, s''. split; [| exact HQ].
  unfold bind. rewrite Hm. exact Hk.
Qed.

Lemma wp_self (Q : S -> S -> Prop) s : Q s s -> wp self Q s.
Proof. intros HQ. exists s, s. split; [reflexivity | exact HQ]. Qed.

Lemma wp_assign (f : S -> S) (Q : unit -> S -> Prop) s :
  Q tt (f s) -> wp (assign f) Q s.
Proof. intros HQ. exists tt, (f s). split; [reflexivity | exact HQ]. Qed.

Lemma wp_when (b : bool) (m : St S unit) (Q : unit -> S -> Prop) s :
  (b = true -> wp m Q s) -> (b = false -> Q tt s) -> wp (when_ b m) Q s.
Proof.
  intros Ht Hf. destruct b; simpl.
  - apply Ht; reflexivity.
  - apply wp_ret, Hf; reflexivity.
Qed.

Lemma wp_mono {A} (m : St S A) (Q Q' : A -> S -> Prop) s :
  wp m Q s -> (forall a s', Q a s' -> Q' a s') -> wp m Q' s.
Proof.
  intros (a & s' & Hm & HQ) Himp. exists a, s'. split; [exact Hm | auto].
Qed.

Lemma wp_eval {A} (m : St S A) Q s : wp m Q s -> exists a, eval m s = Ok a.
Proof. intros (a & s' & Hm & _). exists a. unfold eval. rewrite Hm. reflexivity. Qed.

Lemma wp_exec {A} (m : St S A) (Q : A -> S -> Prop) s :
  wp m Q s -> exists a, Q a (exec m s).
Proof. intros (a & s' & Hm & HQ). exists a. unfold exec. rewrite Hm. exact HQ. Qed.

End WpRules.

(** Unfolds the monad notation down to [bind] and [ret]. *)
Ltac monad_ops := cbv [mbind mret M_bind M_ret St_bind St_ret].

(** ** The header buffer *)

Lemma send_header_run keyword value h :
  send_header keyword value h = (Ok tt, after_send_header keyword value h).
Proof.
  unfold send_header, after_send_header, connection_effect, is09, buffered,
    buffer_append, header_line.
  monad_ops. unfold bind, self, when_, assign, ret.
  destruct h as [v b w c cmd p rl raw hs rf d lg]; simpl.
  destruct (eqb_str v "HTTP/0.9"); simpl;
    destruct (eqb_str (lower keyword) "connection"); simpl; try reflexivity;
    destruct (eqb_str (lower value) "close"); simpl; try reflexivity;
    destruct (eqb_str (lower value) "keep-alive"); reflexivity.
Qed.

Lemma end_headers_run h :
  CrossOriginIsolatedHandler.end_headers h = (Ok tt, after_end_headers h).
Proof.
  unfold CrossOriginIsolatedHandler.end_headers. monad_ops.
  unfold bind at 1. rewrite send_header_run.
  unfold bind at 1. rewrite send_header_run.
  unfold after_end_headers, after_send_header, connection_effect, is09, buffered,
    end_headers, flush_headers, wfile_write, header_line, coop_line, coep_line, blank_line.
  monad_ops. unfold bind, self, when_, assign, ret, raise.
  destruct h as [v b w c cmd p rl raw hs rf d lg]; simpl.
  destruct (eqb_str v "HTTP/0.9") eqn:Hv; repeat (progress (rewrite ?Hv; simpl)).
  - reflexivity.
  - rewrite <- !app_assoc. reflexivity.
Qed.

Lemma send_response_only_run code message h :
  send_response_only code message h
  = (Ok tt, after_send_response_only code message h).
Proof.
  unfold send_response_only, after_send_response_only, status_line, is09,
    buffered, buffer_append.
  monad_ops. unfold bind, self, when_, assign, ret.
  destruct h as [v b w c cmd p rl raw hs rf d lg]; simpl.
  destruct (eqb_str v "HTTP/0.9"); reflexivity.
Qed.

Lemma send_response_run P code message h :
  send_response P code message h
  = (Ok tt, after_send_response P code message h).
Proof.
  unfold send_response, after_send_response, log_request, log_message.
  monad_ops. unfold bind at 1. unfold bind at 1. unfold self at 1.
  unfold assign at 1. fold (after_log P (request_log code h) h).
  unfold bind at 1. rewrite send_response_only_run.
  unfold bind at 1. rewrite send_header_run.
  apply send_header_run.
Qed.

Lemma send_error_run P code message explain h :
  send_error P CrossOriginIsolatedHandler.end_headers code message explain h
  = (Ok tt, after_send_error P code message explain h).
Proof.
  unfold send_error, after_send_error,
    log_error, log_message.
  destruct (responses code) as [[shortmsg longmsg]|]; simpl default;
  monad_ops;
  (unfold bind at 1; unfold assign at 1;
   match goal with |- context [set_log (log h ++ [log_line P ?m]) h] =>
     fold (after_log P m h) end;
   unfold bind at 1; rewrite send_response_run;
   unfold bind at 1; rewrite send_header_run;
   destruct ((200 <=? code)
             && negb ((code =? 204) || (code =? 205) || (code =? 304)));
   [ unfold bind at 1; unfold bind at 1; rewrite send_header_run;
     unfold bind at 1; rewrite send_header_run; unfold ret at 1;
     unfold bind at 1; rewrite end_headers_run;
     unfold bind at 1; unfold self at 1;
     match goal with |- context [ if ?c then _ else _ ] => destruct c end;
     reflexivity
   | unfold bind at 1; unfold ret at 1;
     unfold bind at 1; rewrite end_headers_run;
     unfold bind at 1; unfold self at 1; reflexivity ]).
Qed.

Lemma wp_run {S A} (m : St S A) (Q : A -> S -> Prop) s a s' :
  m s = (Ok a, s') -> Q a s' -> wp m Q s.
Proof. intros Hm HQ. exists a, s'. split; assumption. Qed.

(** ** Response invariants *)

Lemma quiet_refl h : quiet h h.
Proof. repeat split; auto. Qed.

Lemma quiet_trans h1 h2 h3 : quiet h1 h2 -> quiet h2 h3 -> quiet h1 h3.
Proof.
  intros (Hw & Hv & Hc & Hcc) (Hw' & Hv' & Hc' & Hcc').
  repeat split; try congruence. auto.
Qed.

Lemma quiet_is09 h h' : quiet h h' -> is09 h' = is09 h.
Proof. intros (_ & Hv & _). unfold is09. rewrite Hv. reflexivity. Qed.

Lemma quiet_idle h h' : quiet h h' -> idle h -> idle h'.
Proof.
  intros (Hw & Hv & Hc & Hcc) [Hclose Hnil]. split; [auto | congruence].
Qed.

Lemma quiet_finished h h' : quiet h h' -> finished h -> finished h'.
Proof.
  intros Hq [Hclose Hd]. pose proof (quiet_is09 _ _ Hq) as H09.
  destruct Hq as (Hw & Hv & Hc & Hcc). split; [auto |].
  destruct Hd as [Hd | (block & rest & Hd & Hb)].
  - left. congruence.
  - right. exists block, rest. split; [congruence | exact Hb].
Qed.

Lemma quiet_inv h h' : quiet h h' -> inv h -> inv h'.
Proof.
  intros Hq [Hi | Hf]; [left; eapply quiet_idle | right; eapply quiet_finished];
    eassumption.
Qed.

Lemma quiet_after_log P message h : quiet h (after_log P message h).
Proof. destruct h; repeat split; auto. Qed.

Lemma quiet_after_send_response_only code message h :
  quiet h (after_send_response_only code message h).
Proof.
  unfold after_send_response_only. destruct (is09 h); [apply quiet_refl |].
  destruct h; repeat split; auto.
Qed.

Lemma quiet_after_send_header keyword value h :
  connection_effect keyword value true = true ->
  quiet h (after_send_header keyword value h).
Proof.
  intros Hk. unfold after_send_header.
  destruct (is09 h); destruct h; simpl; repeat split; simpl; auto;
    intros ->; exact Hk.
Qed.

Lemma quiet_after_send_response P code message h :
  quiet h (after_send_response P code message h).
Proof.
  unfold after_send_response.
  eapply quiet_trans; [apply quiet_after_log |].
  eapply quiet_trans; [apply quiet_after_send_response_only |].
  eapply quiet_trans; apply quiet_after_send_header; reflexivity.
Qed.

Lemma finished_after_end_headers h :
  inv h -> finished (after_end_headers h)
           /\ request_version (after_end_headers h) = request_version h
           /\ command (after_end_headers h) = command h.
Proof.
  intros Hinv. unfold after_end_headers.
  destruct (is09 h) eqn:H09.
  - repeat split; auto. destruct Hinv as [[Hc _] | [Hc _]]; auto.
  - assert (Hv : is09 (set_headers_buffer (Some [])
                 (set_wfile (wfile h ++ [join_bytes (buffered h ++
                    [coop_line; coep_line; blank_line])]) h)) = false)
      by (destruct h; exact H09).
    destruct Hinv as [[Hc Hnil] | [Hc [Hd | (block & rest & Hd & Hb)]]].
    + repeat split; try (destruct h; simpl in *; auto; fail).
      right. exists (join_bytes (buffered h ++ [coop_line; coep_line; blank_line])), [].
      split; [destruct h; simpl in *; subst; reflexivity |].
      exists (buffered h). reflexivity.
    + congruence.
    + repeat split; try (destruct h; simpl in *; auto; fail).
      right. exists block, (rest ++ [join_bytes (buffered h ++
                    [coop_line; coep_line; blank_line])]).
      split; [destruct h; simpl in *; subst; reflexivity | exact Hb].
Qed.

Lemma finished_write h data :
  finished h -> finished (set_wfile (wfile h ++ [data]) h).
Proof.
  intros [Hc Hd]. split; [destruct h; exact Hc |].
  destruct Hd as [Hd | (block & rest & Hd & Hb)].
  - left. destruct h; exact Hd.
  - right. exists block, (rest ++ [data]).
    split; [destruct h; simpl in *; subst; reflexivity | exact Hb].
Qed.

Lemma finished_after_send_error P code message explain h :
  inv h -> finished (after_send_error P code message explain h)
           /\ request_version (after_send_error P code message explain h)
              = request_version h.
Proof.
  intros Hinv. unfold after_send_error.
  set (r := default ("???", "???") (responses code)).
  set (msg := default r.1 message). set (expl := default r.2 explain).
  set (h1 := after_send_header "Connection" "close" _).
  assert (Hq1 : quiet h h1).
  { subst h1. eapply quiet_trans; [apply quiet_after_log |].
    eapply quiet_trans; [apply quiet_after_send_response |].
    apply quiet_after_send_header. reflexivity. }
  destruct ((200 <=? code) && negb ((code =? 204) || (code =? 205) || (code =? 304))).
  - set (body := error_body P code msg expl).
    set (h2pre := after_send_header "Content-Length" _ _).
    assert (Hq2 : quiet h h2pre).
    { subst h2pre. eapply quiet_trans; [exact Hq1 |].
      eapply quiet_trans; apply quiet_after_send_header; reflexivity. }
    destruct (finished_after_end_headers h2pre (quiet_inv _ _ Hq2 Hinv))
      as (Hf & Hv & _).
    assert (Hv' : request_version (after_end_headers h2pre) = request_version h)
      by (rewrite Hv; apply Hq2).
    match goal with |- context [ if ?c then _ else _ ] => destruct c end.
    + split; [apply finished_write, Hf |].
      destruct (after_end_headers h2pre); exact Hv'.
    + split; assumption.
  - destruct (finished_after_end_headers h1 (quiet_inv _ _ Hq1 Hinv))
      as (Hf & Hv & _).
    split; [exact Hf |]. rewrite Hv. apply Hq1.
Qed.

Ltac quiet_tac :=
  lazymatch goal with
  | |- quiet ?h ?h => apply quiet_refl
  | |- quiet ?h (after_send_header _ _ ?y) =>
      apply (quiet_trans h y);
      [quiet_tac | apply quiet_after_send_header; reflexivity]
  | |- quiet ?h (after_send_response _ _ _ ?y) =>
      apply (quiet_trans h y); [quiet_tac | apply quiet_after_send_response]
  | |- quiet ?h (after_send_response_only _ _ ?y) =>
      apply (quiet_trans h y);
      [quiet_tac | apply quiet_after_send_response_only]
  | |- quiet ?h (after_log _ _ ?y) =>
      apply (quiet_trans h y); [quiet_tac | apply quiet_after_log]
  end.

(** Runs a [wp] goal through the calls whose effect is known exactly. *)
Ltac wp_call :=
  lazymatch goal with
  | |- wp (bind _ _) _ _ => apply wp_bind
  | |- wp (ret _) _ _ => apply wp_ret
  | |- wp self _ _ => apply wp_self
  | |- wp (assign _) _ _ => apply wp_assign
  | |- wp (send_header _ _) _ _ => eapply wp_run; [apply send_header_run |]
  | |- wp (send_response_only _ _) _ _ =>
      eapply wp_run; [apply send_response_only_run |]
  | |- wp (send_response _ _ _) _ _ =>
      eapply wp_run; [apply send_response_run |]
  | |- wp (send_error _ CrossOriginIsolatedHandler.end_headers _ _ _) _ _ =>
      eapply wp_run; [apply send_error_run |]
  | |- wp CrossOriginIsolatedHandler.end_headers _ _ =>
      eapply wp_run; [apply end_headers_run |]
  end.

Ltac wp_calls := monad_ops; repeat wp_call.

Section Responses.

Context (P : Platform) (fs : FileSystem).

Abbreviation eh := CrossOriginIsolatedHandler.end_headers.

Lemma wp_send_head_file p h :
  wp (SimpleHTTPRequestHandler.send_head_file P fs eh p)
     (fun r h' => (inv h -> finished h') /\ opened_at fs p r) h.
Proof.
  unfold SimpleHTTPRequestHandler.send_head_file.
  destruct (endswith_char slash p) eqn:Hslash.
  { wp_calls. split; [apply finished_after_send_error | discriminate]. }
  destruct (open_rb fs p) as [[content st_mtime]|] eqn:Hopen.
  2: { wp_calls. split; [apply finished_after_send_error | discriminate]. }
  wp_calls.
  destruct (SimpleHTTPRequestHandler.not_modified P (headers h) st_mtime).
  - wp_calls. split; [| discriminate]. intros Hinv.
    apply finished_after_end_headers. eapply quiet_inv; [| exact Hinv]. quiet_tac.
  - wp_calls. split.
    + intros Hinv.
      apply finished_after_end_headers. eapply quiet_inv; [| exact Hinv]. quiet_tac.
    + intros name c m [= <- <- <-]. auto.
Qed.

Lemma wp_list_directory p h :
  wp (SimpleHTTPRequestHandler.list_directory P fs eh p)
     (fun r h' => (inv h -> finished h') /\ forall q, opened_at fs q r) h.
Proof.
  unfold SimpleHTTPRequestHandler.list_directory.
  destruct (listdir fs p) as [names|].
  - wp_calls. split; [| discriminate]. intros Hinv.
    apply finished_after_end_headers. eapply quiet_inv; [| exact Hinv]. quiet_tac.
  - wp_calls. split; [apply finished_after_send_error | discriminate].
Qed.

Lemma wp_send_head h :
  wp (SimpleHTTPRequestHandler.send_head P fs eh)
     (fun r h' => (inv h -> finished h')
                  /\ exists p, p ∈ candidates P h /\ opened_at fs p r) h.
Proof.
  unfold SimpleHTTPRequestHandler.send_head.
  monad_ops. apply wp_bind, wp_self.
  set (p := SimpleHTTPRequestHandler.translate_path P (directory h) (path h)).
  assert (Hin1 : p ∈ candidates P h) by (unfold candidates; fold p; repeat constructor).
  assert (Hin2 : posixpath.join p "index.html" ∈ candidates P h)
    by (unfold candidates; fold p; repeat constructor).
  assert (Hin3 : posixpath.join p "index.htm" ∈ candidates P h)
    by (unfold candidates; fold p; repeat constructor).
  destruct (isdir fs p).
  - destruct (endswith_char slash (urlsplit_path P (path h))); simpl negb; cbv iota.
    + destruct (isfile fs (posixpath.join p "index.html")).
      { eapply wp_mono; [apply wp_send_head_file |].
        intros r h' [Hf Ho]. split; [exact Hf | eauto]. }
      destruct (isfile fs (posixpath.join p "index.htm")).
      { eapply wp_mono; [apply wp_send_head_file |].
        intros r h' [Hf Ho]. split; [exact Hf | eauto]. }
      eapply wp_mono; [apply wp_list_directory |].
      intros r h' [Hf Ho]. split; [exact Hf | eauto].
    + wp_calls. split.
      * intros Hinv.
        apply finished_after_end_headers. eapply quiet_inv; [| exact Hinv]. quiet_tac.
      * exists p. split; [exact Hin1 | discriminate].
  - eapply wp_mono; [apply wp_send_head_file |].
    intros r h' [Hf Ho]. split; [exact Hf | eauto].
Qed.

Lemma wp_write_all blocks h :
  finished h ->
  wp (SimpleHTTPRequestHandler.write_all blocks)
     (fun _ h' => finished h' /\ wfile h' = wfile h ++ blocks) h.
Proof.
  revert h. induction blocks as [| b bs IH]; intros h Hf; simpl.
  - apply wp_ret. split; [exact Hf | now rewrite app_nil_r].
  - monad_ops. apply wp_bind. unfold wfile_write. apply wp_assign.
    eapply wp_mono; [apply IH, finished_write, Hf |].
    intros _ h' [Hf' Hw]. split; [exact Hf' |].
    rewrite Hw. destruct h; simpl. now rewrite <- app_assoc.
Qed.

Lemma wp_do_GET h :
  inv h -> wp (SimpleHTTPRequestHandler.do_GET P fs eh) (fun _ h' => finished h') h.
Proof.
  intros Hinv. unfold SimpleHTTPRequestHandler.do_GET. monad_ops.
  apply wp_bind. eapply wp_mono; [apply wp_send_head |].
  intros [f|] h' [Hf _]; specialize (Hf Hinv).
  - unfold SimpleHTTPRequestHandler.copyfile.
    eapply wp_mono; [apply wp_write_all, Hf |]. now intros ? h'' [Hf' _].
  - apply wp_ret, Hf.
Qed.

Lemma wp_do_HEAD h :
  inv h -> wp (SimpleHTTPRequestHandler.do_HEAD P fs eh) (fun _ h' => finished h') h.
Proof.
  intros Hinv. unfold SimpleHTTPRequestHandler.do_HEAD. monad_ops.
  apply wp_bind. eapply wp_mono; [apply wp_send_head |].
  intros r h' [Hf _]. apply wp_ret, Hf, Hinv.
Qed.

Lemma protocol_version_old : str_ge protocol_version "HTTP/1.1" = false.
Proof. reflexivity. Qed.

Ltac idle_tac :=
  match goal with
  | H : idle ?h |- idle _ =>
      destruct H as [? ?]; destruct h; simpl in *; split; auto
  end.

Lemma wp_parse_request_headers c p h :
  idle h -> wp (parse_request_headers P eh c p) parsed h.
Proof.
  intros Hidle. unfold parse_request_headers. wp_calls.
  match goal with |- wp (when_ ?b ?m) _ ?s =>
    assert (Hstep : wp (when_ b m) (fun _ h' => idle h' /\ command h' = Some c) s)
  end.
  { apply wp_when; intros _; [apply wp_assign |]; (split; [idle_tac | destruct h; reflexivity]). }
  eapply wp_mono; [exact Hstep |]. clear Hstep. intros _ h1 [Hidle1 Hcmd1]. cbv beta.
  wp_calls.
  destruct (parse_headers P (rfile h1)) as [fields rest | err | err].
  - wp_calls. rewrite protocol_version_old, !andb_false_r. cbv iota. simpl when_.
    match goal with |- wp ?m _ ?s =>
      assert (Hstep : wp m (fun _ h' => idle h' /\ command h' = Some c) s)
    end.
    { destruct (eqb_str _ "close"); [apply wp_assign | apply wp_ret];
        (split; [idle_tac | destruct h1; exact Hcmd1]). }
    eapply wp_mono; [exact Hstep |]. clear Hstep. intros _ h2 [Hidle2 Hcmd2]. cbv beta.
    wp_calls. simpl andb. cbv iota.
    apply wp_ret. split; [exact Hidle2 | rewrite Hcmd2; eauto].
  - wp_calls. right. apply finished_after_send_error. now left.
  - wp_calls. right. apply finished_after_send_error. now left.
Qed.

Lemma wp_parse_request_words requestline words h :
  idle h -> wp (parse_request_words P eh requestline words) parsed h.
Proof.
  intros Hidle. unfold parse_request_words.
  destruct (negb _).
  { wp_calls. right. apply finished_after_send_error. now left. }
  destruct words as [| command [| path words]];
    try (apply wp_ret; now left).
  destruct (_ =? 2).
  - wp_calls. destruct (negb _).
    + wp_calls. right. apply finished_after_send_error. left. idle_tac.
    + apply wp_parse_request_headers. idle_tac.
  - apply wp_parse_request_headers, Hidle.
Qed.

Lemma wp_parse_request h :
  wfile h = [] -> wp (parse_request P eh) parsed h.
Proof.
  intros Hnil. unfold parse_request. wp_calls.
  match goal with |- context [set_requestline ?r ?s] =>
    assert (Hidle : idle (set_requestline r s))
      by (destruct h; split; [reflexivity | exact Hnil]);
    generalize dependent (set_requestline r s)
  end.
  intros h1 Hidle1.
  destruct (posixpath.is_nil _); [apply wp_ret; now left |].
  destruct (3 <=? _); [| apply wp_parse_request_words, Hidle1].
  destruct (parse_version P _) as [[base number]|].
  2: { wp_calls. right. apply finished_after_send_error. now left. }
  rewrite protocol_version_old, andb_false_r. simpl when_. wp_calls.
  destruct (version_ge number (2, 0)).
  - wp_calls. right. apply finished_after_send_error. now left.
  - wp_calls. apply wp_parse_request_words. idle_tac.
Qed.

Lemma wp_handle_one_request h :
  idle h ->
  wp (SimpleHTTPRequestHandler.handle_one_request P fs eh) (fun _ h' => inv h') h.
Proof.
  intros Hidle.
  unfold SimpleHTTPRequestHandler.handle_one_request, handle_one_request.
  wp_calls. destruct (readline 65537 (rfile h)) as [line rest].
  wp_calls.
  match goal with |- context [set_raw_requestline line ?s] =>
    assert (Hidle1 : idle (set_raw_requestline line s)) by idle_tac;
    generalize dependent (set_raw_requestline line s)
  end.
  intros h1 Hidle1.
  destruct (65536 <? _).
  { wp_calls. right. apply finished_after_send_error. left. idle_tac. }
  destruct (posixpath.is_nil line).
  { wp_calls. left. idle_tac. }
  wp_calls. eapply wp_mono; [apply wp_parse_request, Hidle1 |].
  intros [|] h2 Hp; simpl in Hp; cbv beta iota; simpl negb; cbv iota.
  2: { apply wp_ret, Hp. }
  destruct Hp as [Hidle2 [c Hc]]. wp_calls. rewrite Hc.
  unfold SimpleHTTPRequestHandler.getattr.
  destruct (eqb_str ("do_" +:+ c) "do_GET").
  { eapply wp_mono; [apply wp_do_GET; left; exact Hidle2 |].
    intros ? h3 Hf. right. exact Hf. }
  destruct (eqb_str ("do_" +:+ c) "do_HEAD").
  { eapply wp_mono; [apply wp_do_HEAD; left; exact Hidle2 |].
    intros ? h3 Hf. right. exact Hf. }
  wp_calls. right. apply finished_after_send_error. left. exact Hidle2.
Qed.

Lemma inv_close_connection h : inv h -> close_connection h = true.
Proof. now intros [[Hc _] | [Hc _]]. Qed.

Lemma wp_handle_loop fuel h :
  close_connection h = true ->
  wp (handle_loop P eh (SimpleHTTPRequestHandler.getattr P fs eh) fuel)
     (fun _ h' => h' = h) h.
Proof.
  intros Hc.
  destruct fuel; cbn [handle_loop]; wp_calls; rewrite Hc; apply wp_ret; reflexivity.
Qed.

(** [handle] on a handler that has written nothing: it returns, and the
    response, if there is one, is complete. *)
Lemma wp_handle h :
  wfile h = [] ->
  wp (CrossOriginIsolatedHandler.handle P fs) (fun _ h' => inv h') h.
Proof.
  intros Hnil.
  unfold CrossOriginIsolatedHandler.handle, SimpleHTTPRequestHandler.handle, handle.
  wp_calls.
  eapply wp_mono.
  { apply wp_handle_one_request. destruct h; split; [reflexivity | exact Hnil]. }
  intros ? h1 Hinv. cbv beta. wp_calls.
  eapply wp_mono; [apply wp_handle_loop, inv_close_connection, Hinv |].
  intros ? h2 Heq. now rewrite Heq.
Qed.

End Responses.

(** ** Paths *)

Lemma split_char_cons c s :
  split_char c (String c s) = EmptyString :: split_char c s.
Proof. simpl. now rewrite Ascii.eqb_refl. Qed.





















(** ** What the calls leave in each attribute *)

Lemma is09_after_log P m h : is09 (after_log P m h) = is09 h.
Proof. now destruct h. Qed.
Lemma wfile_after_log P m h : wfile (after_log P m h) = wfile h.
Proof. now destruct h. Qed.
Lemma buffered_after_log P m h : buffered (after_log P m h) = buffered h.
Proof. now destruct h. Qed.
Lemma command_after_log P m h : command (after_log P m h) = command h.
Proof. now destruct h. Qed.

Lemma is09_after_send_response_only c m h :
  is09 (after_send_response_only c m h) = is09 h.
Proof. unfold after_send_response_only. destruct (is09 h) eqn:E; [exact E | now destruct h]. Qed.
Lemma wfile_after_send_response_only c m h :
  wfile (after_send_response_only c m h) = wfile h.
Proof. unfold after_send_response_only. destruct (is09 h); now destruct h. Qed.
Lemma buffered_after_send_response_only c m h :
  buffered (after_send_response_only c m h)
  = if is09 h then buffered h else buffered h ++ [status_line c m].
Proof. unfold after_send_response_only. destruct (is09 h); now destruct h. Qed.
Lemma command_after_send_response_only c m h :
  command (after_send_response_only c m h) = command h.
Proof. unfold after_send_response_only. destruct (is09 h); now destruct h. Qed.

Lemma is09_after_send_header k v h : is09 (after_send_header k v h) = is09 h.
Proof. unfold after_send_header. destruct (is09 h) eqn:E; destruct h; exact E. Qed.
Lemma wfile_after_send_header k v h : wfile (after_send_header k v h) = wfile h.
Proof. unfold after_send_header. destruct (is09 h); now destruct h. Qed.
Lemma buffered_after_send_header k v h :
  buffered (after_send_header k v h)
  = if is09 h then buffered h else buffered h ++ [header_line k v].
Proof. unfold after_send_header. destruct (is09 h); now destruct h. Qed.
Lemma headers_buffer_after_send_header k v h :
  _headers_buffer (after_send_header k v h)
  = if is09 h then _headers_buffer h
    else Some (buffered h ++ [header_line k v]).
Proof. unfold after_send_header. destruct (is09 h); now destruct h. Qed.
Lemma command_after_send_header k v h :
  command (after_send_header k v h) = command h.
Proof. unfold after_send_header. destruct (is09 h); now destruct h. Qed.
Lemma close_connection_after_send_header k v h :
  close_connection (after_send_header k v h)
  = connection_effect k v (close_connection h).
Proof. unfold after_send_header. destruct (is09 h); now destruct h. Qed.

Lemma is09_after_send_response P c m h :
  is09 (after_send_response P c m h) = is09 h.
Proof.
  unfold after_send_response.
  now rewrite !is09_after_send_header, is09_after_send_response_only, is09_after_log.
Qed.
Lemma wfile_after_send_response P c m h :
  wfile (after_send_response P c m h) = wfile h.
Proof.
  unfold after_send_response.
  now rewrite !wfile_after_send_header, wfile_after_send_response_only,
    wfile_after_log.
Qed.
Lemma command_after_send_response P c m h :
  command (after_send_response P c m h) = command h.
Proof.
  unfold after_send_response.
  now rewrite !command_after_send_header, command_after_send_response_only,
    command_after_log.
Qed.
Lemma buffered_after_send_response P c m h :
  is09 h = false ->
  buffered (after_send_response P c m h)
  = buffered h ++ [status_line c m; header_line "Server" (version_string P);
                   header_line "Date" (date_time_string P None)].
Proof.
  intros H09. unfold after_send_response.
  rewrite !buffered_after_send_header, buffered_after_send_response_only,
    buffered_after_log, !is09_after_send_header, is09_after_send_response_only,
    is09_after_log, H09.
  now rewrite <- !app_assoc.
Qed.

Lemma wfile_after_end_headers h :
  wfile (after_end_headers h)
  = wfile h ++ (if is09 h then []
                else [join_bytes (buffered h
                                  ++ [coop_line; coep_line; blank_line])]).
Proof.
  unfold after_end_headers. destruct (is09 h).
  - now rewrite app_nil_r.
  - now destruct h.
Qed.
Lemma command_after_end_headers h : command (after_end_headers h) = command h.
Proof. unfold after_end_headers. destruct (is09 h); now destruct h. Qed.
Lemma is09_after_end_headers h : is09 (after_end_headers h) = is09 h.
Proof. unfold after_end_headers. destruct (is09 h) eqn:E; [exact E | now destruct h]. Qed.

Lemma wfile_set_wfile w h : wfile (set_wfile w h) = w.
Proof. now destruct h. Qed.

(** ** Copying the file *)

Lemma copy_blocks_concat fuel src :
  (length src <= fuel)%nat ->
  concat (SimpleHTTPRequestHandler.copy_blocks fuel src) = src.
Proof.
  revert src. induction fuel as [| fuel IH]; intros src Hlen.
  - destruct src; [reflexivity | simpl in Hlen; lia].
  - cbn [SimpleHTTPRequestHandler.copy_blocks].
    remember (Z.to_nat SimpleHTTPRequestHandler.COPY_BUFSIZE) as n eqn:Hn.
    assert (Hpos : (0 < n)%nat)
      by (subst n; unfold SimpleHTTPRequestHandler.COPY_BUFSIZE; lia).
    destruct (firstn n src) as [| b buf] eqn:Hfirst.
    + destruct src as [| x src]; [reflexivity |].
      destruct n; [lia | discriminate].
    + cbn [concat]. rewrite IH.
      * rewrite <- Hfirst. apply firstn_skipn.
      * rewrite length_skipn.
        assert (length src <> 0)%nat by (destruct src; [destruct n; discriminate | discriminate]).
        lia.
Qed.

(** [copyfile] sends the bytes of the file, whole and in order. *)
Lemma copy_blocks_whole src :
  concat (SimpleHTTPRequestHandler.copy_blocks (length src) src) = src.
Proof. apply copy_blocks_concat. lia. Qed.

(** ** Two responses, line by line *)

Lemma bind_run {S A B} (m : St S A) (k : A -> St S B) s a s' :
  m s = (Ok a, s') -> bind m k s = k a s'.
Proof. intros Hm. unfold bind. now rewrite Hm. Qed.

Lemma write_all_run blocks h :
  SimpleHTTPRequestHandler.write_all blocks h
  = (Ok tt, set_wfile (wfile h ++ blocks) h).
Proof.
  revert h. induction blocks as [| b bs IH]; intros h.
  - cbn [SimpleHTTPRequestHandler.write_all]. rewrite app_nil_r. now destruct h.
  - cbn [SimpleHTTPRequestHandler.write_all]. monad_ops.
    unfold bind at 1, wfile_write, assign. rewrite IH.
    destruct h; simpl. now rewrite <- app_assoc.
Qed.

Section Exact.

Context (P : Platform) (fs : FileSystem).

Lemma do_GET_file h content st_mtime :
  let p := SimpleHTTPRequestHandler.translate_path P (directory h) (path h) in
  is09 h = false -> wfile h = [] -> buffered h = [] ->
  isdir fs p = false -> endswith_char slash p = false ->
  open_rb fs p = Some (content, st_mtime) ->
  SimpleHTTPRequestHandler.not_modified P (headers h) st_mtime = false ->
  exists h',
    CrossOriginIsolatedHandler.do_GET P fs h = (Ok tt, h')
    /\ wfile h' = ok_block P p content st_mtime
                  :: SimpleHTTPRequestHandler.copy_blocks (length content) content.
Proof.
  intros p H09 Hw Hbuf Hdir Hslash Hopen Hmod.
  unfold CrossOriginIsolatedHandler.do_GET,
    SimpleHTTPRequestHandler.do_GET, SimpleHTTPRequestHandler.send_head.
  monad_ops. unfold bind at 1. unfold bind at 1. unfold self at 1.
  fold p. rewrite Hdir.
  unfold SimpleHTTPRequestHandler.send_head_file. rewrite Hslash, Hopen.
  monad_ops. unfold bind at 1. unfold self at 1. rewrite Hmod.
  erewrite bind_run by apply send_response_run.
  erewrite bind_run by apply send_header_run.
  erewrite bind_run by apply send_header_run.
  erewrite bind_run by apply send_header_run.
  erewrite bind_run by apply end_headers_run.
  unfold ret at 1. unfold SimpleHTTPRequestHandler.copyfile.
  cbn [file_content]. rewrite write_all_run.
  eexists. split; [reflexivity |].
  rewrite wfile_set_wfile, wfile_after_end_headers, !is09_after_send_header,
    !wfile_after_send_header, !buffered_after_send_header,
    !is09_after_send_header, is09_after_send_response, wfile_after_send_response,
    (buffered_after_send_response _ _ _ _ H09), H09, Hw, Hbuf.
  unfold ok_block. cbn [app]. reflexivity.
Qed.



End Exact.

(** ** The server loop *)

Lemma steady_refl w : steady w w.
Proof. repeat split. Qed.

Lemma steady_trans w1 w2 w3 : steady w1 w2 -> steady w2 w3 -> steady w1 w3.
Proof.
  intros (A1 & A2 & A3 & A4 & A5 & A6 & A7) (B1 & B2 & B3 & B4 & B5 & B6 & B7).
  repeat split; congruence.
Qed.

Section Loop.

Context (P : Platform).

Abbreviation handler_class := (CrossOriginIsolatedHandler.handle P).

(** A request handler returns: no request makes it raise. *)
Lemma handle_returns fs w request :
  exists h', handler_class fs (new_handler w request) = (Ok tt, h')
             /\ inv h'.
Proof.
  destruct (wp_handle P fs (new_handler w request)) as ([] & h' & Hrun & Hinv);
    [reflexivity |].
  exists h'. split; assumption.
Qed.

Lemma handle_accepted_returns request w :
  exists w', handle_accepted handler_class request w = (Ok tt, w')
             /\ steady w w'
             /\ sent w' = sent w
                          ++ [wfile (exec (handler_class (files w))
                                       (new_handler w request))].
Proof.
  unfold handle_accepted, finish_request, exec.
  destruct (handle_returns (files w) w request) as (h' & Hrun & _).
  rewrite Hrun. eexists. split; [reflexivity |].
  split; [| now destruct w]. now destruct w.
Qed.

Lemma serve_turn_returns ev w :
  ev <> Interrupt ->
  exists w', serve_turn handler_class ev w = (Ok tt, w') /\ steady w w'.
Proof.
  intros Hev. destruct ev as [| request | |]; try contradiction;
    try (exists w; split; [reflexivity | apply steady_refl]).
  destruct (handle_accepted_returns request w) as (w' & Hrun & Hs & _).
  exists w'. split; assumption.
Qed.

(** While no signal arrives the loop of [serve_forever] goes on. *)
Lemma serve_forever_waits srv events w :
  shutdown_request_flag srv = false ->
  Interrupt ∉ events ->
  exists w', serve_forever handler_class srv events w = (Ok Waiting, w')
             /\ steady w w'.
Proof.
  intros Hflag. revert w. induction events as [| ev events IH]; intros w Hno.
  - exists w. cbn [serve_forever]. rewrite Hflag. split; [reflexivity | apply steady_refl].
  - cbn [serve_forever]. rewrite Hflag.
    destruct (serve_turn_returns ev w) as (w1 & Hturn & Hs1).
    { intros ->. apply Hno. constructor. }
    destruct (IH w1) as (w2 & Hrest & Hs2).
    { intros Hin. apply Hno. now constructor. }
    exists w2. split; [| eapply steady_trans; eassumption].
    monad_ops. unfold bind. rewrite Hturn. exact Hrest.
Qed.

(** The signal ends it with [KeyboardInterrupt]. *)
Lemma serve_forever_interrupted srv before after w :
  shutdown_request_flag srv = false ->
  Interrupt ∉ before ->
  exists w', serve_forever handler_class srv (before ++ Interrupt :: after) w
             = (Raise KeyboardInterrupt, w')
             /\ steady w w'.
Proof.
  intros Hflag. revert w. induction before as [| ev before IH]; intros w Hno.
  - exists w. cbn [app serve_forever]. rewrite Hflag.
    split; [reflexivity | apply steady_refl].
  - cbn [app serve_forever]. rewrite Hflag.
    destruct (serve_turn_returns ev w) as (w1 & Hturn & Hs1).
    { intros ->. apply Hno. constructor. }
    destruct (IH w1) as (w2 & Hrest & Hs2).
    { intros Hin. apply Hno. now constructor. }
    exists w2. split; [| eapply steady_trans; eassumption].
    monad_ops. unfold bind. rewrite Hturn. exact Hrest.
Qed.

End Loop.

(** ** Start-up *)


Lemma sample_port_free : port_free Sample.world Server.PORT.
Proof. split; [reflexivity | apply not_elem_of_empty]. Qed.

Lemma TCPServer_init_ok host port w :
  port_free w port ->
  TCPServer_init (host, port) w
  = (Ok (mkTCPServer ("0.0.0.0", port) (Some port) false),
     set_bound ({[port]} ∪ bound w) w).
Proof.
  intros [Hmay Hfree].
  unfold TCPServer_init, server_bind, socket_bind. monad_ops.
  unfold bind, self, raise, assign, ret. cbn [server_address snd shutdown_request_flag].
  rewrite Hmay. cbn [negb]. now rewrite (bool_decide_eq_false_2 _ Hfree).
Qed.

Lemma TCPServer_init_fails host port w :
  ~ port_free w port ->
  TCPServer_init (host, port) w = (Raise (OSError (bind_errno w port)), w).
Proof.
  intros Hno.
  unfold TCPServer_init, server_bind, socket_bind, server_close, bind_errno.
  monad_ops. unfold bind, self, raise, assign, ret.
  cbn [server_address snd socket_port].
  destruct (may_bind w port) eqn:Hmay; cbn [negb]; [| reflexivity].
  destruct (bool_decide (port ∈ bound w)) eqn:Hin; [reflexivity |].
  exfalso. apply Hno. split; [exact Hmay |]. now apply bool_decide_eq_false in Hin.
Qed.

Lemma main_unfold_ok P events w :
  port_free w Server.PORT ->
  Server.main P events w
  = match serve_forever (CrossOriginIsolatedHandler.handle P) httpd0 events
            (started_world w) with
    | (Ok Waiting, w1) => (Server.Running httpd0, w1)
    | (Ok Returned, w1) => (Server.Exited 0, exec (server_close httpd0) w1)
    | (Raise e, w1) => Server.uncaught e (exec (server_close httpd0) w1)
    end.
Proof.
  intros Hfree. unfold Server.main. rewrite (TCPServer_init_ok _ _ _ Hfree).
  monad_ops. unfold bind at 1, print at 1, assign at 1.
  unfold bind at 1, print at 1, assign at 1.
  fold httpd0.
  replace (set_stdout _ (set_stdout _ _)) with (started_world w); [reflexivity |].
  unfold started_world, startup_lines. destruct w; simpl.
  now rewrite <- app_assoc.
Qed.

Lemma serve_turn_steady P ev w :
  steady w (snd (serve_turn (CrossOriginIsolatedHandler.handle P) ev w)).
Proof.
  assert (Hcases : ev = Interrupt \/ ev <> Interrupt)
    by (destruct ev; auto; right; discriminate).
  destruct Hcases as [-> | Hev]; [apply steady_refl |].
  destruct (serve_turn_returns P ev w Hev) as (w' & Hrun & Hs).
  now rewrite Hrun.
Qed.

(** Whatever happens, the loop touches nothing but [sys.stderr] and the
    connections. *)
Lemma serve_forever_steady P srv events w :
  steady w (snd (serve_forever (CrossOriginIsolatedHandler.handle P) srv events w)).
Proof.
  revert w. induction events as [| ev events IH]; intros w.
  - cbn [serve_forever]. destruct (shutdown_request_flag srv); apply steady_refl.
  - cbn [serve_forever]. destruct (shutdown_request_flag srv); [apply steady_refl |].
    monad_ops. unfold bind.
    pose proof (serve_turn_steady P ev w) as Hs.
    destruct (serve_turn _ ev w) as [[[] | e] w1]; cbn [snd] in Hs.
    + eapply steady_trans; [exact Hs | apply IH].
    + exact Hs.
Qed.

Lemma TCPServer_init_fails_main P events w :
  ~ port_free w Server.PORT ->
  Server.main P events w
  = (Server.Exited 1,
     set_stderr
       (stderr w ++ [Traceback (OSError (bind_errno w Server.PORT))]) w).
Proof.
  intros Hno. unfold Server.main. rewrite (TCPServer_init_fails _ _ _ Hno).
  reflexivity.
Qed.

(** ** The command line and the environment *)














(** * The claims *)

Lemma eqb_str_eq a b : eqb_str a b = true <-> a = b.
Proof. apply String.eqb_eq. Qed.

Lemma is09_false h : request_version h <> "HTTP/0.9" -> is09 h = false.
Proof.
  intros Hv. unfold is09. destruct (eqb_str _ _) eqn:E; [| reflexivity].
  now apply eqb_str_eq in E.
Qed.

Lemma join_bytes_snoc3 lines a b c :
  join_bytes (lines ++ [a; b; c]) = join_bytes lines ++ a ++ b ++ c.
Proof.
  unfold join_bytes. rewrite concat_app. cbn [concat]. now rewrite app_nil_r.
Qed.

Lemma isolated_block_length block :
  isolated_block block -> (length coop_line + length coep_line <= length block)%nat.
Proof.
  intros [lines ->]. rewrite join_bytes_snoc3, !length_app. lia.
Qed.

Lemma injection_run h : injection h = (Ok tt, after_injection h).
Proof.
  unfold injection. monad_ops. erewrite bind_run by apply send_header_run.
  apply send_header_run.
Qed.

Lemma buffered_after_injection h :
  buffered (after_injection h)
  = buffered h ++ (if is09 h then [] else [coop_line; coep_line]).
Proof.
  unfold after_injection.
  rewrite !buffered_after_send_header, is09_after_send_header.
  destruct (is09 h); [now rewrite app_nil_r | now rewrite <- app_assoc].
Qed.

(** ** C1 *)

(** C1 as stated fails: the request [GET /index.html], which names no
    HTTP version, is answered (HTTP/0.9) with the bytes of the file and
    nothing else; the response has no header block, so it carries
    neither isolation header. *)
Lemma http09_response_has_no_headers :
  let h := handled (Sample.platform []) Sample.world
             (encode_latin1 ("GET /index.html" +:+ CRLF)) in
  wfile h = [Sample.index_body] /\ ~ started h.
Proof.
  cbv zeta. split; [reflexivity |].
  intros (block & rest & Hw & Hblock).
  apply isolated_block_length in Hblock.
  vm_compute in Hw. injection Hw as Hb _. subst block.
  vm_compute in Hblock. lia.
Qed.

(** C1, amended.  Every response to a request whose version is not
    HTTP/0.9, whatever its status code (success, redirect, error),
    starts with a header block that ends in
    [Cross-Origin-Opener-Policy: same-origin],
    [Cross-Origin-Embedder-Policy: require-corp] and the blank line.
    (A request that names no version, or whose version the parser
    rejects, is answered as HTTP/0.9: without status line and headers.) *)
Theorem isolation_headers_on_every_header_block
    (P : Platform) (w : World) (request : bytes) :
  request_version (handled P w request) <> "HTTP/0.9" ->
  wfile (handled P w request) <> [] ->
  started (handled P w request).
Proof.
  intros Hv Hw. unfold handled in *.
  destruct (wp_exec _ _ _ (wp_handle P (files w) (new_handler w request) eq_refl))
    as [[] [[_ Hnil] | [_ [H09 | Hs]]]].
  - contradiction.
  - apply eqb_str_eq in H09. contradiction.
  - exact Hs.
Qed.

Lemma isolation_headers_on_every_header_block_witness :
  let h := handled (Sample.platform []) Sample.world
             (Sample.request "GET /index.html HTTP/1.1") in
  request_version h <> "HTTP/0.9" /\ wfile h <> [] /\ started h.
Proof.
  cbv zeta.
  assert (Hv : request_version (handled (Sample.platform []) Sample.world
                  (Sample.request "GET /index.html HTTP/1.1")) <> "HTTP/0.9")
    by (vm_compute; discriminate).
  assert (Hw : wfile (handled (Sample.platform []) Sample.world
                  (Sample.request "GET /index.html HTTP/1.1")) <> [])
    by (vm_compute; discriminate).
  split; [exact Hv |]. split; [exact Hw |].
  exact (isolation_headers_on_every_header_block _ _ _ Hv Hw).
Defined.

(** ** C2 *)


(** ** C3 *)

Lemma running_only_when_free P events w httpd w' :
  Server.main P events w = (Server.Running httpd, w') -> port_free w Server.PORT.
Proof.
  intros Hrun.
  destruct (may_bind w Server.PORT) eqn:Hmay.
  - destruct (bool_decide (Server.PORT ∈ bound w)) eqn:Hin.
    + apply bool_decide_eq_true in Hin.
      rewrite (TCPServer_init_fails_main P events w) in Hrun; [discriminate |].
      intros [_ Hfree]. contradiction.
    + apply bool_decide_eq_false in Hin. split; assumption.
  - rewrite (TCPServer_init_fails_main P events w) in Hrun; [discriminate |].
    intros [Hm _]. congruence.
Qed.

(** A running server holds its port. *)
Lemma running_holds_port P events w httpd w' :
  Server.main P events w = (Server.Running httpd, w') ->
  Server.PORT ∈ bound w'.
Proof.
  intros Hrun. pose proof (running_only_when_free _ _ _ _ _ Hrun) as Hfree.
  rewrite (main_unfold_ok P events w Hfree) in Hrun.
  pose proof (serve_forever_steady P httpd0 events (started_world w)) as Hs.
  destruct (serve_forever _ httpd0 events (started_world w))
    as [[[|] | err] w1]; cbn [snd] in Hs.
  - injection Hrun as _ <-. destruct Hs as (Hb & _). rewrite Hb.
    unfold started_world. destruct w; cbn.
    apply elem_of_union_l, elem_of_singleton. reflexivity.
  - discriminate.
  - unfold Server.uncaught in Hrun. destruct err; discriminate.
Qed.

(** C3.  When the port cannot be bound, because the process may not use
    it, or a socket holds it, or an instance of this server is running
    on it, start-up fails in [bind]: the traceback of the [OSError] goes
    to [sys.stderr], the exit status is 1, and nothing else happened,
    whatever clients try to connect: no line on [sys.stdout], no request
    served, no port taken. *)
Theorem bind_failure_is_fatal (P : Platform) (events : list event) (w : World) :
  may_bind w Server.PORT = false
  \/ Server.PORT ∈ bound w
  \/ (exists events0 w0 httpd,
        Server.main P events0 w0 = (Server.Running httpd, w)) ->
  Server.main P events w
  = (Server.Exited 1,
     set_stderr
       (stderr w ++ [Traceback (OSError (bind_errno w Server.PORT))]) w).
Proof.
  intros H. apply TCPServer_init_fails_main.
  intros [Hmay Hfree].
  destruct H as [H | [H | (events0 & w0 & httpd & H)]].
  - congruence.
  - contradiction.
  - apply Hfree. eapply running_holds_port, H.
Qed.

(** A second instance, started while the first is running: it exits
    with status 1 and the client that connects is not served by it. *)
Lemma bind_failure_is_fatal_witness :
  let P := Sample.platform [] in
  let w1 := snd (Server.main P [] Sample.world) in
  Server.main P [] Sample.world = (Server.Running httpd0, w1)
  /\ Server.main P [Connection (Sample.request "GET /index.html HTTP/1.1")] w1
     = (Server.Exited 1,
        set_stderr (stderr w1 ++ [Traceback (OSError "EADDRINUSE")]) w1).
Proof.
  cbv zeta.
  assert (Hfirst : Server.main (Sample.platform []) [] Sample.world
                   = (Server.Running httpd0,
                      snd (Server.main (Sample.platform []) [] Sample.world))).
  { rewrite main_unfold_ok; [reflexivity | exact sample_port_free]. }
  split; [exact Hfirst |].
  refine (bind_failure_is_fatal (Sample.platform []) _ _ _).
  right. right. exists [], Sample.world, httpd0. exact Hfirst.
Defined.

(** ** C4 *)




(** The same from the bytes the client sends to the bytes it gets back. *)
Example get_missing_file :
  wfile (handled (Sample.platform []) Sample.world
           (Sample.request "GET /nope HTTP/1.1"))
  = [not_found_block (Sample.platform []); not_found_page (Sample.platform [])].
Proof. vm_compute. reflexivity. Qed.

(** ** C5 *)

(** C5 as stated fails: a GET for [/index.html] that carries
    [If-Modified-Since] with a date not before the file's is answered
    304, and the bytes of the file are not sent. *)
Lemma conditional_get_is_not_modified :
  let P := Sample.platform
             [("If-Modified-Since", "Thu, 01 Jan 1970 00:00:00 GMT")] in
  let h := handled P Sample.world (Sample.request "GET /index.html HTTP/1.1") in
  wfile h = [join_bytes [status_line 304 None;
                         header_line "Server" (version_string P);
                         header_line "Date" (date_time_string P None);
                         coop_line; coep_line; blank_line]]
  /\ ~ serves_file (wfile h) Sample.index_body.
Proof.
  cbv zeta. split; [reflexivity |].
  intros (lines & blocks & Hw & Hbody).
  vm_compute in Hw. injection Hw as _ Hb. subst blocks.
  discriminate Hbody.
Qed.

(** C5, amended.  A GET whose request version is not HTTP/0.9 and whose
    path [translate_path] maps to a file that exists (not a directory,
    no trailing slash, [open] succeeds), when the request is not a
    conditional one the file satisfies, returns status 200, the
    delegate's headers, both isolation headers, and the bytes of the
    file unmodified. *)
Theorem existing_file_is_served
    (P : Platform) (fs : FileSystem) (h : Handler)
    (content : bytes) (st_mtime : Z) :
  let p := SimpleHTTPRequestHandler.translate_path P (directory h) (path h) in
  request_version h <> "HTTP/0.9" ->
  wfile h = [] -> buffered h = [] ->
  isdir fs p = false -> endswith_char slash p = false ->
  open_rb fs p = Some (content, st_mtime) ->
  SimpleHTTPRequestHandler.not_modified P (headers h) st_mtime = false ->
  eval (CrossOriginIsolatedHandler.do_GET P fs) h = Ok tt
  /\ exists blocks,
       wfile (exec (CrossOriginIsolatedHandler.do_GET P fs) h)
       = ok_block P p content st_mtime :: blocks
       /\ concat blocks = content.
Proof.
  intros p Hv Hw Hbuf Hdir Hslash Hopen Hmod. apply is09_false in Hv.
  destruct (do_GET_file P fs h content st_mtime Hv Hw Hbuf Hdir Hslash Hopen Hmod)
    as (h' & Hrun & Hout).
  unfold eval, exec. rewrite Hrun. cbn [fst snd]. split; [reflexivity |].
  eexists. split; [exact Hout | apply copy_blocks_whole].
Qed.

(** The scenario of the specification: the root holds [index.html] with
    the body [<h1>hi</h1>]; [GET /index.html] under HTTP/1.1 returns
    200, both headers and exactly that body. *)
Lemma existing_file_is_served_witness :
  let h := parsed_state "GET /index.html HTTP/1.1" in
  request_version h <> "HTTP/0.9"
  /\ eval (CrossOriginIsolatedHandler.do_GET (Sample.platform []) Sample.root_files) h
     = Ok tt
  /\ exists blocks,
       wfile (exec (CrossOriginIsolatedHandler.do_GET (Sample.platform [])
                      Sample.root_files) h)
       = ok_block (Sample.platform []) "/srv/index.html" Sample.index_body 0
         :: blocks
       /\ concat blocks = Sample.index_body.
Proof.
  cbv zeta. split; [vm_compute; discriminate |].
  apply (existing_file_is_served (Sample.platform []) Sample.root_files
           (parsed_state "GET /index.html HTTP/1.1") Sample.index_body 0);
    solve [vm_compute; discriminate | vm_compute; reflexivity].
Defined.

(** The same scenario from the bytes the client sends to the bytes it
    gets back. *)
Example get_index_html :
  wfile (handled (Sample.platform []) Sample.world
           (Sample.request "GET /index.html HTTP/1.1"))
  = [ok_block (Sample.platform []) "/srv/index.html" Sample.index_body 0;
     Sample.index_body].
Proof. vm_compute. reflexivity. Qed.

(** ** C6 *)





(** [../../etc/passwd] names nothing in the root: 404. *)
Example get_etc_passwd :
  SimpleHTTPRequestHandler.translate_path (Sample.platform []) "/srv"
    "/../../etc/passwd" = "/srv/etc/passwd"
  /\ wfile (handled (Sample.platform []) Sample.world
              (Sample.request "GET /../../etc/passwd HTTP/1.1"))
     = [not_found_block (Sample.platform []); not_found_page (Sample.platform [])].
Proof. split; vm_compute; reflexivity. Qed.

(** ** C7 *)




(** ** C8 *)




(** ** C9 *)



(** ** C10 *)

(** C10 as stated fails: on the handler of an HTTP/0.9 request a call of
    [end_headers] appends nothing and writes nothing. *)
Lemma end_headers_appends_nothing_for_http09 :
  request_version http09_state = "HTTP/0.9"
  /\ exec CrossOriginIsolatedHandler.end_headers http09_state = http09_state
  /\ ~ appends_isolation_pair http09_state.
Proof.
  split; [reflexivity |]. split; [reflexivity |].
  unfold appends_isolation_pair. vm_compute. discriminate.
Qed.

(** C10, amended.  On a response whose request version is not HTTP/0.9,
    each call of [end_headers] appends exactly two header lines,
    Cross-Origin-Opener-Policy first and Cross-Origin-Embedder-Policy
    second, after every line already in the buffer, whatever those lines
    are: nothing is looked up or replaced, so a header the delegate had
    set under one of the two names stays and the block carries both
    copies. *)
Theorem end_headers_appends_pair_in_order (h : Handler) :
  request_version h <> "HTTP/0.9" ->
  appends_isolation_pair h
  /\ length (buffered (exec injection h)) = (length (buffered h) + 2)%nat
  /\ wfile (exec CrossOriginIsolatedHandler.end_headers h)
     = wfile h
       ++ [join_bytes (buffered h ++ [coop_line; coep_line; blank_line])].
Proof.
  intros Hv. apply is09_false in Hv.
  unfold appends_isolation_pair, exec.
  rewrite injection_run, end_headers_run. cbn [snd].
  rewrite buffered_after_injection, wfile_after_end_headers, Hv.
  split; [| split; [rewrite length_app; reflexivity | reflexivity]].
  unfold after_injection.
  rewrite headers_buffer_after_send_header, is09_after_send_header, Hv,
    buffered_after_send_header, Hv.
  now rewrite <- app_assoc.
Qed.

(** A buffer that holds the opener header already: the call adds the
    pair after it. *)
Lemma end_headers_appends_pair_in_order_witness :
  let h := set_headers_buffer (Some [coop_line])
             (set_request_version "HTTP/1.1" (new_handler Sample.world [])) in
  request_version h <> "HTTP/0.9"
  /\ wfile (exec CrossOriginIsolatedHandler.end_headers h)
     = [join_bytes [coop_line; coop_line; coep_line; blank_line]].
Proof.
  cbv zeta. split; [discriminate |].
  refine (proj2 (proj2 (end_headers_appends_pair_in_order _ _))).
  discriminate.
Defined.

(** * Further properties *)

(** ** The two handler classes side by side *)

Section RwpRules.
Context {S : Type}.

Lemma rwp_ret {A} (a : A) (Q : A -> S -> S -> Prop) s1 s2 :
  Q a s1 s2 -> rwp (ret a) (ret a) Q s1 s2.
Proof. intros HQ. exists a, s1, s2. auto. Qed.

Lemma rwp_bind {A B} (m1 m2 : St S A) (k1 k2 : A -> St S B) Q s1 s2 :
  rwp m1 m2 (fun a s1' s2' => rwp (k1 a) (k2 a) Q s1' s2') s1 s2 ->
  rwp (bind m1 k1) (bind m2 k2) Q s1 s2.
Proof.
  intros (a & s1' & s2' & H1 & H2 & b & t1 & t2 & K1 & K2 & HQ).
  exists b, t1, t2. unfold bind. rewrite H1, H2. auto.
Qed.

Lemma rwp_self_bind {B} (k1 k2 : S -> St S B) Q s1 s2 :
  rwp (k1 s1) (k2 s2) Q s1 s2 -> rwp (bind self k1) (bind self k2) Q s1 s2.
Proof. intros H. exact H. Qed.

Lemma rwp_assign (f : S -> S) (Q : unit -> S -> S -> Prop) s1 s2 :
  Q tt (f s1) (f s2) -> rwp (assign f) (assign f) Q s1 s2.
Proof. intros HQ. exists tt, (f s1), (f s2). auto. Qed.

Lemma rwp_mono {A} (m1 m2 : St S A) (Q Q' : A -> S -> S -> Prop) s1 s2 :
  rwp m1 m2 Q s1 s2 -> (forall a t1 t2, Q a t1 t2 -> Q' a t1 t2) ->
  rwp m1 m2 Q' s1 s2.
Proof. intros (a & t1 & t2 & H1 & H2 & HQ) Himp. exists a, t1, t2. auto. Qed.

Lemma rwp_run {A} (m1 m2 : St S A) (Q : A -> S -> S -> Prop) s1 s2 a t1 t2 :
  m1 s1 = (Ok a, t1) -> m2 s2 = (Ok a, t2) -> Q a t1 t2 -> rwp m1 m2 Q s1 s2.
Proof. intros H1 H2 HQ. exists a, t1, t2. auto. Qed.

End RwpRules.

Abbreviation ehp := (end_headers_of false).
Abbreviation ehc := (end_headers_of true).

Lemma ready_after_send_header k v h : ready (after_send_header k v h).
Proof.
  unfold ready. rewrite is09_after_send_header, headers_buffer_after_send_header.
  intros ->. eauto.
Qed.

Lemma end_headers_of_run isolated h :
  ready h -> end_headers_of isolated h = (Ok tt, after_end_headers_of isolated h).
Proof.
  intros Hready. destruct isolated.
  - change (end_headers_of true) with CrossOriginIsolatedHandler.end_headers.
    rewrite end_headers_run. reflexivity.
  - unfold end_headers_of, end_headers, after_end_headers_of, ready, is09,
      buffered, flush_headers, wfile_write, isolation_lines in *.
    monad_ops. unfold bind, self, when_, assign, ret, raise.
    destruct h as [v b w c cmd p rl raw hs rf d lg]; simpl in *.
    destruct (eqb_str v "HTTP/0.9") eqn:Hv; simpl; [reflexivity |].
    destruct (Hready eq_refl) as [buf ->]. simpl. reflexivity.
Qed.

Lemma send_error_of_run isolated P code message explain h :
  send_error P (end_headers_of isolated) code message explain h
  = (Ok tt, after_send_error_of isolated P code message explain h).
Proof.
  unfold send_error, after_send_error_of, has_page, log_error, log_message.
  destruct (responses code) as [[shortmsg longmsg]|]; simpl default;
  monad_ops;
  (unfold bind at 1; unfold assign at 1;
   match goal with |- context [set_log (log h ++ [log_line P ?m]) h] =>
     fold (after_log P m h) end;
   unfold bind at 1; rewrite send_response_run;
   unfold bind at 1; rewrite send_header_run;
   destruct ((200 <=? code)
             && negb ((code =? 204) || (code =? 205) || (code =? 304)));
   [ unfold bind at 1; unfold bind at 1; rewrite send_header_run;
     unfold bind at 1; rewrite send_header_run; unfold ret at 1;
     unfold bind at 1;
     rewrite end_headers_of_run by apply ready_after_send_header;
     unfold bind at 1; unfold self at 1;
     match goal with |- context [ if ?c then _ else _ ] => destruct c end;
     reflexivity
   | unfold bind at 1; unfold ret at 1;
     unfold bind at 1;
     rewrite end_headers_of_run by apply ready_after_send_header;
     unfold bind at 1; unfold self at 1; reflexivity ]).
Qed.

(** ** What either [end_headers] leaves in each attribute *)

Lemma wfile_after_end_headers_of isolated h :
  wfile (after_end_headers_of isolated h)
  = wfile h ++ (if is09 h then []
                else [join_bytes (buffered h ++ isolation_lines isolated
                                  ++ [blank_line])]).
Proof.
  unfold after_end_headers_of. destruct (is09 h).
  - now rewrite app_nil_r.
  - now destruct h.
Qed.
Lemma command_after_end_headers_of isolated h :
  command (after_end_headers_of isolated h) = command h.
Proof. unfold after_end_headers_of. destruct (is09 h); now destruct h. Qed.
Lemma is09_after_end_headers_of isolated h :
  is09 (after_end_headers_of isolated h) = is09 h.
Proof.
  unfold after_end_headers_of. destruct (is09 h) eqn:E; [exact E | now destruct h].
Qed.
Lemma close_connection_after_end_headers_of isolated h :
  close_connection (after_end_headers_of isolated h) = close_connection h.
Proof. unfold after_end_headers_of. destruct (is09 h); now destruct h. Qed.
Lemma buffered_after_end_headers_of isolated h :
  buffered (after_end_headers_of isolated h)
  = if is09 h then buffered h else [].
Proof. unfold after_end_headers_of. destruct (is09 h); now destruct h. Qed.

Lemma same_but_wfile_refl h : same_but_wfile h h.
Proof. repeat split. Qed.

Lemma same_but_wfile_after_end_headers h :
  same_but_wfile (after_end_headers_of false h) (after_end_headers_of true h).
Proof.
  unfold after_end_headers_of. destruct (is09 h); [apply same_but_wfile_refl |].
  destruct h; repeat split.
Qed.

Lemma same_but_wfile_write w1 w2 h1 h2 :
  same_but_wfile h1 h2 -> same_but_wfile (set_wfile w1 h1) (set_wfile w2 h2).
Proof. destruct h1, h2. unfold same_but_wfile. simpl. tauto. Qed.

Lemma same_but_wfile_command h1 h2 :
  same_but_wfile h1 h2 -> command h1 = command h2.
Proof. intros H. apply H. Qed.

Lemma same_but_wfile_close h1 h2 :
  same_but_wfile h1 h2 -> close_connection h1 = close_connection h2.
Proof. intros H. apply H. Qed.

Lemma buffered_send_header k v h :
  buffered (after_send_header k v h)
  = buffered h ++ (if is09 h then [] else [header_line k v]).
Proof.
  rewrite buffered_after_send_header. destruct (is09 h); [now rewrite app_nil_r | reflexivity].
Qed.

Lemma buffered_send_response P c m h :
  buffered (after_send_response P c m h)
  = buffered h ++ (if is09 h then []
                   else [status_line c m; header_line "Server" (version_string P);
                         header_line "Date" (date_time_string P None)]).
Proof.
  destruct (is09 h) eqn:H09.
  - unfold after_send_response.
    rewrite !buffered_after_send_header, buffered_after_send_response_only,
      buffered_after_log, !is09_after_send_header, is09_after_send_response_only,
      is09_after_log, H09. now rewrite app_nil_r.
  - now apply buffered_after_send_response.
Qed.

Lemma set_wfile_same h : set_wfile (wfile h ++ []) h = h.
Proof. destruct h; simpl. now rewrite app_nil_r. Qed.

Lemma is09_set_wfile w h : is09 (set_wfile w h) = is09 h.
Proof. now destruct h. Qed.
Lemma command_set_wfile w h : command (set_wfile w h) = command h.
Proof. now destruct h. Qed.
Lemma close_connection_set_wfile w h :
  close_connection (set_wfile w h) = close_connection h.
Proof. now destruct h. Qed.
Lemma buffered_set_wfile w h : buffered (set_wfile w h) = buffered h.
Proof. now destruct h. Qed.

Lemma log_after_end_headers_of isolated h :
  log (after_end_headers_of isolated h) = log h.
Proof. unfold after_end_headers_of. destruct (is09 h); now destruct h. Qed.
Lemma requestline_after_end_headers_of isolated h :
  requestline (after_end_headers_of isolated h) = requestline h.
Proof. unfold after_end_headers_of. destruct (is09 h); now destruct h. Qed.
Lemma log_set_wfile w h : log (set_wfile w h) = log h.
Proof. now destruct h. Qed.
Lemma requestline_set_wfile w h : requestline (set_wfile w h) = requestline h.
Proof. now destruct h. Qed.

Lemma log_after_log P m h : log (after_log P m h) = log h ++ [log_line P m].
Proof. now destruct h. Qed.
Lemma requestline_after_log P m h : requestline (after_log P m h) = requestline h.
Proof. now destruct h. Qed.
Lemma log_after_send_response_only c m h :
  log (after_send_response_only c m h) = log h.
Proof. unfold after_send_response_only. destruct (is09 h); now destruct h. Qed.
Lemma requestline_after_send_response_only c m h :
  requestline (after_send_response_only c m h) = requestline h.
Proof. unfold after_send_response_only. destruct (is09 h); now destruct h. Qed.
Lemma log_after_send_header k v h : log (after_send_header k v h) = log h.
Proof. unfold after_send_header. destruct (is09 h); now destruct h. Qed.
Lemma requestline_after_send_header k v h :
  requestline (after_send_header k v h) = requestline h.
Proof. unfold after_send_header. destruct (is09 h); now destruct h. Qed.
Lemma log_after_send_response P c m h :
  log (after_send_response P c m h)
  = log h ++ [access_line P (requestline h) c].
Proof.
  unfold after_send_response.
  now rewrite !log_after_send_header, log_after_send_response_only,
    log_after_log.
Qed.
Lemma requestline_after_send_response P c m h :
  requestline (after_send_response P c m h) = requestline h.
Proof.
  unfold after_send_response.
  now rewrite !requestline_after_send_header,
    requestline_after_send_response_only, requestline_after_log.
Qed.

(** ** A response, sent by both *)

Section Emitted.

Context (P : Platform).

(** The header block goes out: [s] is the state in which [end_headers]
    is called, [h] the state in which the response began. *)
Lemma emitted_end_headers r h s :
  clean h -> quiet h s ->
  buffered s = (if is09 h then [] else response_lines P r) ->
  log s = reply_log P r (requestline s) ->
  emitted P r [] (after_end_headers_of false s) (after_end_headers_of true s)
  /\ command (after_end_headers_of true s) = command h
  /\ is09 (after_end_headers_of true s) = is09 h.
Proof.
  intros (Hc & Hw & Hb & _) Hq Hs Hl.
  pose proof (quiet_is09 _ _ Hq) as H09.
  destruct Hq as (Hqw & Hqv & Hqc & Hqcc).
  split; [| split].
  - unfold emitted, head_blocks.
    rewrite !wfile_after_end_headers_of, close_connection_after_end_headers_of,
      buffered_after_end_headers_of, is09_after_end_headers_of,
      log_after_end_headers_of, requestline_after_end_headers_of,
      Hqw, Hw, H09, Hs.
    split; [apply same_but_wfile_after_end_headers |].
    split; [auto |].
    destruct (is09 h); repeat split; try reflexivity; exact Hl.
  - now rewrite command_after_end_headers_of.
  - now rewrite is09_after_end_headers_of.
Qed.

Lemma emitted_write r body blocks hp hc :
  emitted P r body hp hc ->
  emitted P r (body ++ blocks)
    (set_wfile (wfile hp ++ blocks) hp) (set_wfile (wfile hc ++ blocks) hc).
Proof.
  intros (Hs & Hc & Hb & Hp & Hw & Hl).
  unfold emitted, head_blocks in *.
  rewrite !wfile_set_wfile, close_connection_set_wfile, buffered_set_wfile,
    is09_set_wfile, log_set_wfile, requestline_set_wfile, Hp, Hw, <- !app_assoc.
  split; [now apply same_but_wfile_write |]. repeat split; auto.
Qed.

(** [send_error] with a page. *)
Lemma emitted_send_error code message explain h :
  clean h -> has_page code = true ->
  exists msg page,
    emitted P (ErrorPage code msg page)
      (reply_body (command h) (ErrorPage code msg page))
      (after_send_error_of false P code message explain h)
      (after_send_error_of true P code message explain h)
    /\ command (after_send_error_of true P code message explain h) = command h
    /\ is09 (after_send_error_of true P code message explain h) = is09 h.
Proof.
  intros Hclean Hpage. unfold after_send_error_of. rewrite Hpage.
  set (r0 := default ("???", "???") (responses code)).
  set (msg := default r0.1 message). set (expl := default r0.2 explain).
  set (page := error_body P code msg expl).
  set (s := after_send_header "Content-Length" _ _).
  exists msg, page.
  assert (Hq : quiet h s) by (subst s; quiet_tac).
  assert (Hs : buffered s
               = if is09 h then [] else response_lines P (ErrorPage code msg page)).
  { subst s. rewrite !buffered_send_header, buffered_send_response,
      buffered_after_log, !is09_after_send_header, is09_after_send_response,
      is09_after_log.
    destruct Hclean as (_ & _ & -> & _). destruct (is09 h); reflexivity. }
  assert (Hl : log s = reply_log P (ErrorPage code msg page) (requestline s)).
  { subst s.
    rewrite !log_after_send_header, log_after_send_response, log_after_log,
      !requestline_after_send_header, requestline_after_send_response,
      requestline_after_log.
    destruct Hclean as (_ & _ & _ & ->). reflexivity. }
  destruct (emitted_end_headers (ErrorPage code msg page) h s Hclean Hq Hs Hl)
    as (He & Hcmd & H09).
  cbv zeta. rewrite !command_after_end_headers_of.
  assert (Hcs : command s = command h) by apply Hq.
  rewrite Hcs. cbn [reply_body].
  destruct (negb (bool_decide (command h = Some "HEAD")) && negb (posixpath.is_nil page)).
  - split; [apply (emitted_write _ [] [page]), He |].
    rewrite command_set_wfile, is09_set_wfile. exact (conj Hcmd H09).
  - exact (conj He (conj Hcmd H09)).
Qed.

End Emitted.

(** ** The methods of both classes, run side by side *)

Lemma rwp_same {S A} (m : St S A) (I : A -> S -> Prop)
    (Q : A -> S -> S -> Prop) s :
  wp m I s -> (forall a s', I a s' -> Q a s' s') -> rwp m m Q s s.
Proof. intros (a & s' & Hm & HI) HQ. exists a, s', s'. auto. Qed.

Ltac rwp_call :=
  lazymatch goal with
  | |- rwp (bind self _) (bind self _) _ _ _ => apply rwp_self_bind; cbv beta
  | |- rwp (bind _ _) (bind _ _) _ _ _ => apply rwp_bind
  | |- rwp (ret _) (ret _) _ _ _ => apply rwp_ret
  | |- rwp (assign _) (assign _) _ _ _ => apply rwp_assign
  | |- rwp (send_header _ _) (send_header _ _) _ _ _ =>
      eapply rwp_run; [apply send_header_run | apply send_header_run |]
  | |- rwp (send_response _ _ _) (send_response _ _ _) _ _ _ =>
      eapply rwp_run; [apply send_response_run | apply send_response_run |]
  | |- rwp (send_error _ _ _ _ _) (send_error _ _ _ _ _) _ _ _ =>
      eapply rwp_run; [apply send_error_of_run | apply send_error_of_run |]
  | |- rwp (end_headers_of _) (end_headers_of _) _ _ _ =>
      eapply rwp_run;
      [ apply end_headers_of_run, ready_after_send_header
      | apply end_headers_of_run, ready_after_send_header |]
  end.

Ltac rwp_calls := monad_ops; repeat rwp_call.

(** The lines in the buffer after the calls of a response. *)
Ltac buffer_tac H :=
  rewrite ?buffered_send_header, ?buffered_send_response,
    ?is09_after_send_header, ?is09_after_send_response;
  destruct H as (_ & _ & -> & _); destruct (is09 _); reflexivity.

(** The lines in the log after the calls of a response. *)
Ltac log_tac H :=
  rewrite ?log_after_send_header, ?log_after_send_response,
    ?requestline_after_send_header, ?requestline_after_send_response;
  destruct H as (_ & _ & _ & ->); reflexivity.

Ltac clean_tac :=
  match goal with
  | H : clean ?h |- clean _ =>
      destruct H as (? & ? & ? & ?); destruct h; unfold clean, buffered in *;
      simpl in *; repeat split; auto
  end.

Section Twin.

Context (P : Platform) (fs : FileSystem).

Lemma head_post_end_headers r f h s :
  clean h -> quiet h s ->
  buffered s = (if is09 h then [] else response_lines P r) ->
  log s = reply_log P r (requestline s) ->
  head_result r f [] (command h) ->
  head_post P h f (after_end_headers_of false s) (after_end_headers_of true s).
Proof.
  intros Hclean Hq Hs Hl Hres.
  destruct (emitted_end_headers P r h s Hclean Hq Hs Hl) as (He & Hc & H09).
  split; [exact Hc |]. split; [exact H09 |]. exists r, []. auto.
Qed.

Lemma head_post_send_error message explain h :
  clean h ->
  head_post P h None (after_send_error_of false P 404 message explain h)
    (after_send_error_of true P 404 message explain h).
Proof.
  intros Hclean.
  destruct (emitted_send_error P 404 message explain h Hclean eq_refl)
    as (msg & page & He & Hc & H09).
  split; [exact Hc |]. split; [exact H09 |].
  exists (ErrorPage 404 msg page), (reply_body (command h) (ErrorPage 404 msg page)).
  split; [exact He |]. split; reflexivity.
Qed.

Lemma outcome_send_error code message explain h :
  clean h -> has_page code = true ->
  (is09 h = false -> valid (ErrorPage code EmptyString []) (command h)) ->
  outcome P (after_send_error_of false P code message explain h)
    (after_send_error_of true P code message explain h).
Proof.
  intros Hclean Hpage Hvalid.
  destruct (emitted_send_error P code message explain h Hclean Hpage)
    as (msg & page & He & Hc & H09).
  right. exists (ErrorPage code msg page). rewrite Hc, H09. auto.
Qed.

Lemma r_send_head_file p h :
  clean h ->
  rwp (SimpleHTTPRequestHandler.send_head_file P fs ehp p)
      (SimpleHTTPRequestHandler.send_head_file P fs ehc p)
      (head_post P h) h h.
Proof.
  intros Hclean. unfold SimpleHTTPRequestHandler.send_head_file.
  destruct (endswith_char slash p).
  { rwp_calls. now apply head_post_send_error. }
  destruct (open_rb fs p) as [[content st_mtime]|].
  2: { rwp_calls. now apply head_post_send_error. }
  rwp_calls.
  destruct (SimpleHTTPRequestHandler.not_modified P (headers h) st_mtime).
  - rwp_calls. apply (head_post_end_headers NotModified); auto.
    + quiet_tac.
    + buffer_tac Hclean.
    + log_tac Hclean.
    + split; reflexivity.
  - rwp_calls.
    apply (head_post_end_headers
             (Content (guess_type P p) content (Some st_mtime))); auto.
    + quiet_tac.
    + buffer_tac Hclean.
    + log_tac Hclean.
    + split; [reflexivity | eauto].
Qed.

Lemma r_list_directory p h :
  clean h ->
  rwp (SimpleHTTPRequestHandler.list_directory P fs ehp p)
      (SimpleHTTPRequestHandler.list_directory P fs ehc p)
      (head_post P h) h h.
Proof.
  intros Hclean. unfold SimpleHTTPRequestHandler.list_directory.
  destruct (listdir fs p) as [names|].
  2: { rwp_calls. now apply head_post_send_error. }
  rwp_calls.
  apply (head_post_end_headers
           (Content ("text/html; charset=" +:+ getfilesystemencoding P)
              (listing_page P p (path h) names) None)); auto.
  - quiet_tac.
  - buffer_tac Hclean.
  - log_tac Hclean.
  - split; [reflexivity | eauto].
Qed.

Lemma r_send_head h :
  clean h ->
  rwp (SimpleHTTPRequestHandler.send_head P fs ehp)
      (SimpleHTTPRequestHandler.send_head P fs ehc)
      (head_post P h) h h.
Proof.
  intros Hclean. unfold SimpleHTTPRequestHandler.send_head.
  rwp_calls.
  set (p := SimpleHTTPRequestHandler.translate_path P (directory h) (path h)).
  destruct (isdir fs p); [| now apply r_send_head_file].
  destruct (endswith_char slash (urlsplit_path P (path h))); simpl negb; cbv iota.
  - destruct (isfile fs (posixpath.join p "index.html"));
      [now apply r_send_head_file |].
    destruct (isfile fs (posixpath.join p "index.htm"));
      [now apply r_send_head_file |].
    now apply r_list_directory.
  - rwp_calls.
    apply (head_post_end_headers (Moved (redirect_url P (path h)))); auto.
    + quiet_tac.
    + buffer_tac Hclean.
    + log_tac Hclean.
    + split; reflexivity.
Qed.

Lemma r_do_GET h :
  clean h -> command h = Some "GET" ->
  rwp (SimpleHTTPRequestHandler.do_GET P fs ehp)
      (SimpleHTTPRequestHandler.do_GET P fs ehc)
      (fun _ hp hc => answered P hp hc) h h.
Proof.
  intros Hclean Hcmd. unfold SimpleHTTPRequestHandler.do_GET. monad_ops.
  apply rwp_bind. eapply rwp_mono; [apply r_send_head, Hclean |].
  intros f hp hc (Hc & H09 & r & body & He & Hres). rewrite Hcmd in *.
  destruct f as [fo|]; cbn [head_result] in Hres.
  - destruct Hres as (-> & ctype & modified & ->).
    unfold SimpleHTTPRequestHandler.copyfile.
    eapply rwp_run; [apply write_all_run | apply write_all_run |].
    exists (Content ctype (file_content fo) modified).
    rewrite command_set_wfile, is09_set_wfile, Hc. cbn [reply_body valid].
    rewrite bool_decide_eq_false_2 by discriminate.
    split; [apply (emitted_write P _ []), He | intros _; now left].
  - destruct Hres as (-> & Hkind). apply rwp_ret.
    exists r. rewrite Hc. split; [exact He |]. intros _.
    destruct r; cbn [valid]; [| contradiction | now left | now left].
    right. left. split; [exact Hkind | now left].
Qed.

Lemma r_do_HEAD h :
  clean h -> command h = Some "HEAD" ->
  rwp (SimpleHTTPRequestHandler.do_HEAD P fs ehp)
      (SimpleHTTPRequestHandler.do_HEAD P fs ehc)
      (fun _ hp hc => answered P hp hc) h h.
Proof.
  intros Hclean Hcmd. unfold SimpleHTTPRequestHandler.do_HEAD. monad_ops.
  apply rwp_bind. eapply rwp_mono; [apply r_send_head, Hclean |].
  intros f hp hc (Hc & H09 & r & body & He & Hres). rewrite Hcmd in *.
  apply rwp_ret.
  destruct f as [fo|]; cbn [head_result] in Hres.
  - destruct Hres as (-> & ctype & modified & ->).
    exists (Content ctype (file_content fo) modified).
    rewrite Hc. cbn [reply_body valid].
    rewrite bool_decide_eq_true_2 by reflexivity.
    split; [exact He | intros _; now right].
  - destruct Hres as (-> & Hkind).
    exists r. rewrite Hc. split; [exact He |]. intros _.
    destruct r; cbn [valid]; [| contradiction | now right | now right].
    right. left. split; [exact Hkind | now right].
Qed.

Lemma r_parse_request_headers c p h :
  clean h ->
  rwp (parse_request_headers P ehp c p) (parse_request_headers P ehc c p)
      (parsed2 P) h h.
Proof.
  intros Hclean. unfold parse_request_headers. rwp_calls.
  match goal with |- rwp (when_ ?b ?m) _ _ ?s _ =>
    apply (rwp_same (when_ b m) (fun _ h' => clean h' /\ command h' = Some c))
  end.
  { apply wp_when; intros _; [apply wp_assign |];
      (split; [clean_tac | destruct h; reflexivity]). }
  intros _ h1 [Hclean1 Hcmd1]. rwp_calls.
  destruct (parse_headers P (rfile h1)) as [fields rest | err | err].
  - rwp_calls. rewrite protocol_version_old, !andb_false_r. cbv iota. simpl when_.
    match goal with |- rwp ?m _ _ ?s _ =>
      apply (rwp_same m (fun _ h' => clean h' /\ command h' = Some c))
    end.
    { destruct (eqb_str _ "close"); [apply wp_assign | apply wp_ret];
        (split; [clean_tac | destruct h1; exact Hcmd1]). }
    intros _ h2 [Hclean2 Hcmd2]. rwp_calls. simpl andb. cbv iota.
    apply rwp_ret. repeat split; try apply Hclean2. rewrite Hcmd2; eauto.
  - rwp_calls. apply outcome_send_error; auto.
    intros _. cbn [valid]. do 3 right. left. rewrite Hcmd1. eauto.
  - rwp_calls. apply outcome_send_error; auto.
    intros _. cbn [valid]. do 3 right. left. rewrite Hcmd1. eauto.
Qed.

Lemma r_parse_request_words requestline words h :
  clean h -> command h = None ->
  rwp (parse_request_words P ehp requestline words)
      (parse_request_words P ehc requestline words)
      (parsed2 P) h h.
Proof.
  intros Hclean Hcmd. unfold parse_request_words.
  destruct (negb _).
  { rwp_calls. apply outcome_send_error; auto.
    intros _. cbn [valid]. now left. }
  destruct words as [| command [| path words]];
    try (apply rwp_ret; left; repeat split; auto; apply Hclean).
  destruct (_ =? 2).
  - rwp_calls. destruct (negb _).
    + rwp_calls. apply outcome_send_error; [clean_tac | reflexivity |].
      intros _. cbn [valid]. left. destruct h; auto.
    + apply r_parse_request_headers. clean_tac.
  - now apply r_parse_request_headers.
Qed.

Lemma r_parse_request h :
  wfile h = [] -> buffered h = [] -> log h = [] ->
  rwp (parse_request P ehp) (parse_request P ehc) (parsed2 P) h h.
Proof.
  intros Hnil Hbuf Hlog. unfold parse_request. rwp_calls.
  match goal with |- context [set_requestline ?r ?s] =>
    assert (Hstart : clean (set_requestline r s)
                     /\ command (set_requestline r s) = None
                     /\ is09 (set_requestline r s) = true)
      by (destruct h; unfold clean, buffered in *; simpl in *; auto);
    generalize dependent (set_requestline r s)
  end.
  intros h1 (Hclean1 & Hcmd1 & H091).
  destruct (posixpath.is_nil _).
  { apply rwp_ret. left. repeat split; auto; apply Hclean1. }
  destruct (3 <=? _); [| now apply r_parse_request_words].
  destruct (parse_version P _) as [[base number]|].
  2: { rwp_calls. apply outcome_send_error; auto. congruence. }
  rewrite protocol_version_old, andb_false_r. simpl when_. rwp_calls.
  destruct (version_ge number (2, 0)).
  - rwp_calls. apply outcome_send_error; auto. congruence.
  - rwp_calls. apply r_parse_request_words; [clean_tac | destruct h1; exact Hcmd1].
Qed.

Lemma getattr_GET c : eqb_str ("do_" +:+ c) "do_GET" = eqb_str c "GET".
Proof. reflexivity. Qed.

Lemma getattr_HEAD c : eqb_str ("do_" +:+ c) "do_HEAD" = eqb_str c "HEAD".
Proof. reflexivity. Qed.

Lemma r_handle_one_request h :
  clean h -> command h = None ->
  rwp (SimpleHTTPRequestHandler.handle_one_request P fs ehp)
      (SimpleHTTPRequestHandler.handle_one_request P fs ehc)
      (fun _ hp hc => outcome P hp hc) h h.
Proof.
  intros Hclean Hcmd.
  unfold SimpleHTTPRequestHandler.handle_one_request, handle_one_request.
  rwp_calls. destruct (readline 65537 (rfile h)) as [line rest].
  rwp_calls.
  match goal with |- context [set_raw_requestline line ?s] =>
    assert (Hstart : clean (set_raw_requestline line s)
                     /\ command (set_raw_requestline line s) = None)
      by (split; [clean_tac | destruct h; exact Hcmd]);
    generalize dependent (set_raw_requestline line s)
  end.
  intros h1 (Hclean1 & Hcmd1).
  destruct (65536 <? _).
  { rwp_calls. apply outcome_send_error; [clean_tac | reflexivity |].
    intros _. cbn [valid]. do 2 right. left. destruct h1; auto. }
  destruct (posixpath.is_nil line).
  { rwp_calls. left.
    split; [reflexivity | split; [clean_tac | destruct h1; exact Hcmd1]]. }
  rwp_calls. eapply rwp_mono.
  { apply r_parse_request; apply Hclean1. }
  intros [|] hp hc Hp; cbn [parsed2] in Hp; simpl negb; cbv iota.
  2: { apply rwp_ret, Hp. }
  destruct Hp as (-> & Hclean2 & c & Hc). rwp_calls. rewrite Hc.
  unfold SimpleHTTPRequestHandler.getattr.
  rewrite getattr_GET, getattr_HEAD.
  destruct (eqb_str c "GET") eqn:EG.
  { apply eqb_str_eq in EG. subst c.
    eapply rwp_mono; [now apply r_do_GET |]. intros ? tp tc Ha. now right. }
  destruct (eqb_str c "HEAD") eqn:EH.
  { apply eqb_str_eq in EH. subst c.
    eapply rwp_mono; [now apply r_do_HEAD |]. intros ? tp tc Ha. now right. }
  rwp_calls. apply outcome_send_error; auto.
  intros _. cbn [valid]. do 4 right. rewrite Hc.
  split; [reflexivity | split; [eauto |]].
  intros [[= ->] | [= ->]]; discriminate.
Qed.

Lemma handle_loop_closed eh ga fuel h :
  close_connection h = true -> handle_loop P eh ga fuel h = (Ok tt, h).
Proof.
  intros Hc. destruct fuel; cbn [handle_loop]; monad_ops;
    unfold bind, self; rewrite Hc; reflexivity.
Qed.

Lemma outcome_close hp hc :
  outcome P hp hc -> close_connection hp = true /\ close_connection hc = true.
Proof.
  intros [(-> & (Hc & _) & _) | (r & (Hs & Hc & _) & _)]; [auto |].
  split; [| exact Hc]. rewrite <- Hc. apply Hs.
Qed.

(** Both classes handle a connection: they return, and the classes
    have answered alike. *)
Lemma r_handle h :
  wfile h = [] -> buffered h = [] -> log h = [] -> command h = None ->
  rwp (SimpleHTTPRequestHandler.handle P fs ehp)
      (SimpleHTTPRequestHandler.handle P fs ehc)
      (fun _ hp hc => outcome P hp hc) h h.
Proof.
  intros Hnil Hbuf Hlog Hcmd.
  unfold SimpleHTTPRequestHandler.handle, handle. rwp_calls.
  eapply rwp_mono.
  { apply r_handle_one_request.
    - destruct h; unfold clean, buffered in *; simpl in *; auto.
    - destruct h; exact Hcmd. }
  intros ? hp hc Ho. rwp_calls.
  destruct (outcome_close _ _ Ho) as [Hcp Hcc].
  eapply rwp_run; [now apply handle_loop_closed | now apply handle_loop_closed |].
  exact Ho.
Qed.

End Twin.

(** A connection, handled by both classes. *)
Lemma twin_handled P w request :
  exists hp,
    inherited_handle P (files w) (new_handler w request) = (Ok tt, hp)
    /\ outcome P hp (handled P w request).
Proof.
  destruct (r_handle P (files w) (new_handler w request) eq_refl eq_refl eq_refl
              eq_refl)
    as ([] & hp & hc & Hp & Hc & Ho).
  exists hp. split; [exact Hp |].
  unfold handled, exec, CrossOriginIsolatedHandler.handle.
  change CrossOriginIsolatedHandler.end_headers with ehc.
  rewrite Hc. exact Ho.
Qed.

(** A response with a header block, as the isolated class sends it. *)
Lemma handled_reply P w request :
  request_version (handled P w request) <> "HTTP/0.9" ->
  wfile (handled P w request) <> [] ->
  exists r,
    wfile (handled P w request) = wire P true (command (handled P w request)) r
    /\ valid r (command (handled P w request)).
Proof.
  intros Hv Hw. apply is09_false in Hv.
  destruct (twin_handled P w request) as (hp & _ & [Hs | (r & He & Hvalid)]).
  - destruct Hs as (_ & (_ & Hnil & _) & _). contradiction.
  - exists r. split; [| auto].
    destruct He as (_ & _ & _ & _ & Hc & _). unfold head_blocks in Hc.
    rewrite Hv in Hc. exact Hc.
Qed.



(** * Further properties of the handler class *)




(** X3.  Every response that has a header block is of one of four
    kinds: the page of an error (400, 404, 414, 431 or 501), a document
    (200: a file or a directory listing), the redirection of a directory
    (301) or not modified (304).  Its header block is the status line,
    [Server], [Date], the fields of its kind in a fixed order, then the
    two isolation headers and the blank line; what follows is the body
    of its kind.  A document, a redirection, not modified and 404 answer
    GET and HEAD only; 501 answers every other method. *)
Theorem response_is_one_of_four_kinds
    (P : Platform) (w : World) (request : bytes) :
  request_version (handled P w request) <> "HTTP/0.9" ->
  wfile (handled P w request) <> [] ->
  exists r,
    wfile (handled P w request)
    = join_bytes (status_line (reply_code r) (reply_message r)
                  :: header_line "Server" (version_string P)
                  :: header_line "Date" (date_time_string P None)
                  :: map field_line (reply_fields P r)
                     ++ [coop_line; coep_line; blank_line])
      :: reply_body (command (handled P w request)) r
    /\ valid r (command (handled P w request)).
Proof.
  intros Hv Hw. destruct (handled_reply P w request Hv Hw) as (r & Hwire & Hvalid).
  exists r. split; [exact Hwire | exact Hvalid].
Qed.

Lemma response_is_one_of_four_kinds_witness :
  let P := Sample.platform [] in
  let h := handled P Sample.world (Sample.request "POST /index.html HTTP/1.1") in
  request_version h <> "HTTP/0.9" /\ wfile h <> []
  /\ exists r,
       wfile h
       = join_bytes (status_line (reply_code r) (reply_message r)
                     :: header_line "Server" (version_string P)
                     :: header_line "Date" (date_time_string P None)
                     :: map field_line (reply_fields P r)
                        ++ [coop_line; coep_line; blank_line])
         :: reply_body (command h) r
       /\ valid r (command h).
Proof.
  cbv zeta.
  assert (Hv : request_version (handled (Sample.platform []) Sample.world
                  (Sample.request "POST /index.html HTTP/1.1")) <> "HTTP/0.9")
    by (vm_compute; discriminate).
  assert (Hw : wfile (handled (Sample.platform []) Sample.world
                  (Sample.request "POST /index.html HTTP/1.1")) <> [])
    by (vm_compute; discriminate).
  split; [exact Hv |]. split; [exact Hw |].
  exact (response_is_one_of_four_kinds _ _ _ Hv Hw).
Defined.






(** X6.  The status line names HTTP/1.0 and one of eight codes, and
    the code goes with the request method: 200, 301, 304 and 404 answer
    GET and HEAD only, and 501 answers neither. *)
Theorem status_goes_with_the_method
    (P : Platform) (w : World) (request : bytes) :
  request_version (handled P w request) <> "HTTP/0.9" ->
  wfile (handled P w request) <> [] ->
  exists code message lines body,
    wfile (handled P w request)
    = join_bytes (encode_latin1 ("HTTP/1.0 " +:+ str_of_int code +:+ " "
                                 +:+ message +:+ CRLF)
                  :: lines)
      :: body
    /\ In code [200; 301; 304; 400; 404; 414; 431; 501]
    /\ (In code [200; 301; 304; 404] -> served (command (handled P w request)))
    /\ (code = 501 -> ~ served (command (handled P w request))).
Proof.
  intros Hv Hw. destruct (handled_reply P w request Hv Hw) as (r & Hwire & Hvalid).
  exists (reply_code r),
    (match reply_message r with
     | Some m => m
     | None => match responses (reply_code r) with
               | Some (phrase, _) => phrase
               | None => EmptyString
               end
     end),
    (map field_line (response_fields P r) ++ [coop_line; coep_line; blank_line]),
    (reply_body (command (handled P w request)) r).
  split; [exact Hwire |].
  destruct r as [code message page | ctype content modified | location |];
    cbn [reply_code valid] in *.
  - destruct Hvalid as [[-> Hc] | [[-> Hc] | [[-> Hc] | [[-> Hc] | [-> [Hc Hn]]]]]];
      (split; [simpl; tauto |]); split; try discriminate; try (intros _; assumption);
      intros Hin; simpl in Hin; try exact Hc; exfalso; lia.
  - split; [simpl; tauto |]. split; [auto | discriminate].
  - split; [simpl; tauto |]. split; [auto | discriminate].
  - split; [simpl; tauto |]. split; [auto | discriminate].
Qed.

Lemma status_goes_with_the_method_witness :
  let h := handled (Sample.platform []) Sample.world
             (Sample.request "PUT /index.html HTTP/1.1") in
  request_version h <> "HTTP/0.9" /\ wfile h <> []
  /\ exists code message lines body,
       wfile h
       = join_bytes (encode_latin1 ("HTTP/1.0 " +:+ str_of_int code +:+ " "
                                    +:+ message +:+ CRLF)
                     :: lines)
         :: body
       /\ In code [200; 301; 304; 400; 404; 414; 431; 501]
       /\ (In code [200; 301; 304; 404] -> served (command h))
       /\ (code = 501 -> ~ served (command h)).
Proof.
  cbv zeta.
  assert (Hv : request_version (handled (Sample.platform []) Sample.world
                  (Sample.request "PUT /index.html HTTP/1.1")) <> "HTTP/0.9")
    by (vm_compute; discriminate).
  assert (Hw : wfile (handled (Sample.platform []) Sample.world
                  (Sample.request "PUT /index.html HTTP/1.1")) <> [])
    by (vm_compute; discriminate).
  split; [exact Hv |]. split; [exact Hw |].
  exact (status_goes_with_the_method _ _ _ Hv Hw).
Defined.

(** ** Directories, stale copies and trailing slashes *)

Section Paths.

Context (P : Platform) (fs : FileSystem).

Ltac run_tac :=
  repeat match goal with
  | |- context [bind (send_response ?P ?c ?m) ?k ?h] =>
      rewrite (bind_run (send_response P c m) k h tt _
                 (send_response_run P c m h))
  | |- context [bind (send_header ?kw ?v) ?k ?h] =>
      rewrite (bind_run (send_header kw v) k h tt _ (send_header_run kw v h))
  | |- context [bind CrossOriginIsolatedHandler.end_headers ?k ?h] =>
      rewrite (bind_run CrossOriginIsolatedHandler.end_headers k h tt _
                 (end_headers_run h))
  | |- context [bind (send_error ?P CrossOriginIsolatedHandler.end_headers
                        ?c ?m ?e) ?k ?h] =>
      rewrite (bind_run (send_error P CrossOriginIsolatedHandler.end_headers c m e)
                 k h tt _ (send_error_run P c m e h))
  end.

Lemma wfile_after_response r h s :
  is09 h = false -> wfile h = [] -> quiet h s ->
  buffered s = response_lines P r ->
  wfile (after_end_headers s) = [header_block P true r].
Proof.
  intros H09 Hw Hq Hs. pose proof (quiet_is09 _ _ Hq) as H09s.
  destruct Hq as (Hqw & _).
  rewrite wfile_after_end_headers, H09s, H09, Hqw, Hw, Hs. reflexivity.
Qed.

Lemma do_GET_after_send_head h f h' :
  CrossOriginIsolatedHandler.send_head P fs h = (Ok f, h') ->
  CrossOriginIsolatedHandler.do_HEAD P fs h = (Ok tt, h')
  /\ CrossOriginIsolatedHandler.do_GET P fs h
     = (Ok tt,
        match f with
        | Some fo =>
            set_wfile
              (wfile h' ++ SimpleHTTPRequestHandler.copy_blocks
                             (length (file_content fo)) (file_content fo)) h'
        | None => h'
        end).
Proof.
  intros Hrun.
  unfold CrossOriginIsolatedHandler.do_HEAD, CrossOriginIsolatedHandler.do_GET,
    SimpleHTTPRequestHandler.do_HEAD, SimpleHTTPRequestHandler.do_GET,
    CrossOriginIsolatedHandler.send_head in *.
  monad_ops. rewrite !(bind_run _ _ _ _ _ Hrun). split; [reflexivity |].
  destruct f as [fo|]; [| reflexivity].
  unfold SimpleHTTPRequestHandler.copyfile. apply write_all_run.
Qed.

Lemma send_head_file_not_found p h :
  endswith_char slash p = true \/ open_rb fs p = None ->
  SimpleHTTPRequestHandler.send_head_file P fs
    CrossOriginIsolatedHandler.end_headers p h
  = (Ok None, after_send_error P 404 (Some "File not found") None h).
Proof.
  intros Hno. unfold SimpleHTTPRequestHandler.send_head_file. monad_ops.
  destruct (endswith_char slash p); [run_tac; reflexivity |].
  destruct Hno as [Hno | ->]; [discriminate | run_tac; reflexivity].
Qed.

Lemma send_head_file_opened p h content st_mtime :
  endswith_char slash p = false -> open_rb fs p = Some (content, st_mtime) ->
  SimpleHTTPRequestHandler.send_head_file P fs
    CrossOriginIsolatedHandler.end_headers p h
  = if SimpleHTTPRequestHandler.not_modified P (headers h) st_mtime
    then (Ok None, after_end_headers (after_send_response P 304 None h))
    else (Ok (Some (DiskFile p content st_mtime)),
          after_end_headers
            (after_send_header "Last-Modified" (date_time_string P (Some st_mtime))
               (after_send_header "Content-Length"
                  (str_of_int (Z.of_nat (length content)))
                  (after_send_header "Content-type" (guess_type P p)
                     (after_send_response P 200 None h))))).
Proof.
  intros Hslash Hopen. unfold SimpleHTTPRequestHandler.send_head_file.
  rewrite Hslash, Hopen. monad_ops. unfold bind at 1, self at 1.
  destruct (SimpleHTTPRequestHandler.not_modified P (headers h) st_mtime);
    run_tac; reflexivity.
Qed.

Lemma send_head_not_directory h :
  isdir fs (SimpleHTTPRequestHandler.translate_path P (directory h) (path h))
  = false ->
  CrossOriginIsolatedHandler.send_head P fs h
  = SimpleHTTPRequestHandler.send_head_file P fs
      CrossOriginIsolatedHandler.end_headers
      (SimpleHTTPRequestHandler.translate_path P (directory h) (path h)) h.
Proof.
  intros Hdir.
  unfold CrossOriginIsolatedHandler.send_head, SimpleHTTPRequestHandler.send_head.
  monad_ops. unfold bind at 1, self at 1. now rewrite Hdir.
Qed.


End Paths.

Lemma endswith_char_app c a b :
  truthy b = true -> endswith_char c (a +:+ b) = endswith_char c b.
Proof.
  intros Hb. induction a as [| x a IH]; [reflexivity |].
  change (String x a +:+ b) with (String x (a +:+ b)).
  cbn [endswith_char]. rewrite IH.
  destruct (a +:+ b) eqn:E; [| reflexivity].
  destruct a, b; discriminate.
Qed.


(** The buffer after the calls of a response that has a header block. *)
Ltac lines_tac H09 Hb :=
  rewrite ?buffered_send_header, ?buffered_send_response,
    ?is09_after_send_header, ?is09_after_send_response, ?H09, ?Hb;
  reflexivity.




(** The page of [send_error], line by line. *)
Lemma wfile_after_send_error P h code message explain :
  is09 h = false -> wfile h = [] -> buffered h = [] -> has_page code = true ->
  let r := default ("???", "???") (responses code) in
  let msg := default r.1 message in
  let page := error_body P code msg (default r.2 explain) in
  wfile (after_send_error P code message explain h)
  = wire P true (command h) (ErrorPage code msg page).
Proof.
  intros H09 Hw Hb Hpage r msg page. unfold after_send_error.
  fold r. fold msg. fold page.
  change ((200 <=? code) && negb ((code =? 204) || (code =? 205) || (code =? 304)))
    with (has_page code).
  rewrite Hpage. cbv zeta. fold page.
  set (s := after_send_header "Content-Length" _ _).
  assert (Hs : wfile (after_end_headers s)
               = [header_block P true (ErrorPage code msg page)]).
  { apply (wfile_after_response P _ h s H09 Hw); [subst s; quiet_tac |].
    subst s.
    rewrite ?buffered_send_header, ?buffered_send_response, buffered_after_log,
      ?is09_after_send_header, ?is09_after_send_response, is09_after_log, H09, Hb.
    reflexivity. }
  assert (Hc : command (after_end_headers s) = command h).
  { subst s.
    now rewrite command_after_end_headers, !command_after_send_header,
      command_after_send_response, command_after_log. }
  rewrite Hc. unfold wire. cbn [reply_body].
  destruct (negb (bool_decide (command h = Some "HEAD")) && negb (posixpath.is_nil page)).
  - now rewrite wfile_set_wfile, Hs.
  - exact Hs.
Qed.







Lemma endswith_slash_added a : endswith_char slash (a +:+ "/") = true.
Proof. now rewrite endswith_char_app. Qed.

(** X10.  A request path that ends in a slash names no file: when it
    is not a directory the answer is 404 [File not found], with both
    isolation headers, and the file of that name without the slash, if
    there is one, is not opened. *)
Theorem trailing_slash_names_no_file
    (P : Platform) (fs : FileSystem) (h : Handler) :
  let p := SimpleHTTPRequestHandler.translate_path P (directory h) (path h) in
  request_version h <> "HTTP/0.9" -> wfile h = [] -> buffered h = [] ->
  endswith_char slash
    (rstrip is_space (before_first "#" (before_first "?" (path h)))) = true ->
  isdir fs p = false ->
  eval (CrossOriginIsolatedHandler.do_GET P fs) h = Ok tt
  /\ wfile (exec (CrossOriginIsolatedHandler.do_GET P fs) h)
     = wire P true (command h)
         (ErrorPage 404 "File not found" (not_found_page P)).
Proof.
  intros p Hv Hw Hb Hslash Hdir. apply is09_false in Hv.
  assert (Hend : endswith_char slash p = true).
  { subst p. unfold SimpleHTTPRequestHandler.translate_path.
    change (ascii_of_nat 63) with "?"%char. change (ascii_of_nat 35) with "#"%char.
    rewrite Hslash. apply endswith_slash_added. }
  pose proof (send_head_not_directory P fs h Hdir) as Hrun. fold p in Hrun.
  rewrite (send_head_file_not_found P fs p h (or_introl Hend)) in Hrun.
  destruct (do_GET_after_send_head P fs h _ _ Hrun) as [_ Hget].
  unfold eval, exec. rewrite Hget. cbn [fst snd].
  split; [reflexivity |].
  now rewrite (wfile_after_send_error P h 404 _ _ Hv Hw Hb eq_refl).
Qed.

(** [/srv/index.html] is a file: [/index.html/] does not name it. *)
Lemma trailing_slash_names_no_file_witness :
  let P := Sample.platform [] in
  let h := parsed_state "GET /index.html/ HTTP/1.1" in
  request_version h <> "HTTP/0.9"
  /\ open_rb Sample.root_files "/srv/index.html" = Some (Sample.index_body, 0)
  /\ wfile (exec (CrossOriginIsolatedHandler.do_GET P Sample.root_files) h)
     = wire P true (command h)
         (ErrorPage 404 "File not found" (not_found_page P)).
Proof.
  cbv zeta. split; [vm_compute; discriminate |]. split; [reflexivity |].
  refine (proj2 (trailing_slash_names_no_file
                   (Sample.platform []) Sample.root_files
                   (parsed_state "GET /index.html/ HTTP/1.1") _ _ _ _ _));
    solve [vm_compute; discriminate | vm_compute; reflexivity].
Defined.


(** X11.  A conditional GET the file satisfies ([If-Modified-Since]
    not before the file's time, no [If-None-Match]) is answered 304:
    the status line, [Server], [Date] and the two isolation headers,
    without [Content-Length] and without a byte of the file. *)
Theorem fresh_copy_is_not_sent_again
    (P : Platform) (fs : FileSystem) (h : Handler)
    (content : bytes) (st_mtime : Z) :
  let p := SimpleHTTPRequestHandler.translate_path P (directory h) (path h) in
  request_version h <> "HTTP/0.9" -> wfile h = [] -> buffered h = [] ->
  isdir fs p = false -> endswith_char slash p = false ->
  open_rb fs p = Some (content, st_mtime) ->
  SimpleHTTPRequestHandler.not_modified P (headers h) st_mtime = true ->
  eval (CrossOriginIsolatedHandler.do_GET P fs) h = Ok tt
  /\ wfile (exec (CrossOriginIsolatedHandler.do_GET P fs) h)
     = [join_bytes [status_line 304 None;
                    header_line "Server" (version_string P);
                    header_line "Date" (date_time_string P None);
                    coop_line; coep_line; blank_line]].
Proof.
  intros p Hv Hw Hb Hdir Hslash Hopen Hmod. apply is09_false in Hv.
  pose proof (send_head_not_directory P fs h Hdir) as Hrun. fold p in Hrun.
  rewrite (send_head_file_opened P fs p h content st_mtime Hslash Hopen), Hmod
    in Hrun.
  destruct (do_GET_after_send_head P fs h _ _ Hrun) as [_ Hget].
  unfold eval, exec. rewrite Hget. cbn [fst snd].
  split; [reflexivity |].
  rewrite (wfile_after_response P NotModified h _ Hv Hw);
    [reflexivity | quiet_tac | lines_tac Hv Hb].
Qed.

Lemma fresh_copy_is_not_sent_again_witness :
  let P := Sample.platform [] in
  let h := set_headers [("If-Modified-Since", "Thu, 01 Jan 1970 00:00:00 GMT")]
             (parsed_state "GET /index.html HTTP/1.1") in
  request_version h <> "HTTP/0.9"
  /\ wfile (exec (CrossOriginIsolatedHandler.do_GET P Sample.root_files) h)
     = [join_bytes [status_line 304 None;
                    header_line "Server" (version_string P);
                    header_line "Date" (date_time_string P None);
                    coop_line; coep_line; blank_line]].
Proof.
  cbv zeta. split; [vm_compute; discriminate |].
  refine (proj2 (fresh_copy_is_not_sent_again
                   (Sample.platform []) Sample.root_files
                   (set_headers
                      [("If-Modified-Since", "Thu, 01 Jan 1970 00:00:00 GMT")]
                      (parsed_state "GET /index.html HTTP/1.1"))
                   Sample.index_body 0 _ _ _ _ _ _ _));
    solve [vm_compute; discriminate | vm_compute; reflexivity].
Defined.


(** ** Request lines that are too long *)

Lemma handle_too_long P w request :
  65536 < Z.of_nat (length (fst (readline 65537 request))) ->
  CrossOriginIsolatedHandler.handle P (files w) (new_handler w request)
  = (Ok tt, after_send_error P 414 None None (too_long_state w request)).
Proof.
  intros Hlong.
  assert (Hwp : wp (CrossOriginIsolatedHandler.handle P (files w))
                  (fun _ h' => h' = after_send_error P 414 None None
                                      (too_long_state w request))
                  (new_handler w request)).
  { unfold CrossOriginIsolatedHandler.handle, SimpleHTTPRequestHandler.handle,
      handle, handle_one_request, too_long_state.
    wp_calls. cbn [rfile set_close_connection new_handler].
    destruct (readline 65537 request) as [line rest]. cbn [fst] in Hlong.
    wp_calls. apply Z.ltb_lt in Hlong. rewrite Hlong. wp_calls.
    eapply wp_mono; [apply wp_handle_loop |]; [| intros ? ? ->; reflexivity].
    apply inv_close_connection. right.
    apply finished_after_send_error. left. split; reflexivity. }
  destruct Hwp as ([] & h' & Hrun & ->). exact Hrun.
Qed.

(** X12.  A request line of more than 65536 bytes is not parsed: the
    answer is 414 [Request-URI Too Long] with the error page and both
    isolation headers, whatever the line holds, and the connection is
    closed. *)
Theorem long_request_line_is_refused
    (P : Platform) (w : World) (request : bytes) :
  65536 < Z.of_nat (length (fst (readline 65537 request))) ->
  wfile (handled P w request)
  = wire P true (Some EmptyString)
      (ErrorPage 414 "Request-URI Too Long"
         (error_body P 414 "Request-URI Too Long" "URI is too long"))
  /\ close_connection (handled P w request) = true.
Proof.
  intros Hlong. unfold handled, exec. rewrite (handle_too_long P w request Hlong).
  cbn [snd]. split.
  - rewrite (wfile_after_send_error P (too_long_state w request) 414 None None);
      unfold too_long_state; destruct (readline 65537 request); reflexivity.
  - apply inv_close_connection. right. apply finished_after_send_error. left.
    unfold too_long_state. destruct (readline 65537 request). split; reflexivity.
Qed.

(** 65537 bytes and no line feed among them. *)
Lemma long_request_line_is_refused_witness :
  let P := Sample.platform [] in
  let request := repeat "x"%byte (Z.to_nat 65537) in
  65536 < Z.of_nat (length (fst (readline 65537 request)))
  /\ wfile (handled P Sample.world request)
     = wire P true (Some EmptyString)
         (ErrorPage 414 "Request-URI Too Long"
            (error_body P 414 "Request-URI Too Long" "URI is too long")).
Proof.
  cbv zeta.
  assert (Hlong : 65536 < Z.of_nat (length (fst (readline 65537
                              (repeat "x"%byte (Z.to_nat 65537))))))
    by (vm_compute; reflexivity).
  split; [exact Hlong |].
  exact (proj1 (long_request_line_is_refused (Sample.platform []) Sample.world
                  _ Hlong)).
Defined.


(** ** The connections of a run *)







Lemma interrupt_splits (events : list event) :
  Interrupt ∉ events
  \/ exists before after, events = before ++ Interrupt :: after
                          /\ Interrupt ∉ before.
Proof.
  induction events as [| ev events IH]; [left; apply not_elem_of_nil |].
  assert (Hev : ev = Interrupt \/ ev <> Interrupt)
    by (destruct ev; auto; right; discriminate).
  destruct Hev as [-> | Hev].
  - right. exists [], events. split; [reflexivity | apply not_elem_of_nil].
  - destruct IH as [Hno | (before & after & -> & Hno)].
    + left. intros Hin. apply elem_of_cons in Hin as [Heq | Hin];
        [congruence | contradiction].
    + right. exists (ev :: before), after. split; [reflexivity |].
      intros Hin. apply elem_of_cons in Hin as [Heq | Hin]; [| contradiction].
      now symmetry in Heq.
Qed.

(** X14.  The process ends in two ways only.  It exits with status 1
    exactly when the port cannot be bound; otherwise it runs for as long
    as no signal arrives and is ended by the first one.  It never exits
    with status 0, and no request makes it exit. *)
Theorem process_ends_by_bind_failure_or_signal
    (P : Platform) (events : list event) (w : World) :
  match fst (Server.main P events w) with
  | Server.Running httpd => port_free w Server.PORT /\ Interrupt ∉ events
  | Server.Exited status => status = 1 /\ ~ port_free w Server.PORT
  | Server.Interrupted => port_free w Server.PORT /\ Interrupt ∈ events
  end.
Proof.
  assert (Hdec : port_free w Server.PORT \/ ~ port_free w Server.PORT).
  { unfold port_free. destruct (may_bind w Server.PORT);
      [| right; intros [? _]; discriminate].
    destruct (decide (Server.PORT ∈ bound w)); [right | left]; tauto. }
  destruct Hdec as [Hfree | Hno].
  2: { rewrite (TCPServer_init_fails_main P events w Hno). cbn. auto. }
  rewrite (main_unfold_ok P events w Hfree).
  destruct (interrupt_splits events) as [Hnone | (before & after & -> & Hnone)].
  - destruct (serve_forever_waits P httpd0 events (started_world w) eq_refl Hnone)
      as (w' & -> & _). cbn. auto.
  - destruct (serve_forever_interrupted P httpd0 before after (started_world w)
                eq_refl Hnone) as (w' & -> & _).
    cbn. split; [exact Hfree |].
    apply elem_of_app. right. apply elem_of_cons. now left.
Qed.

(** ** The request path and the file it names *)

Ltac alike_tac :=
  let E := fresh in
  intros E; destruct E as (? & ? & ? & ? & ? & ?);
  match goal with |- alike (_ ?h1) (_ ?h2) => destruct h1, h2
                | |- alike (_ _ ?h1) (_ _ ?h2) => destruct h1, h2
                | |- alike (_ _ _ ?h1) (_ _ _ ?h2) => destruct h1, h2
  end;
  simpl in *; subst.

Lemma alike_after_log P m1 m2 h1 h2 :
  alike h1 h2 -> alike (after_log P m1 h1) (after_log P m2 h2).
Proof. alike_tac. repeat split. Qed.

Lemma alike_after_send_response_only c m h1 h2 :
  alike h1 h2 ->
  alike (after_send_response_only c m h1) (after_send_response_only c m h2).
Proof.
  alike_tac. unfold after_send_response_only, is09, buffered. simpl.
  destruct (eqb_str _ _); repeat split.
Qed.

Lemma alike_after_send_header k v h1 h2 :
  alike h1 h2 -> alike (after_send_header k v h1) (after_send_header k v h2).
Proof.
  alike_tac. unfold after_send_header, is09, buffered. simpl.
  destruct (eqb_str _ _); repeat split.
Qed.

Lemma alike_after_end_headers h1 h2 :
  alike h1 h2 -> alike (after_end_headers h1) (after_end_headers h2).
Proof.
  alike_tac. unfold after_end_headers, is09, buffered. simpl.
  destruct (eqb_str _ _); repeat split.
Qed.

Lemma alike_set_wfile blocks h1 h2 :
  alike h1 h2 ->
  alike (set_wfile (wfile h1 ++ blocks) h1) (set_wfile (wfile h2 ++ blocks) h2).
Proof.
  intros (? & ? & ? & ? & ? & ?). destruct h1, h2. simpl in *. subst.
  repeat split.
Qed.

Lemma alike_after_send_response P c m h1 h2 :
  alike h1 h2 ->
  alike (after_send_response P c m h1) (after_send_response P c m h2).
Proof.
  intros H. unfold after_send_response.
  do 2 apply alike_after_send_header.
  now apply alike_after_send_response_only, alike_after_log.
Qed.

Lemma alike_after_send_error P c m e h1 h2 :
  alike h1 h2 ->
  alike (after_send_error P c m e h1) (after_send_error P c m e h2).
Proof.
  intros H. unfold after_send_error.
  set (r := default ("???", "???") (responses c)).
  set (msg := default r.1 m). set (page := error_body P c msg (default r.2 e)).
  assert (H1 : alike
                 (after_send_header "Connection" "close"
                    (after_send_response P c (Some msg)
                       (after_log P ("code " +:+ str_of_int c +:+ ", message "
                                     +:+ msg) h1)))
                 (after_send_header "Connection" "close"
                    (after_send_response P c (Some msg)
                       (after_log P ("code " +:+ str_of_int c +:+ ", message "
                                     +:+ msg) h2)))).
  { now apply alike_after_send_header, alike_after_send_response,
      alike_after_log. }
  destruct ((200 <=? c) && negb ((c =? 204) || (c =? 205) || (c =? 304)));
    [| now apply alike_after_end_headers].
  cbv zeta. fold page.
  set (s1 := after_end_headers
               (after_send_header "Content-Length" _
                  (after_send_header "Content-Type" _
                     (after_send_header "Connection" "close"
                        (after_send_response P c (Some msg) (after_log P _ h1)))))).
  set (s2 := after_end_headers
               (after_send_header "Content-Length" _
                  (after_send_header "Content-Type" _
                     (after_send_header "Connection" "close"
                        (after_send_response P c (Some msg) (after_log P _ h2)))))).
  assert (H2 : alike s1 s2).
  { subst s1 s2. apply alike_after_end_headers.
    do 2 apply alike_after_send_header. exact H1. }
  replace (command s1) with (command s2) by (symmetry; apply H2).
  destruct (negb (bool_decide (command s2 = Some "HEAD"))
            && negb (posixpath.is_nil page));
    [now apply alike_set_wfile | exact H2].
Qed.

Lemma alike_set_path x h : alike (set_path x h) h.
Proof. destruct h. repeat split. Qed.

Lemma send_head_file_alike P fs p h1 h2 :
  alike h1 h2 ->
  exists f s1 s2,
    SimpleHTTPRequestHandler.send_head_file P fs
      CrossOriginIsolatedHandler.end_headers p h1 = (Ok f, s1)
    /\ SimpleHTTPRequestHandler.send_head_file P fs
         CrossOriginIsolatedHandler.end_headers p h2 = (Ok f, s2)
    /\ alike s1 s2.
Proof.
  intros H.
  destruct (endswith_char slash p) eqn:Hslash.
  { rewrite !(send_head_file_not_found P fs p _ (or_introl Hslash)).
    do 3 eexists. split; [reflexivity |]. split; [reflexivity |].
    now apply alike_after_send_error. }
  destruct (open_rb fs p) as [[content st_mtime]|] eqn:Hopen.
  2: { rewrite !(send_head_file_not_found P fs p _ (or_intror Hopen)).
       do 3 eexists. split; [reflexivity |]. split; [reflexivity |].
       now apply alike_after_send_error. }
  rewrite !(send_head_file_opened P fs p _ content st_mtime Hslash Hopen).
  replace (headers h1) with (headers h2) by (symmetry; apply H).
  destruct (SimpleHTTPRequestHandler.not_modified P (headers h2) st_mtime);
    do 3 eexists; (split; [reflexivity |]); (split; [reflexivity |]).
  - now apply alike_after_end_headers, alike_after_send_response.
  - apply alike_after_end_headers. do 3 apply alike_after_send_header.
    now apply alike_after_send_response.
Qed.

(** Two request paths that name the same file get the same answer. *)
Lemma do_GET_same_file P fs h path' :
  SimpleHTTPRequestHandler.translate_path P (directory h) path'
  = SimpleHTTPRequestHandler.translate_path P (directory h) (path h) ->
  isdir fs (SimpleHTTPRequestHandler.translate_path P (directory h) (path h))
  = false ->
  eval (CrossOriginIsolatedHandler.do_GET P fs) (set_path path' h)
  = eval (CrossOriginIsolatedHandler.do_GET P fs) h
  /\ wfile (exec (CrossOriginIsolatedHandler.do_GET P fs) (set_path path' h))
     = wfile (exec (CrossOriginIsolatedHandler.do_GET P fs) h).
Proof.
  intros Hsame Hdir.
  set (p := SimpleHTTPRequestHandler.translate_path P (directory h) (path h)) in *.
  assert (Hp : SimpleHTTPRequestHandler.translate_path P
                 (directory (set_path path' h)) (path (set_path path' h)) = p)
    by (destruct h; exact Hsame).
  pose proof (send_head_not_directory P fs h Hdir) as Hrun. fold p in Hrun.
  assert (Hrun' : CrossOriginIsolatedHandler.send_head P fs (set_path path' h)
                  = SimpleHTTPRequestHandler.send_head_file P fs
                      CrossOriginIsolatedHandler.end_headers p (set_path path' h)).
  { rewrite <- Hp. apply send_head_not_directory. now rewrite Hp. }
  destruct (send_head_file_alike P fs p (set_path path' h) h (alike_set_path _ _))
    as (f & s1 & s2 & H1 & H2 & Hs).
  rewrite H1 in Hrun'. rewrite H2 in Hrun.
  destruct (do_GET_after_send_head P fs _ _ _ Hrun) as [_ Hget].
  destruct (do_GET_after_send_head P fs _ _ _ Hrun') as [_ Hget'].
  unfold eval, exec. rewrite Hget, Hget'. cbn [fst snd].
  split; [reflexivity |].
  destruct f as [fo|]; [rewrite !wfile_set_wfile; f_equal |]; apply Hs.
Qed.

Lemma before_first_app c a q :
  before_first c (a +:+ String c q) = before_first c a.
Proof.
  induction a as [| x a IH].
  - change (EmptyString +:+ String c q) with (String c q).
    cbn [before_first]. now rewrite Ascii.eqb_refl.
  - change (String x a +:+ String c q) with (String x (a +:+ String c q)).
    cbn [before_first]. destruct (Ascii.eqb x c); [reflexivity | now rewrite IH].
Qed.

Lemma before_first_comm a b s :
  before_first a (before_first b s) = before_first b (before_first a s).
Proof.
  induction s as [| x s IH]; [reflexivity |]. cbn [before_first].
  destruct (Ascii.eqb x b) eqn:Eb, (Ascii.eqb x a) eqn:Ea; cbn [before_first];
    rewrite ?Ea, ?Eb; try reflexivity.
  now rewrite IH.
Qed.

Lemma translate_path_query P d p q :
  SimpleHTTPRequestHandler.translate_path P d (p +:+ String "?" q)
  = SimpleHTTPRequestHandler.translate_path P d p.
Proof.
  unfold SimpleHTTPRequestHandler.translate_path.
  change (ascii_of_nat 63) with "?"%char. now rewrite before_first_app.
Qed.

Lemma translate_path_fragment P d p q :
  SimpleHTTPRequestHandler.translate_path P d (p +:+ String "#" q)
  = SimpleHTTPRequestHandler.translate_path P d p.
Proof.
  unfold SimpleHTTPRequestHandler.translate_path.
  change (ascii_of_nat 35) with "#"%char.
  rewrite (before_first_comm "#" _ (p +:+ String "#" q)), before_first_app,
    (before_first_comm _ "#" p).
  reflexivity.
Qed.

(** X15.  What follows a question mark or a number sign in the request
    path does not count: a request for a file with a query string or a
    fragment added to its path names the same file and gets the same
    answer, byte for byte, as the request without it. *)
Theorem query_and_fragment_are_ignored
    (P : Platform) (fs : FileSystem) (h : Handler) (mark : ascii) (q : string) :
  let p := SimpleHTTPRequestHandler.translate_path P (directory h) (path h) in
  let h' := set_path (path h +:+ String mark q) h in
  mark = "?"%char \/ mark = "#"%char ->
  isdir fs p = false ->
  SimpleHTTPRequestHandler.translate_path P (directory h') (path h') = p
  /\ eval (CrossOriginIsolatedHandler.do_GET P fs) h'
     = eval (CrossOriginIsolatedHandler.do_GET P fs) h
  /\ wfile (exec (CrossOriginIsolatedHandler.do_GET P fs) h')
     = wfile (exec (CrossOriginIsolatedHandler.do_GET P fs) h).
Proof.
  intros p h' Hmark Hdir.
  assert (Hsame : SimpleHTTPRequestHandler.translate_path P (directory h)
                    (path h +:+ String mark q) = p).
  { destruct Hmark as [-> | ->];
      [apply translate_path_query | apply translate_path_fragment]. }
  split; [subst h'; destruct h; exact Hsame |].
  now apply do_GET_same_file.
Qed.

Lemma query_and_fragment_are_ignored_witness :
  let P := Sample.platform [] in
  let h := parsed_state "GET /index.html HTTP/1.1" in
  let h' := set_path (path h +:+ "?v=2") h in
  isdir Sample.root_files
    (SimpleHTTPRequestHandler.translate_path P (directory h) (path h)) = false
  /\ path h' = "/index.html?v=2"
  /\ wfile (exec (CrossOriginIsolatedHandler.do_GET P Sample.root_files) h')
     = wfile (exec (CrossOriginIsolatedHandler.do_GET P Sample.root_files) h).
Proof.
  cbv zeta.
  assert (Hdir : isdir Sample.root_files
                   (SimpleHTTPRequestHandler.translate_path (Sample.platform [])
                      (directory (parsed_state "GET /index.html HTTP/1.1"))
                      (path (parsed_state "GET /index.html HTTP/1.1"))) = false)
    by (vm_compute; reflexivity).
  split; [exact Hdir |]. split; [vm_compute; reflexivity |].
  exact (proj2 (proj2 (query_and_fragment_are_ignored (Sample.platform [])
                         Sample.root_files
                         (parsed_state "GET /index.html HTTP/1.1") "?" "v=2"
                         (or_introl eq_refl) Hdir))).
Defined.

(** ** Request lines with a version the server does not take *)

Lemma wfile_after_send_error_09 P h code message explain :
  is09 h = true -> has_page code = true -> command h <> Some "HEAD" ->
  let r := default ("???", "???") (responses code) in
  wfile (after_send_error P code message explain h)
  = wfile h ++ bare_page (error_body P code (default r.1 message)
                            (default r.2 explain)).
Proof.
  intros H09 Hpage Hcmd r. unfold after_send_error. fold r.
  change ((200 <=? code) && negb ((code =? 204) || (code =? 205) || (code =? 304)))
    with (has_page code).
  rewrite Hpage. cbv zeta.
  set (page := error_body P code _ _).
  set (s := after_send_header "Content-Length" _ _).
  assert (Hs : wfile (after_end_headers s) = wfile h).
  { subst s.
    rewrite wfile_after_end_headers, !is09_after_send_header,
      is09_after_send_response, is09_after_log, H09, app_nil_r,
      !wfile_after_send_header, wfile_after_send_response, wfile_after_log.
    reflexivity. }
  assert (Hc : command (after_end_headers s) = command h).
  { subst s.
    now rewrite command_after_end_headers, !command_after_send_header,
      command_after_send_response, command_after_log. }
  rewrite Hc, (bool_decide_eq_false_2 _ Hcmd). unfold bare_page.
  destruct (posixpath.is_nil page); cbn [negb andb].
  - now rewrite Hs, app_nil_r.
  - now rewrite wfile_set_wfile, Hs.
Qed.

(** The rest of [handle] after [parse_request] has sent an error page
    for an HTTP/0.9 request. *)
Ltac bare_tac :=
  wp_calls; cbn [negb]; wp_calls;
  match goal with
  | |- wp _ _ (after_send_error ?P ?code ?m ?e ?s) =>
      pose proof (finished_after_send_error P code m e s
                    (or_introl (conj eq_refl eq_refl))) as [Hdone Hversion];
      eapply wp_mono;
      [ apply wp_handle_loop, inv_close_connection; right; exact Hdone
      | intros ? ? ->; split;
        [ rewrite Hversion; reflexivity
        | rewrite (wfile_after_send_error_09 P s code m e eq_refl eq_refl);
          [reflexivity | discriminate] ] ]
  end.

Lemma no_words_of_no_line request :
  fst (readline 65537 request) = [] -> request_words request = [].
Proof. unfold request_words. intros ->. reflexivity. Qed.

(** X16.  A request line of three words or more whose last word is not
    a version the server takes (it does not read as [HTTP/] and two
    numbers, or the version is 2.0 or above) is answered as an HTTP/0.9
    request: with the page of the error 400 or 505 alone.  No status
    line is sent and neither isolation header. *)
Theorem unsupported_version_gets_a_bare_page
    (P : Platform) (w : World) (request : bytes) (code : Z) (message : string) :
  Z.of_nat (length (fst (readline 65537 request))) <= 65536 ->
  3 <= Z.of_nat (length (request_words request)) ->
  version_error P (List.last (request_words request) EmptyString)
  = Some (code, message) ->
  request_version (handled P w request) = "HTTP/0.9"
  /\ wfile (handled P w request)
     = bare_page (error_body P code message
                    (default ("???", "???") (responses code)).2).
Proof.
  intros Hshort Hwords Herr.
  assert (Hwp :
    wp (CrossOriginIsolatedHandler.handle P (files w))
       (fun _ h' =>
          request_version h' = "HTTP/0.9"
          /\ wfile h' = bare_page (error_body P code message
                                     (default ("???", "???") (responses code)).2))
       (new_handler w request)).
  { unfold CrossOriginIsolatedHandler.handle, SimpleHTTPRequestHandler.handle,
      handle, handle_one_request.
    wp_calls. cbn [rfile set_close_connection new_handler].
    assert (Hline : fst (readline 65537 request) <> []).
    { intros Hnil. rewrite (no_words_of_no_line _ Hnil) in Hwords.
      cbn in Hwords. lia. }
    unfold request_words in *.
    destruct (readline 65537 request) as [line rest]. cbn [fst] in *.
    wp_calls.
    apply Z.leb_le in Hshort. rewrite Z.ltb_antisym, Hshort. cbn [negb].
    destruct line as [| b line]; [contradiction |]. cbn [posixpath.is_nil].
    wp_calls. unfold parse_request. wp_calls.
    cbn [raw_requestline set_raw_requestline set_rfile set_close_connection
         set_request_version set_command].
    set (words := split_ws (rstrip is_crlf (decode_latin1 (b :: line)))) in *.
    destruct words as [| w1 ws] eqn:Ew; [cbn in Hwords; lia |].
    cbn [posixpath.is_nil]. apply Z.leb_le in Hwords. rewrite Hwords.
    unfold version_error in Herr.
    destruct (parse_version P (List.last (w1 :: ws) EmptyString))
      as [[base number]|].
    - rewrite protocol_version_old, andb_false_r. simpl when_. wp_calls.
      destruct (version_ge number (2, 0)); [| discriminate].
      injection Herr as <- <-. bare_tac.
    - injection Herr as <- <-. bare_tac. }
  destruct Hwp as ([] & h' & Hrun & Hv & Hw).
  unfold handled, exec. rewrite Hrun. cbn [snd]. split; assumption.
Qed.

Lemma unsupported_version_gets_a_bare_page_witness :
  let P := Sample.platform [] in
  let request := Sample.request "GET /index.html HTTP/2.0" in
  version_error P (List.last (request_words request) EmptyString)
  = Some (505, "Invalid HTTP version (2.0)")
  /\ request_version (handled P Sample.world request) = "HTTP/0.9"
  /\ wfile (handled P Sample.world request)
     = bare_page (error_body P 505 "Invalid HTTP version (2.0)"
                    (default ("???", "???") (responses 505)).2).
Proof.
  cbv zeta.
  assert (Herr : version_error (Sample.platform [])
                   (List.last (request_words
                                 (Sample.request "GET /index.html HTTP/2.0"))
                      EmptyString)
                 = Some (505, "Invalid HTTP version (2.0)"))
    by (vm_compute; reflexivity).
  split; [exact Herr |].
  refine (unsupported_version_gets_a_bare_page (Sample.platform []) Sample.world
            (Sample.request "GET /index.html HTTP/2.0") 505
            "Invalid HTTP version (2.0)" _ _ Herr).
  - vm_compute. discriminate.
  - vm_compute. discriminate.
Defined.

